(** * Exploration engine: provider layer, artifact extraction, failover

    A shallow embedding of the TypeScript sources

      - [src/renderer/services/ai/types.ts]
      - [src/renderer/services/ai/AzureAIProvider.ts]
      - [src/renderer/services/ai/AIService.ts]
      - the [ExplorationEngine] fragments of [docs/MINI_SYNTHESIS_INTEGRATION.md]

    Conventions.

    - A JavaScript string is a [string]: a sequence of code units.  The
      embedding covers the code units [0..255] (Latin-1), which is where
      every literal of the sources lives; [String.length] is [.length].
    - JavaScript integers that the code only counts with (indices, token
      counts, delays, timestamps) are [nat] or [Z].
    - Asynchronous code is sequential here: every [await] is a call in a
      state-and-exception monad [M] over a [World] that holds the scripted
      answers of the outside (HTTP endpoint, vendor SDK, clock, synthesis
      service) and the trace of what the program did to it. *)

From Stdlib Require Import String Ascii List Bool Arith ZArith Lia.
From Stdlib Require Import DecimalString.
From Stdlib Require DecimalNat DecimalFacts.
From Equations.Prop Require Import Equations Logic.
Import ListNotations.

Set Implicit Arguments.
Set Default Goal Selector "!".
Set Warnings "-register-all".

Local Open Scope string_scope.
Local Open Scope list_scope.
Local Open Scope nat_scope.

(** String concatenation ([+] on strings, template literals). *)
Infix "+++" := String.append (right associativity, at level 60).

(* ===================================================================== *)
(** ** JavaScript string primitives used by the sources *)
(* ===================================================================== *)

Module JsString.

Definition charCode (c : ascii) : nat := nat_of_ascii c.

(** [String.prototype.toLowerCase], per code unit: [A-Z] and the Latin-1
    capitals [U+00C0..U+00DE] (but not the multiplication sign [U+00D7])
    move up by 32. *)
Definition lowerChar (c : ascii) : ascii :=
  let n := charCode c in
  if ((65 <=? n) && (n <=? 90))
     || ((192 <=? n) && (n <=? 222) && negb (n =? 215))
  then ascii_of_nat (n + 32) else c.

Fixpoint toLowerCase (s : string) : string :=
  match s with
  | EmptyString => EmptyString
  | String c r => String (lowerChar c) (toLowerCase r)
  end.

(** [toUpperCase] on the one-character string [str.charAt(0)].  Inside
    Latin-1 three code units leave the range when capitalised
    (micro sign, sharp s, y with diaeresis); none of them is a word
    character, and [capitalizeFirst] only ever sees word characters, so
    they are left alone here. *)
Definition upperChar (c : ascii) : ascii :=
  let n := charCode c in
  if ((97 <=? n) && (n <=? 122))
     || ((224 <=? n) && (n <=? 254) && negb (n =? 247))
  then ascii_of_nat (n - 32) else c.

(** [\w] without the unicode flag: [[A-Za-z0-9_]]. *)
Definition isWordChar (c : ascii) : bool :=
  let n := charCode c in
  ((65 <=? n) && (n <=? 90)) || ((97 <=? n) && (n <=? 122))
  || ((48 <=? n) && (n <=? 57)) || (n =? 95).

(** WhiteSpace and LineTerminator code units below 256:
    TAB, LF, VT, FF, CR, SP, NBSP. *)
Definition isWhiteSpace (c : ascii) : bool :=
  let n := charCode c in
  ((9 <=? n) && (n <=? 13)) || (n =? 32) || (n =? 160).

Definition isEmpty (s : string) : bool :=
  match s with EmptyString => true | String _ _ => false end.

Fixpoint trimStart (s : string) : string :=
  match s with
  | EmptyString => EmptyString
  | String c r => if isWhiteSpace c then trimStart r else s
  end.

Fixpoint trimEnd (s : string) : string :=
  match s with
  | EmptyString => EmptyString
  | String c r =>
      let r' := trimEnd r in
      if isWhiteSpace c && isEmpty r' then EmptyString else String c r'
  end.

Definition trim (s : string) : string := trimEnd (trimStart s).

(** [s.startsWith(p)]; on success [stripPrefix] also gives what follows. *)
Fixpoint stripPrefix (p s : string) : option string :=
  match p with
  | EmptyString => Some s
  | String a p' =>
      match s with
      | EmptyString => None
      | String b s' => if Ascii.eqb a b then stripPrefix p' s' else None
      end
  end.

Definition startsWith (s p : string) : bool :=
  match stripPrefix p s with Some _ => true | None => false end.

(** [s.includes(sub)] *)
Fixpoint includes (s sub : string) : bool :=
  startsWith s sub
  || match s with
     | EmptyString => false
     | String _ r => includes r sub
     end.

(** [s.slice(n)] for [0 <= n] *)
Fixpoint slice (n : nat) (s : string) : string :=
  match n, s with
  | O, _ => s
  | S _, EmptyString => EmptyString
  | S n', String _ r => slice n' r
  end.

(** [s.split(sep)] for a one-character separator: never empty. *)
Fixpoint split (sep : ascii) (s : string) : list string :=
  match s with
  | EmptyString => [EmptyString]
  | String c r =>
      if Ascii.eqb c sep then EmptyString :: split sep r
      else match split sep r with
           | [] => [String c EmptyString]
           | x :: xs => String c x :: xs
           end
  end.

(** Template-literal rendering of a non-negative integer. *)
Definition ofNat (n : nat) : string :=
  NilZero.string_of_uint (Nat.to_uint n).

Definition ofZ (z : Z) : string :=
  NilZero.string_of_int (Z.to_int z).

(** [Array.prototype.includes] on an array of strings *)
Definition arrayIncludes (xs : list string) (x : string) : bool :=
  existsb (String.eqb x) xs.

Definition LF : ascii := ascii_of_nat 10.

End JsString.
Import JsString.

(* ===================================================================== *)
(** ** [types.ts]: the shared data model *)
(* ===================================================================== *)

Inductive AIProvider := azure | anthropic.

(** The union of string literals [AIModel]. *)
Inductive AIModel :=
| claude_3_5_sonnet_20241022
| claude_3_5_haiku_20241022
| claude_3_opus_20240229
| gpt_4o
| gpt_4o_mini
| o1_preview
| o1_mini
| claude_sonnet_4_5_20250929
| claude_opus_4_20250514
| claude_haiku_4_5.

(** The literal each member of [AIModel] stands for. *)
Definition modelId (m : AIModel) : string :=
  match m with
  | claude_3_5_sonnet_20241022 => "claude-3-5-sonnet-20241022"
  | claude_3_5_haiku_20241022 => "claude-3-5-haiku-20241022"
  | claude_3_opus_20240229 => "claude-3-opus-20240229"
  | gpt_4o => "gpt-4o"
  | gpt_4o_mini => "gpt-4o-mini"
  | o1_preview => "o1-preview"
  | o1_mini => "o1-mini"
  | claude_sonnet_4_5_20250929 => "claude-sonnet-4-5-20250929"
  | claude_opus_4_20250514 => "claude-opus-4-20250514"
  | claude_haiku_4_5 => "claude-haiku-4-5"
  end.

(** A parsed JSON value ([Record<string, unknown>], [unknown]). *)
Inductive Json :=
| JNull
| JBool (b : bool)
| JNum (z : Z)
| JStr (s : string)
| JArr (l : list Json)
| JObj (l : list (string * Json)).

Inductive ArtifactType := code | document | visualization | data.

(** The object literal [{ language, lineCount }] the extractors store under
    [Artifact.metadata]. *)
Record ArtifactMetadata := { language : string; lineCount : nat }.

Module Artifact.
Record t := {
  id : string;
  stageId : option string;
  type : ArtifactType;
  title : string;
  content : string;
  metadata : option ArtifactMetadata;
  createdAt : Z
}.
End Artifact.

Module StreamChunk.
Module kind.
Inductive t := content | thinking | tool_use.
End kind.
Record t := { type : kind.t; content : string; isComplete : bool }.
End StreamChunk.

Module ToolUse.
Record t := { type : string; input : Json }.
End ToolUse.

Module TokenUsage.
Record t := {
  inputTokens : Z;
  outputTokens : Z;
  thinkingTokens : option Z
}.
End TokenUsage.

Module AIResponse.
Record t := {
  content : string;
  thinking : option string;
  artifacts : option (list Artifact.t);
  toolUses : option (list ToolUse.t);
  usage : option TokenUsage.t;
  provider : AIProvider;
  model : AIModel
}.
End AIResponse.

Module AITool.
Record t := { name : string; description : string; input_schema : Json }.
End AITool.

(** [AIExecuteOptions].  The two callbacks are observers: what matters here
    is whether one was passed; each call of one is recorded in the trace of
    the world.  [temperature] (a float that is only copied into the request)
    is left out. *)
Module AIExecuteOptions.
Record t := {
  prompt : string;
  model : option AIModel;
  maxTokens : option Z;
  extendedThinking : option bool;
  thinkingBudget : option Z;
  stream : option bool;
  onChunk : bool;
  onThinking : bool;
  tools : option (list AITool.t);
  systemPrompt : option string
}.

Definition withModel (o : t) (m : AIModel) : t :=
  {| prompt := prompt o; model := Some m; maxTokens := maxTokens o;
     extendedThinking := extendedThinking o;
     thinkingBudget := thinkingBudget o; stream := stream o;
     onChunk := onChunk o; onThinking := onThinking o;
     tools := tools o; systemPrompt := systemPrompt o |}.
End AIExecuteOptions.

Record AzureAIConfig := {
  endpoint : string;
  apiKey : string;
  deploymentName : option string;
  apiVersion : option string
}.

Module AnthropicConfig.
Record t := { apiKey : string }.
End AnthropicConfig.

(** [AIConfig].  A field typed [string] that the caller left out reads as
    the empty string below: both are falsy, which is all the code asks. *)
Module AIConfig.
Record t := {
  provider : AIProvider;
  azure : option AzureAIConfig;
  anthropic : option AnthropicConfig.t
}.
End AIConfig.

(** [MODEL_MAPPING]: family name, Azure id, Anthropic id. *)
Module ModelPair.
Record t := { azure : AIModel; anthropic : AIModel }.
End ModelPair.

Definition MODEL_MAPPING : list (string * ModelPair.t) :=
  [ ("sonnet", {| ModelPair.azure := claude_3_5_sonnet_20241022;
                  ModelPair.anthropic := claude_sonnet_4_5_20250929 |});
    ("haiku",  {| ModelPair.azure := claude_3_5_haiku_20241022;
                  ModelPair.anthropic := claude_haiku_4_5 |});
    ("opus",   {| ModelPair.azure := claude_3_opus_20240229;
                  ModelPair.anthropic := claude_opus_4_20250514 |}) ].

(* ===================================================================== *)
(** ** The fence pattern of both extractors *)
(* ===================================================================== *)

(** The regular expression literal of [extractArtifacts], written with
    backtracking matchers in continuation-passing style: a matcher gets the
    input from the current position and a continuation for what follows it,
    and tries its alternatives in the order the ECMAScript matcher does. *)
Module Regex.
Import JsString.

Record Match := { group1 : option string; group2 : string }.

Section Matchers.
Context {R : Type}.

(** a literal *)
Definition lit (p : string) (s : string) (k : string -> option R)
  : option R :=
  match stripPrefix p s with
  | Some r => k r
  | None => None
  end.

(** [(cls+)] greedy and capturing: the longest run first, then shorter
    ones while the continuation fails. *)
Fixpoint plusGreedy (cls : ascii -> bool) (s : string)
  (k : string -> string -> option R) : option R :=
  match s with
  | EmptyString => None
  | String c r =>
      if cls c then
        match plusGreedy cls r (fun cap rest => k (String c cap) rest) with
        | Some x => Some x
        | None => k (String c EmptyString) r
        end
      else None
  end.

(** [(atom)?] greedy: the atom first, then without it (the group is
    then undefined). *)
Definition optGreedy
  (atom : string -> (string -> string -> option R) -> option R)
  (s : string) (k : option string -> string -> option R) : option R :=
  match atom s (fun cap rest => k (Some cap) rest) with
  | Some x => Some x
  | None => k None s
  end.

(** [([\s\S]*?)] lazy and capturing: the shortest run first. *)
Fixpoint starLazyAny (s : string) (k : string -> string -> option R)
  : option R :=
  match k EmptyString s with
  | Some x => Some x
  | None =>
      match s with
      | EmptyString => None
      | String c r => starLazyAny r (fun cap rest => k (String c cap) rest)
      end
  end.
End Matchers.

Definition fence : string := "```".
Definition newline : string := String LF EmptyString.

(** [/```(\w+)?\n([\s\S]*?)```/] tried at the start of [s]: the captures
    and the input after the match. *)
Definition matchAt (s : string) : option (Match * string) :=
  lit fence s (fun s1 =>
  optGreedy (plusGreedy isWordChar) s1 (fun g1 s2 =>
  lit newline s2 (fun s3 =>
  starLazyAny s3 (fun g2 s4 =>
  lit fence s4 (fun s5 =>
  Some ({| group1 := g1; group2 := g2 |}, s5)))))).

(** [codeBlockRegex.exec(content)] with the [g] flag, from [lastIndex]:
    [s] is the input from [lastIndex] on.  The leftmost position where the
    pattern matches wins; the result carries the input from the new
    [lastIndex] on.  [None] is [null]. *)
Fixpoint exec (s : string) : option (Match * string) :=
  match matchAt s with
  | Some m => Some m
  | None =>
      match s with
      | EmptyString => None
      | String _ r => exec r
      end
  end.

(** Every match consumes input (seven code units at least): what makes the
    extraction loops end. *)
Definition exec_consumes (s : string) (x : Match * string)
  : exec s = Some x -> String.length (snd x) + 7 <= String.length s.
Proof.
  assert (Hstrip : forall p s r, stripPrefix p s = Some r ->
            String.length r + String.length p = String.length s).
  { induction p as [|a p IH]; intros [|b t] r H; simpl in *;
      try discriminate.
    - inversion H; reflexivity.
    - inversion H; simpl; lia.
    - destruct (Ascii.eqb a b); [|discriminate].
      apply IH in H. lia. }
  assert (Hlit : forall p s (k : string -> option (Match * string)) n,
            (forall r x, k r = Some x ->
               String.length (snd x) + n <= String.length r) ->
            forall x, lit p s k = Some x ->
               String.length (snd x) + n + String.length p
               <= String.length s).
  { intros p t k n Hk y H. unfold lit in H.
    destruct (stripPrefix p t) as [r|] eqn:E; [|discriminate].
    apply Hstrip in E. apply Hk in H. lia. }
  assert (Hstar : forall s (k : string -> string -> option (Match * string)) n,
            (forall c r x, k c r = Some x ->
               String.length (snd x) + n <= String.length r) ->
            forall x, starLazyAny s k = Some x ->
               String.length (snd x) + n <= String.length s).
  { induction s0 as [|c t IH]; intros k n Hk y H; simpl in H.
    - destruct (k EmptyString EmptyString) eqn:E; [|discriminate].
      inversion H; subst. apply Hk in E. exact E.
    - destruct (k EmptyString (String c t)) eqn:E.
      + inversion H; subst. apply Hk in E. exact E.
      + apply IH with (n := n) in H.
        * simpl. lia.
        * intros c' r x' Hx. apply Hk in Hx. exact Hx. }
  assert (Hplus : forall s (k : string -> string -> option (Match * string)) n,
            (forall c r x, k c r = Some x ->
               String.length (snd x) + n <= String.length r) ->
            forall x, plusGreedy isWordChar s k = Some x ->
               String.length (snd x) + n <= String.length s).
  { induction s0 as [|c t IH]; intros k n Hk y H; simpl in H;
      [discriminate|].
    destruct (isWordChar c); [|discriminate].
    destruct (plusGreedy isWordChar t
                (fun cap rest => k (String c cap) rest)) eqn:E.
    - inversion H; subst. apply IH with (n := n) in E.
      + simpl. lia.
      + intros c' r x' Hx. apply Hk in Hx. exact Hx.
    - apply Hk in H. simpl. lia. }
  assert (Hat : forall s x, matchAt s = Some x ->
            String.length (snd x) + 7 <= String.length s).
  { intros t y H. unfold matchAt in H.
    apply Hlit with (n := 4) in H; [simpl in H; lia|].
    intros s1 x1 H1. unfold optGreedy in H1.
    assert (Hrest : forall g1 s2 x2,
              lit newline s2 (fun s3 =>
                starLazyAny s3 (fun g2 s4 =>
                  lit fence s4 (fun s5 =>
                    Some ({| group1 := g1; group2 := g2 |}, s5))))
              = Some x2 ->
              String.length (snd x2) + 4 <= String.length s2).
    { intros g1 s2 x2 H2.
      apply Hlit with (n := 3) in H2; [simpl in H2; lia|].
      intros s3 x3 H3.
      apply Hstar with (n := 3) in H3; [exact H3|].
      intros g2 s4 x4 H4.
      apply Hlit with (n := 0) in H4; [simpl in H4; lia|].
      intros s5 x5 H5. inversion H5; subst; simpl. lia. }
    match type of H1 with
    | match ?scrut with _ => _ end = _ => destruct scrut eqn:E
    end.
    - inversion H1; subst.
      apply Hplus with (n := 4) in E; [exact E|].
      intros cap r x' Hx. apply Hrest in Hx. exact Hx.
    - apply Hrest in H1. exact H1. }
  revert x. induction s as [|c t IH]; intros x H.
  - vm_compute in H. discriminate H.
  - simpl in H. destruct (matchAt (String c t)) eqn:E.
    + inversion H; subst. apply Hat in E. exact E.
    + apply IH in H. simpl. lia.
Qed.

End Regex.

(* ===================================================================== *)
(** ** The outside world and the monad of the asynchronous code *)
(* ===================================================================== *)

(** What a JavaScript [throw] carries: an instance of [Error] (its [name]
    tells [Error], [TypeError], [SyntaxError], an SDK error apart) or any
    other value. *)
Inductive Thrown :=
| JsError (name message : string)
| NonError (v : Json).

Definition newError (message : string) : Thrown := JsError "Error" message.

Inductive Outcome (A : Type) :=
| Return (a : A)
| Throw (e : Thrown).
Arguments Return {A} a.
Arguments Throw {A} e.

(** *** The chat-completions endpoint *)

(** The shape [parseResponse] reads the body at. *)
Module ToolCall.
(** [tool.function.name], [tool.function.arguments] *)
Record t := { name : string; arguments : string }.
End ToolCall.

Module Message.
Record t := { content : option string; tool_calls : option (list ToolCall.t) }.
End Message.

Module Choice.
Record t := { message : option Message.t }.
End Choice.

Module Usage.
Record t := { prompt_tokens : option Z; completion_tokens : option Z }.
End Usage.

Module Completion.
Record t := { choices : option (list Choice.t); usage : option Usage.t }.
End Completion.

(** What [response.json()] resolves to, as far as [parseResponse] tells
    bodies apart.  JSON [null]: reading [response.choices] of it is a
    [TypeError], there being no [?.] on [response].  A body whose
    [choices[0].message.tool_calls] is truthy and cannot be iterated (a
    number, [true], an object): the [for (const tool of toolCalls)] is a
    [TypeError], outside the [try] of the loop body.  Every other body goes
    through the optional chains and the [|| ''], [|| []], [|| 0] defaults,
    and is read at the shape [Completion.t], a link that is absent or falsy
    being [None]; a content that is there is taken to be the string the
    declared type of the result says, and an element of [tool_calls] that
    has no [function] goes the way of one whose arguments do not parse, the
    [TypeError] being raised inside the [try]. *)
Module Body.
Inductive t :=
| null
| toolCallsNotIterable
| shaped (completion : Completion.t).
End Body.

(** The shape the streaming loop reads a parsed [data:] frame at. *)
Module Delta.
Record t := { content : option string; thinking : option string }.
End Delta.

Module FrameChoice.
Record t := { delta : option Delta.t }.
End FrameChoice.

Module Frame.
Record t := { choices : option (list FrameChoice.t); usage : option Usage.t }.
End Frame.

(** One [await reader.read()] that is not [done]. *)
Inductive ReadResult :=
| ReadChunk (text : string)
| ReadRejects (e : Thrown).

(** A [Response]: [text] is what [response.text()] resolves to, [json] what
    [response.json()] does ([Throw]: the body does not parse), [body] the
    reads [response.body.getReader()] will deliver before [done] ([None]:
    there is no body).  [ok] is the status being in 200..299. *)
Module Response.
Record t := {
  status : nat;
  text : string;
  json : Outcome Body.t;
  body : option (list ReadResult)
}.
Definition ok (r : t) : bool := (200 <=? status r) && (status r <=? 299).
End Response.

Inductive FetchOutcome :=
| FetchRejects (e : Thrown)
| FetchResolves (r : Response.t).

Module RequestBody.
Record FunctionTool := {
  name : string; description : string; parameters : Json
}.
Record t := {
  model : AIModel;
  messages : list (string * string);      (* role, content *)
  max_tokens : Z;
  extra_body : option Z;                   (* thinking.budget_tokens *)
  tools : option (list FunctionTool);
  stream : bool
}.
Definition withStream (b : t) : t :=
  {| model := model b; messages := messages b; max_tokens := max_tokens b;
     extra_body := extra_body b; tools := tools b; stream := true |}.
End RequestBody.

(** *** The vendor SDK *)

Module Anthropic.
Inductive ContentBlock :=
| text (text : string)
| tool_use (name : string) (input : Json)
| other_block.

(** The untyped [thinking] property [parseAnthropicResponse] looks for:
    an array of blocks (type, thinking) or a string. *)
Inductive ThinkingField :=
| thinkingBlocks (blocks : list (string * string))
| thinkingString (s : string)
| thinkingOther.

Record Message := {
  content : list ContentBlock;
  input_tokens : Z;
  output_tokens : Z;
  thinking : option ThinkingField
}.

Inductive StreamEvent :=
| text_delta (text : string)
| thinking_delta (thinking : string)
| other_delta
| message_delta (usage : option Z)
| other_event.

Inductive StreamStep :=
| Yields (e : StreamEvent)
| IterationThrows (e : Thrown).

Record MessageStream := {
  events : list StreamStep;
  finalMessage : Outcome Message
}.

Record Params := {
  model : string;
  max_tokens : Z;
  messages : list (string * string);
  system : option string;
  tools : option (list AITool.t);
  thinking_budget : option Z;
  stream : bool
}.

(** [new Anthropic({ apiKey, dangerouslyAllowBrowser, timeout, maxRetries })] *)
Record Client := { apiKey : string; timeout : Z; maxRetries : nat }.
End Anthropic.

(** *** The synthesis service of the exploration engine *)

Record SynthesisReport := {
  summary : string;
  connections : string;
  patterns : string;
  contradictions : string;
  forwardLook : string;
  synthesisQuality : Z;
  keyInsights : list string
}.

(** The types of [ExplorationEngine.ts] that go to the synthesis service;
    [ExplorationEngine] below takes them in.  [SynthesisArguments] is what
    one [synthesisService.createMiniSynthesis(lastStages, richInsights)]
    is handed. *)
Module ExplorationTypes.

Inductive StageStatus := pending | running | complete | failed.

Inductive StageType :=
| discovering | chasing | solving | challenging
| questioning | searching | imagining | building.

Record Stage := {
  stageType : StageType;
  status : StageStatus;
  result : string
}.

Record RichInsight := {
  category : string;
  insight : string;
  quality : Z
}.

Record SynthesisArguments := {
  givenStages : list Stage;
  givenInsights : list RichInsight
}.

End ExplorationTypes.

(** *** Trace and world *)

(** What the program does to the outside, in order.  [EvProviderCall] is
    the one entry that is no effect of the source: it marks the entry into
    [executeWithAzure] or [executeWithAnthropic], so that provider calls
    can be counted; [EvSynthesis] carries what the synthesis service is
    handed. *)
Inductive Event :=
| EvFetch (url authorization : string) (body : RequestBody.t)
| EvSleep (ms : nat)
| EvChunk (c : StreamChunk.t)
| EvThinking (s : string)
| EvMessagesCreate (p : Anthropic.Params)
| EvMessagesStream (p : Anthropic.Params)
| EvProviderCall (p : AIProvider) (m : option AIModel)
| EvSynthesis (given : ExplorationTypes.SynthesisArguments).

(** The answers of everything the code awaits or calls but does not
    contain, one per call in call order, the number of calls made so far,
    and the trace.  [JSON.parse] is the host's: [parseFrame] and [parseJson]
    give its result at the two types the code reads it at ([None]: it
    throws). *)
Record World := {
  fetchScript : nat -> FetchOutcome;
  fetchCalls : nat;
  createScript : nat -> Outcome Anthropic.Message;
  streamScript : nat -> Outcome Anthropic.MessageStream;
  sdkCalls : nat;
  clock : nat -> Z;
  clockReads : nat;
  parseFrame : string -> option Frame.t;
  parseJson : string -> option Json;
  synthesisScript : nat -> Outcome SynthesisReport;
  synthesisCalls : nat;
  trace : list Event
}.

Definition M (A : Type) : Type := World -> Outcome A * World.

Definition ret {A} (a : A) : M A := fun w => (Return a, w).

Definition throw {A} (e : Thrown) : M A := fun w => (Throw e, w).

Definition bind {A B} (m : M A) (k : A -> M B) : M B :=
  fun w =>
    match m w with
    | (Return a, w') => k a w'
    | (Throw e, w') => (Throw e, w')
    end.

(** [try { m } catch (e) { h e }] *)
Definition tryCatch {A} (m : M A) (h : Thrown -> M A) : M A :=
  fun w =>
    match m w with
    | (Return a, w') => (Return a, w')
    | (Throw e, w') => h e w'
    end.

Declare Scope js_scope.
Delimit Scope js_scope with js.
Notation "x <- m ;; k" := (bind m (fun x => k))
  (at level 61, m at next level, right associativity) : js_scope.
Notation "m ;; k" := (bind m (fun _ => k))
  (at level 61, right associativity) : js_scope.
Notation "'try' m 'catch' e '=>' h" := (tryCatch m (fun e => h))
  (at level 62, e name, m at level 61, right associativity) : js_scope.
Local Open Scope js_scope.

(** The world after one more event, and after one more call of each
    kind. *)
Definition logged (w : World) (e : Event) : World :=
  {| fetchScript := fetchScript w; fetchCalls := fetchCalls w;
     createScript := createScript w; streamScript := streamScript w;
     sdkCalls := sdkCalls w; clock := clock w; clockReads := clockReads w;
     parseFrame := parseFrame w; parseJson := parseJson w;
     synthesisScript := synthesisScript w;
     synthesisCalls := synthesisCalls w;
     trace := trace w ++ [e] |}.

Definition fetched (w : World) : World :=
  {| fetchScript := fetchScript w; fetchCalls := S (fetchCalls w);
     createScript := createScript w; streamScript := streamScript w;
     sdkCalls := sdkCalls w; clock := clock w; clockReads := clockReads w;
     parseFrame := parseFrame w; parseJson := parseJson w;
     synthesisScript := synthesisScript w;
     synthesisCalls := synthesisCalls w;
     trace := trace w |}.

Definition sdkCalled (w : World) : World :=
  {| fetchScript := fetchScript w; fetchCalls := fetchCalls w;
     createScript := createScript w; streamScript := streamScript w;
     sdkCalls := S (sdkCalls w); clock := clock w;
     clockReads := clockReads w;
     parseFrame := parseFrame w; parseJson := parseJson w;
     synthesisScript := synthesisScript w;
     synthesisCalls := synthesisCalls w;
     trace := trace w |}.

Definition clockRead (w : World) : World :=
  {| fetchScript := fetchScript w; fetchCalls := fetchCalls w;
     createScript := createScript w; streamScript := streamScript w;
     sdkCalls := sdkCalls w; clock := clock w;
     clockReads := S (clockReads w);
     parseFrame := parseFrame w; parseJson := parseJson w;
     synthesisScript := synthesisScript w;
     synthesisCalls := synthesisCalls w;
     trace := trace w |}.

Definition synthesisCalled (w : World) : World :=
  {| fetchScript := fetchScript w; fetchCalls := fetchCalls w;
     createScript := createScript w; streamScript := streamScript w;
     sdkCalls := sdkCalls w; clock := clock w; clockReads := clockReads w;
     parseFrame := parseFrame w; parseJson := parseJson w;
     synthesisScript := synthesisScript w;
     synthesisCalls := S (synthesisCalls w);
     trace := trace w |}.

Definition emit (e : Event) : M unit :=
  fun w => (Return tt, logged w e).

(** [await fetch(url, { method: 'POST', headers, body })] *)
Definition fetch (url authorization : string) (body : RequestBody.t)
  : M Response.t :=
  fun w =>
    let w' := fetched (logged w (EvFetch url authorization body)) in
    match fetchScript w (fetchCalls w) with
    | FetchRejects e => (Throw e, w')
    | FetchResolves r => (Return r, w')
    end.

(** [Date.now()] *)
Definition Date_now : M Z :=
  fun w => (Return (clock w (clockReads w)), clockRead w).

(** [await new Promise((resolve) => setTimeout(resolve, delay))] *)
Definition sleep (delay : nat) : M unit := emit (EvSleep delay).

(** [await client.messages.create(params)] *)
Definition messages_create (p : Anthropic.Params) : M Anthropic.Message :=
  fun w =>
    (createScript w (sdkCalls w), sdkCalled (logged w (EvMessagesCreate p))).

(** [await client.messages.stream(params)] *)
Definition messages_stream (p : Anthropic.Params)
  : M Anthropic.MessageStream :=
  fun w =>
    (streamScript w (sdkCalls w), sdkCalled (logged w (EvMessagesStream p))).

Definition syntaxError : Thrown :=
  JsError "SyntaxError" "Unexpected token in JSON".

(** [JSON.parse(data)], read as a stream frame *)
Definition JSON_parse_frame (data : string) : M Frame.t :=
  fun w =>
    match parseFrame w data with
    | Some f => (Return f, w)
    | None => (Throw syntaxError, w)
    end.

(** [JSON.parse(tool.function.arguments)] *)
Definition JSON_parse (text : string) : M Json :=
  fun w =>
    match parseJson w text with
    | Some j => (Return j, w)
    | None => (Throw syntaxError, w)
    end.

(** [if (c) { m }] *)
Definition when (c : bool) (m : M unit) : M unit :=
  if c then m else ret tt.

(** [for (const x of xs) { f x }] *)
Fixpoint forOf {A} (xs : list A) (f : A -> M unit) : M unit :=
  match xs with
  | [] => ret tt
  | x :: xs' => f x ;; forOf xs' f
  end.

(** [x || d] on an optional string: the empty string is falsy too. *)
Definition orString (x : option string) (d : string) : string :=
  match x with
  | Some s => if isEmpty s then d else s
  | None => d
  end.

(** [x || 0] on an optional number *)
Definition orZero (x : option Z) : Z :=
  match x with Some z => z | None => 0%Z end.

(** Is an optional string truthy? *)
Definition truthy (x : option string) : option string :=
  match x with
  | Some s => if isEmpty s then None else Some s
  | None => None
  end.

(* ===================================================================== *)
(** ** [AzureAIProvider.ts] *)
(* ===================================================================== *)

Module AzureAIProvider.

(** The fields of an instance; [new] is a fresh one. *)
Record t := { config : option AzureAIConfig; isInitialized : bool }.

Definition new : t := {| config := None; isInitialized := false |}.

Definition MAX_RETRIES : nat := 3.
Definition RETRY_DELAY_MS : nat := 2000.

(** [endpoint.replace(/\/$/, '')] *)
Fixpoint removeTrailingSlash (s : string) : string :=
  match s with
  | EmptyString => EmptyString
  | String c r =>
      if Ascii.eqb c "/" && isEmpty r then EmptyString
      else String c (removeTrailingSlash r)
  end.

Definition initialize (this : t) (config : AzureAIConfig) : Outcome t :=
  if isEmpty (endpoint config) || isEmpty (apiKey config) then
    Throw (newError "Azure AI endpoint and API key are required")
  else
    Return
      {| config :=
           Some {| endpoint := removeTrailingSlash (endpoint config);
                   apiKey := apiKey config;
                   deploymentName := deploymentName config;
                   apiVersion :=
                     Some (orString (apiVersion config)
                                    "2024-05-01-preview") |};
         isInitialized := true |}.

Definition getInitializationStatus (this : t) : bool :=
  isInitialized this
  && match config this with Some _ => true | None => false end.

(** *** Artifact extraction *)

Definition getArtifactType (language : string) : ArtifactType :=
  let codeLanguages :=
    [ "javascript"; "typescript"; "python"; "java"; "rust"; "go"; "cpp";
      "c"; "html"; "css"; "jsx"; "tsx"; "ruby"; "php"; "swift"; "kotlin";
      "scala" ] in
  let vizLanguages := [ "mermaid"; "graphviz"; "dot"; "plantuml" ] in
  let dataLanguages := [ "json"; "yaml"; "toml"; "xml"; "csv" ] in
  let lang := toLowerCase language in
  if arrayIncludes codeLanguages lang then code
  else if arrayIncludes vizLanguages lang then visualization
  else if arrayIncludes dataLanguages lang then data
  else document.

Definition capitalizeFirst (str : string) : string :=
  match str with
  | EmptyString => EmptyString
  | String c r => String (upperChar c) r
  end.

(** The body of the [while] loop of [extractArtifacts] for one match:
    the new [index] and [artifacts]. *)
Definition extractStep (m : Regex.Match) (index : nat)
  (artifacts : list Artifact.t) : M (nat * list Artifact.t) :=
  let language := orString (Regex.group1 m) "text" in
  let code := trim (Regex.group2 m) in
  if 10 <? String.length code then
    idStamp <- Date_now ;;
    created <- Date_now ;;
    ret (index + 1,
         artifacts ++
         [ {| Artifact.id :=
                "artifact-" +++ ofZ idStamp +++ "-" +++ ofNat index;
              Artifact.stageId := None;
              Artifact.type := getArtifactType language;
              Artifact.title := capitalizeFirst language +++ " Code";
              Artifact.content := code;
              Artifact.metadata :=
                Some {| language := language;
                        lineCount := List.length (split LF code) |};
              Artifact.createdAt := created |} ])
  else ret (index, artifacts).

(** The [while ((match = codeBlockRegex.exec(content)) !== null)] loop;
    [content] is the text from [lastIndex] on.  Every match ends behind
    the position it was searched from, which is why the loop ends. *)
Equations? extractLoop (content : string) (index : nat)
  (artifacts : list Artifact.t) (w : World)
  : Outcome (list Artifact.t) * World
  by wf (String.length content) lt :=
  extractLoop content index artifacts w with
  inspect (Regex.exec content) := {
    | exist _ None _ => (Return artifacts, w)
    | exist _ (Some (m, rest)) Hexec
        with extractStep m index artifacts w := {
        | (Return (index', artifacts'), w') =>
            extractLoop rest index' artifacts' w'
        | (Throw e, w') => (Throw e, w') } }.
Proof.
  apply Regex.exec_consumes in Hexec. simpl in Hexec. lia.
Qed.

Definition extractArtifacts (content : string) : M (list Artifact.t) :=
  extractLoop content 0 [].

(** *** Requests *)

Definition buildRequestBody (prompt : string) (model : AIModel)
  (maxTokens : Z) (extendedThinking : bool) (thinkingBudget : Z)
  (tools : option (list AITool.t)) (systemPrompt : option string)
  : RequestBody.t :=
  let messages :=
    match truthy systemPrompt with
    | Some sp => [ ("system", sp) ]
    | None => []
    end ++ [ ("user", prompt) ] in
  {| RequestBody.model := model;
     RequestBody.messages := messages;
     RequestBody.max_tokens := maxTokens;
     RequestBody.extra_body :=
       if extendedThinking && startsWith (modelId model) "claude"
       then Some thinkingBudget else None;
     RequestBody.tools :=
       match tools with
       | Some (tool :: more) =>
           Some (map (fun tl =>
                        {| RequestBody.name := AITool.name tl;
                           RequestBody.description := AITool.description tl;
                           RequestBody.parameters := AITool.input_schema tl |})
                     (tool :: more))
       | _ => None
       end;
     RequestBody.stream := false |}.

Definition getEndpoint (this : t) : M string :=
  match config this with
  | None => throw (newError "Not initialized")
  | Some cfg => ret (endpoint cfg +++ "/chat/completions")
  end.

(** The [Authorization] header; [Content-Type] is constant. *)
Definition getHeaders (this : t) : M string :=
  match config this with
  | None => throw (newError "Not initialized")
  | Some cfg => ret ("Bearer " +++ apiKey cfg)
  end.

(** *** Responses *)

(** The [for (const tool of toolCalls)] loop of [parseResponse]: a tool
    call whose arguments do not parse is skipped. *)
Fixpoint parseToolCalls (toolCalls : list ToolCall.t)
  (toolUses : list ToolUse.t) : M (list ToolUse.t) :=
  match toolCalls with
  | [] => ret toolUses
  | tool :: more =>
      toolUses' <-
        (try (input <- JSON_parse (ToolCall.arguments tool) ;;
              ret (toolUses ++ [ {| ToolUse.type := ToolCall.name tool;
                                    ToolUse.input := input |} ]))
         catch _e => ret toolUses) ;;
      parseToolCalls more toolUses'
  end.

(** [response.choices?.[0]?.message] *)
Definition firstMessage (response : Completion.t) : option Message.t :=
  match Completion.choices response with
  | Some (choice :: _) => Choice.message choice
  | _ => None
  end.

(** What the engine throws at [response.choices] when [response] is
    [null], and at a [for...of] over a value that is not iterable. *)
Definition readOfNull : Thrown :=
  JsError "TypeError" "Cannot read properties of null (reading 'choices')".

Definition notIterable : Thrown :=
  JsError "TypeError" "toolCalls is not iterable".

(** The first line of the source reads [response.choices], the loop comes
    after the two reads of the message; nothing is observable before
    either throw. *)
Definition parseResponse (response : Body.t) (model : AIModel)
  : M AIResponse.t :=
  match response with
  | Body.null => throw readOfNull
  | Body.toolCallsNotIterable => throw notIterable
  | Body.shaped response =>
      let content :=
        orString (match firstMessage response with
                  | Some msg => Message.content msg
                  | None => None
                  end) "" in
      let toolCalls :=
        match firstMessage response with
        | Some msg =>
            match Message.tool_calls msg with Some l => l | None => [] end
        | None => []
        end in
      toolUses <- parseToolCalls toolCalls [] ;;
      artifacts <- extractArtifacts content ;;
      ret {| AIResponse.content := content;
             AIResponse.thinking := None;
             AIResponse.artifacts := Some artifacts;
             AIResponse.toolUses :=
               match toolUses with [] => None | _ :: _ => Some toolUses end;
             AIResponse.usage :=
               Some {| TokenUsage.inputTokens :=
                         orZero (match Completion.usage response with
                                 | Some u => Usage.prompt_tokens u
                                 | None => None
                                 end);
                       TokenUsage.outputTokens :=
                         orZero (match Completion.usage response with
                                 | Some u => Usage.completion_tokens u
                                 | None => None
                                 end);
                       TokenUsage.thinkingTokens := None |};
             AIResponse.provider := azure;
             AIResponse.model := model |}
  end.

Definition httpError (response : Response.t) : Thrown :=
  newError ("Azure AI error: " +++ ofNat (Response.status response)
            +++ " - " +++ Response.text response).

Definition executeNonStreaming (this : t) (body : RequestBody.t)
  (model : AIModel) : M AIResponse.t :=
  match config this with
  | None => throw (newError "Not initialized")
  | Some _ =>
      endpoint <- getEndpoint this ;;
      _startTime <- Date_now ;;
      headers <- getHeaders this ;;
      response <- fetch endpoint headers body ;;
      if negb (Response.ok response) then throw (httpError response)
      else
        data <- (fun w => (Response.json response, w)) ;;
        _endTime <- Date_now ;;
        parseResponse data model
  end.

(** *** Streaming *)

(** The four accumulators of [executeStreaming]. *)
Record StreamState := {
  fullContent : string;
  fullThinking : string;
  inputTokens : Z;
  outputTokens : Z
}.

Definition chunk (k : StreamChunk.kind.t) (text : string) (final : bool)
  : Event :=
  EvChunk {| StreamChunk.type := k; StreamChunk.content := text;
             StreamChunk.isComplete := final |}.

(** [parsed.choices?.[0]?.delta] *)
Definition firstDelta (parsed : Frame.t) : option Delta.t :=
  match Frame.choices parsed with
  | Some (choice :: _) => FrameChoice.delta choice
  | _ => None
  end.

(** The body of the inner [try] for one parsed frame. *)
Definition handleFrame (onChunk onThinking : bool) (parsed : Frame.t)
  (st : StreamState) : M StreamState :=
  st1 <-
    match truthy (match firstDelta parsed with
                  | Some d => Delta.content d
                  | None => None
                  end) with
    | Some content =>
        when onChunk (emit (chunk StreamChunk.kind.content content false)) ;;
        ret {| fullContent := fullContent st +++ content;
               fullThinking := fullThinking st;
               inputTokens := inputTokens st;
               outputTokens := outputTokens st |}
    | None => ret st
    end ;;
  st2 <-
    match truthy (match firstDelta parsed with
                  | Some d => Delta.thinking d
                  | None => None
                  end) with
    | Some thinking =>
        when onThinking (emit (EvThinking thinking)) ;;
        when onChunk
             (emit (chunk StreamChunk.kind.thinking thinking false)) ;;
        ret {| fullContent := fullContent st1;
               fullThinking := fullThinking st1 +++ thinking;
               inputTokens := inputTokens st1;
               outputTokens := outputTokens st1 |}
    | None => ret st1
    end ;;
  match Frame.usage parsed with
  | Some u =>
      ret {| fullContent := fullContent st2;
             fullThinking := fullThinking st2;
             inputTokens := orZero (Usage.prompt_tokens u);
             outputTokens := orZero (Usage.completion_tokens u) |}
  | None => ret st2
  end.

(** [for (const line of lines)]: a frame that does not parse is
    skipped. *)
Fixpoint handleLines (onChunk onThinking : bool) (lines : list string)
  (st : StreamState) : M StreamState :=
  match lines with
  | [] => ret st
  | line :: more =>
      let data := slice 6 line in
      st' <-
        (if String.eqb data "[DONE]" then ret st
         else
           try (parsed <- JSON_parse_frame data ;;
                handleFrame onChunk onThinking parsed st)
           catch _e => ret st) ;;
      handleLines onChunk onThinking more st'
  end.

(** [while (true) { const { done, value } = await reader.read(); ... }]
    over the reads the body delivers; the end of the list is [done]. *)
Fixpoint readLoop (onChunk onThinking : bool) (reads : list ReadResult)
  (st : StreamState) : M StreamState :=
  match reads with
  | [] => ret st
  | ReadRejects e :: _ => throw e
  | ReadChunk text :: more =>
      let lines :=
        filter (fun line => startsWith line "data: ") (split LF text) in
      st' <- handleLines onChunk onThinking lines st ;;
      readLoop onChunk onThinking more st'
  end.

Definition executeStreaming (this : t) (body : RequestBody.t)
  (model : AIModel) (onChunk onThinking : bool) : M AIResponse.t :=
  match config this with
  | None => throw (newError "Not initialized")
  | Some _ =>
      endpoint <- getEndpoint this ;;
      headers <- getHeaders this ;;
      response <- fetch endpoint headers (RequestBody.withStream body) ;;
      if negb (Response.ok response) then throw (httpError response)
      else
        match Response.body response with
        | None => throw (newError "No response body")
        | Some reads =>
            st <- readLoop onChunk onThinking reads
                   {| fullContent := ""; fullThinking := "";
                      inputTokens := 0; outputTokens := 0 |} ;;
            when onChunk (emit (chunk StreamChunk.kind.content "" true)) ;;
            artifacts <- extractArtifacts (fullContent st) ;;
            ret {| AIResponse.content := fullContent st;
                   AIResponse.thinking := truthy (Some (fullThinking st));
                   AIResponse.artifacts := Some artifacts;
                   AIResponse.toolUses := None;
                   AIResponse.usage :=
                     Some {| TokenUsage.inputTokens := inputTokens st;
                             TokenUsage.outputTokens := outputTokens st;
                             TokenUsage.thinkingTokens := None |};
                   AIResponse.provider := azure;
                   AIResponse.model := model |}
        end
  end.

(** *** Retry *)

Definition retryableKeywords : list string :=
  [ "network error"; "fetch failed"; "timeout"; "connection reset";
    "socket hang up"; "econnreset"; "429"; "503"; "502" ].

Definition isRetryableError (error : Thrown) : bool :=
  match error with
  | NonError _ => false
  | JsError _ message =>
      let errorMessage := toLowerCase message in
      existsb (fun keyword => includes errorMessage keyword)
              retryableKeywords
  end.

(** [RETRY_DELAY_MS * Math.pow(2, attempt - 1)], for [attempt >= 1] (the
    method is private and only entered with [attempt = 1]). *)
Definition retryDelay (attempt : nat) : nat :=
  RETRY_DELAY_MS * 2 ^ (attempt - 1).

Equations? executeWithRetry (operation : M AIResponse.t) (attempt : nat)
  (w : World) : Outcome AIResponse.t * World
  by wf (MAX_RETRIES - attempt) lt :=
  executeWithRetry operation attempt w with operation w := {
    | (Return response, w1) => (Return response, w1)
    | (Throw error, w1) with
        inspect (isRetryableError error && (attempt <? MAX_RETRIES)) := {
        | exist _ true HshouldRetry =>
            executeWithRetry operation (attempt + 1)
                             (snd (sleep (retryDelay attempt) w1))
        | exist _ false _ => (Throw error, w1) } }.
Proof.
  apply andb_true_iff in HshouldRetry. destruct HshouldRetry as [_ Hlt].
  apply Nat.ltb_lt in Hlt. unfold MAX_RETRIES in Hlt.
  destruct attempt as [|[|[|n]]]; simpl; lia.
Qed.

(** *** [execute] *)

Definition orDefault {A} (x : option A) (d : A) : A :=
  match x with Some a => a | None => d end.

Definition execute (this : t) (options : AIExecuteOptions.t)
  : M AIResponse.t :=
  match config this with
  | None => throw (newError "Azure AI provider not initialized")
  | Some _ =>
      let prompt := AIExecuteOptions.prompt options in
      let model :=
        orDefault (AIExecuteOptions.model options)
                  claude_3_5_sonnet_20241022 in
      let maxTokens :=
        orDefault (AIExecuteOptions.maxTokens options) 8000%Z in
      let extendedThinking :=
        orDefault (AIExecuteOptions.extendedThinking options) false in
      let thinkingBudget :=
        orDefault (AIExecuteOptions.thinkingBudget options) 5000%Z in
      let stream := orDefault (AIExecuteOptions.stream options) false in
      let requestBody :=
        buildRequestBody prompt model maxTokens extendedThinking
                         thinkingBudget (AIExecuteOptions.tools options)
                         (AIExecuteOptions.systemPrompt options) in
      if stream then
        executeWithRetry
          (executeStreaming this requestBody model
             (AIExecuteOptions.onChunk options)
             (AIExecuteOptions.onThinking options))
          1
      else executeNonStreaming this requestBody model
  end.

(** *** [testConnection] *)

(** The double quote, for the literals of the sources that hold one. *)
Definition quote : string := String (ascii_of_nat 34) EmptyString.

(** ['Reply with exactly "CONNECTION_OK"'] *)
Definition connectionPrompt : string :=
  "Reply with exactly " +++ quote +++ "CONNECTION_OK" +++ quote.

Definition testConnection (this : t) : M bool :=
  match config this with
  | None => ret false
  | Some _ =>
      try
        (response <-
           execute this
             {| AIExecuteOptions.prompt := connectionPrompt;
                AIExecuteOptions.model := Some claude_3_5_sonnet_20241022;
                AIExecuteOptions.maxTokens := Some 50%Z;
                AIExecuteOptions.extendedThinking := None;
                AIExecuteOptions.thinkingBudget := None;
                AIExecuteOptions.stream := None;
                AIExecuteOptions.onChunk := false;
                AIExecuteOptions.onThinking := false;
                AIExecuteOptions.tools := None;
                AIExecuteOptions.systemPrompt := None |} ;;
         let isOk := includes (AIResponse.content response) "CONNECTION_OK" in
         ret isOk)
      catch _error => ret false
  end.

End AzureAIProvider.

(* ===================================================================== *)
(** ** [AIService.ts] *)
(* ===================================================================== *)

Module AIService.

(** The fields of the class.  [azureProvider] is the module-level singleton
    [azureAIProvider]; nothing else in these sources touches it, so its
    state is kept here. *)
Record t := {
  config : option AIConfig.t;
  anthropicClient : option Anthropic.Client;
  azureProvider : AzureAIProvider.t;
  isInitialized : bool;
  activeProvider : AIProvider
}.

Definition new : t :=
  {| config := None; anthropicClient := None;
     azureProvider := AzureAIProvider.new;
     isInitialized := false; activeProvider := azure |}.

Definition MAX_RETRIES : nat := 3.
Definition RETRY_DELAY_MS : nat := 2000.

(** [config.azure?.endpoint && config.azure?.apiKey] *)
Definition azureConfigured (config : AIConfig.t) : option AzureAIConfig :=
  match AIConfig.azure config with
  | Some a =>
      if negb (isEmpty (endpoint a)) && negb (isEmpty (apiKey a))
      then Some a else None
  | None => None
  end.

(** [config.anthropic?.apiKey] *)
Definition anthropicConfigured (config : AIConfig.t)
  : option AnthropicConfig.t :=
  match AIConfig.anthropic config with
  | Some a => if isEmpty (AnthropicConfig.apiKey a) then None else Some a
  | None => None
  end.

(** [initialize]: the outcome and the instance afterwards (the fields
    assigned before a throw stay assigned). *)
Definition initialize (this : t) (config : AIConfig.t) : Outcome unit * t :=
  let this1 :=
    {| config := Some config; anthropicClient := anthropicClient this;
       azureProvider := azureProvider this;
       isInitialized := isInitialized this;
       activeProvider := AIConfig.provider config |} in
  let azureStep :=
    match azureConfigured config with
    | Some a =>
        match AzureAIProvider.initialize (azureProvider this1) a with
        | Return p => Return p
        | Throw e => Throw e
        end
    | None => Return (azureProvider this1)
    end in
  match azureStep with
  | Throw e => (Throw e, this1)
  | Return provider =>
      (Return tt,
       {| config := Some config;
          anthropicClient :=
            match anthropicConfigured config with
            | Some a =>
                Some {| Anthropic.apiKey := AnthropicConfig.apiKey a;
                        Anthropic.timeout := 20 * 60 * 1000;
                        Anthropic.maxRetries := 2 |}
            | None => anthropicClient this1
            end;
          azureProvider := provider;
          isInitialized := true;
          activeProvider := AIConfig.provider config |})
  end.

Definition initializeLegacy (this : t) (apiKey : string) : Outcome unit * t :=
  if startsWith apiKey "sk-ant-" then
    initialize this
      {| AIConfig.provider := anthropic; AIConfig.azure := None;
         AIConfig.anthropic := Some {| AnthropicConfig.apiKey := apiKey |} |}
  else
    initialize this
      {| AIConfig.provider := azure;
         AIConfig.azure :=
           Some (Build_AzureAIConfig "https://models.inference.ai.azure.com"
                                     apiKey None None);
         AIConfig.anthropic := None |}.

Definition getInitializationStatus (this : t) : bool := isInitialized this.

Definition getActiveProvider (this : t) : AIProvider := activeProvider this.

Definition hasAnthropicClient (this : t) : bool :=
  match anthropicClient this with Some _ => true | None => false end.

Definition setActiveProvider (this : t) (provider : AIProvider) : Outcome t :=
  match provider with
  | azure =>
      if negb (AzureAIProvider.getInitializationStatus (azureProvider this))
      then Throw (newError "Azure provider not initialized")
      else Return {| config := config this;
                     anthropicClient := anthropicClient this;
                     azureProvider := azureProvider this;
                     isInitialized := isInitialized this;
                     activeProvider := provider |}
  | anthropic =>
      if negb (hasAnthropicClient this)
      then Throw (newError "Anthropic provider not initialized")
      else Return {| config := config this;
                     anthropicClient := anthropicClient this;
                     azureProvider := azureProvider this;
                     isInitialized := isInitialized this;
                     activeProvider := provider |}
  end.

(** *** Model ids *)

Definition mapModel (model : AIModel) : AIModel := model.

(** [mapping[model] || model] over the three keys of the literal *)
Definition mapModelToAnthropic (model : AIModel) : AIModel :=
  match model with
  | claude_3_5_sonnet_20241022 => claude_sonnet_4_5_20250929
  | claude_3_5_haiku_20241022 => claude_haiku_4_5
  | claude_3_opus_20240229 => claude_opus_4_20250514
  | _ => model
  end.

Definition mapModelToAzure (model : AIModel) : AIModel :=
  match model with
  | claude_sonnet_4_5_20250929 => claude_3_5_sonnet_20241022
  | claude_haiku_4_5 => claude_3_5_haiku_20241022
  | claude_opus_4_20250514 => claude_3_opus_20240229
  | _ => model
  end.

Definition mapModelToAnthropicFormat (model : AIModel) : string :=
  modelId model.

(** *** Artifact extraction (the service's own copy) *)

Definition getArtifactType (language : string) : ArtifactType :=
  let codeLanguages :=
    [ "javascript"; "typescript"; "python"; "java"; "rust"; "go"; "cpp";
      "c"; "html"; "css"; "jsx"; "tsx"; "ruby"; "php"; "swift"; "kotlin";
      "scala" ] in
  let vizLanguages := [ "mermaid"; "graphviz"; "dot"; "plantuml" ] in
  let dataLanguages := [ "json"; "yaml"; "toml"; "xml"; "csv" ] in
  let lang := toLowerCase language in
  if arrayIncludes codeLanguages lang then code
  else if arrayIncludes vizLanguages lang then visualization
  else if arrayIncludes dataLanguages lang then data
  else document.

Definition extractStep (m : Regex.Match) (index : nat)
  (artifacts : list Artifact.t) : M (nat * list Artifact.t) :=
  let language := orString (Regex.group1 m) "text" in
  let code := trim (Regex.group2 m) in
  if 10 <? String.length code then
    idStamp <- Date_now ;;
    created <- Date_now ;;
    ret (index + 1,
         artifacts ++
         [ {| Artifact.id :=
                "artifact-" +++ ofZ idStamp +++ "-" +++ ofNat index;
              Artifact.stageId := None;
              Artifact.type := getArtifactType language;
              Artifact.title :=
                (match language with
                 | EmptyString => EmptyString
                 | String c _ => String (upperChar c) EmptyString
                 end +++ slice 1 language) +++ " Code";
              Artifact.content := code;
              Artifact.metadata :=
                Some {| language := language;
                        lineCount := List.length (split LF code) |};
              Artifact.createdAt := created |} ])
  else ret (index, artifacts).

Equations? extractLoop (content : string) (index : nat)
  (artifacts : list Artifact.t) (w : World)
  : Outcome (list Artifact.t) * World
  by wf (String.length content) lt :=
  extractLoop content index artifacts w with
  inspect (Regex.exec content) := {
    | exist _ None _ => (Return artifacts, w)
    | exist _ (Some (m, rest)) Hexec
        with extractStep m index artifacts w := {
        | (Return (index', artifacts'), w') =>
            extractLoop rest index' artifacts' w'
        | (Throw e, w') => (Throw e, w') } }.
Proof.
  apply Regex.exec_consumes in Hexec. simpl in Hexec. lia.
Qed.

Definition extractArtifacts (content : string) : M (list Artifact.t) :=
  extractLoop content 0 [].

(** *** The two provider calls *)

(** [executeWithAzure], with its entry recorded in the trace. *)
Definition executeWithAzure (this : t) (options : AIExecuteOptions.t)
  : M AIResponse.t :=
  emit (EvProviderCall azure (AIExecuteOptions.model options)) ;;
  AzureAIProvider.execute (azureProvider this) options.

(** [textBlocks.join(sep)] *)
Fixpoint join (sep : string) (xs : list string) : string :=
  match xs with
  | [] => ""
  | [x] => x
  | x :: more => x +++ sep +++ join sep more
  end.

Definition textBlocks (blocks : list Anthropic.ContentBlock) : list string :=
  flat_map (fun b => match b with
                     | Anthropic.text s => [s]
                     | _ => []
                     end) blocks.

Definition toolUseBlocks (blocks : list Anthropic.ContentBlock)
  : list ToolUse.t :=
  flat_map (fun b => match b with
                     | Anthropic.tool_use n i =>
                         [ {| ToolUse.type := n; ToolUse.input := i |} ]
                     | _ => []
                     end) blocks.

Definition someIfAny {A} (xs : list A) : option (list A) :=
  match xs with [] => None | _ :: _ => Some xs end.

Definition parseAnthropicResponse (response : Anthropic.Message)
  (model : AIModel) : M AIResponse.t :=
  let thinking :=
    match Anthropic.thinking response with
    | Some (Anthropic.thinkingBlocks blocks) =>
        Some (join (String LF "")
                (map snd (filter (fun b => String.eqb (fst b) "thinking")
                                 blocks)))
    | Some (Anthropic.thinkingString s) => truthy (Some s)
    | Some Anthropic.thinkingOther => None
    | None => None
    end in
  let content :=
    join (String LF (String LF ""))
         (textBlocks (Anthropic.content response)) in
  artifacts <- extractArtifacts content ;;
  ret {| AIResponse.content := content;
         AIResponse.thinking := thinking;
         AIResponse.artifacts := Some artifacts;
         AIResponse.toolUses :=
           someIfAny (toolUseBlocks (Anthropic.content response));
         AIResponse.usage :=
           Some {| TokenUsage.inputTokens := Anthropic.input_tokens response;
                   TokenUsage.outputTokens := Anthropic.output_tokens response;
                   TokenUsage.thinkingTokens := None |};
         AIResponse.provider := anthropic;
         AIResponse.model := model |}.

Definition executeAnthropicNonStreaming (this : t)
  (params : Anthropic.Params) (model : AIModel) : M AIResponse.t :=
  match anthropicClient this with
  | None => throw (newError "Not initialized")
  | Some _ =>
      _startTime <- Date_now ;;
      response <- messages_create params ;;
      _endTime <- Date_now ;;
      parseAnthropicResponse response model
  end.

(** [for await (const event of stream)]: the text and the thinking
    gathered so far. *)
Fixpoint consumeEvents (onChunk onThinking : bool)
  (events : list Anthropic.StreamStep) (fullContent fullThinking : string)
  : M (string * string) :=
  match events with
  | [] => ret (fullContent, fullThinking)
  | Anthropic.IterationThrows e :: _ => throw e
  | Anthropic.Yields event :: more =>
      match event with
      | Anthropic.text_delta text =>
          when onChunk
            (emit (AzureAIProvider.chunk StreamChunk.kind.content text false)) ;;
          consumeEvents onChunk onThinking more
                        (fullContent +++ text) fullThinking
      | Anthropic.thinking_delta thinking =>
          if isEmpty thinking then
            consumeEvents onChunk onThinking more fullContent fullThinking
          else
            when onThinking (emit (EvThinking thinking)) ;;
            when onChunk
              (emit (AzureAIProvider.chunk StreamChunk.kind.thinking
                                           thinking false)) ;;
            consumeEvents onChunk onThinking more
                          fullContent (fullThinking +++ thinking)
      | _ => consumeEvents onChunk onThinking more fullContent fullThinking
      end
  end.

Definition executeAnthropicStreaming (this : t) (params : Anthropic.Params)
  (model : AIModel) (onChunk onThinking : bool) : M AIResponse.t :=
  match anthropicClient this with
  | None => throw (newError "Not initialized")
  | Some _ =>
      stream <- messages_stream params ;;
      texts <- consumeEvents onChunk onThinking
                             (Anthropic.events stream) "" "" ;;
      finalMessage <- (fun w => (Anthropic.finalMessage stream, w)) ;;
      when onChunk
        (emit (AzureAIProvider.chunk StreamChunk.kind.content "" true)) ;;
      artifacts <- extractArtifacts (fst texts) ;;
      ret {| AIResponse.content := fst texts;
             AIResponse.thinking := truthy (Some (snd texts));
             AIResponse.artifacts := Some artifacts;
             AIResponse.toolUses :=
               someIfAny (toolUseBlocks (Anthropic.content finalMessage));
             AIResponse.usage :=
               Some {| TokenUsage.inputTokens :=
                         Anthropic.input_tokens finalMessage;
                       TokenUsage.outputTokens :=
                         Anthropic.output_tokens finalMessage;
                       TokenUsage.thinkingTokens := None |};
             AIResponse.provider := anthropic;
             AIResponse.model := model |}
  end.

(** The body of [executeWithAnthropic]. *)
Definition executeWithAnthropic_body (this : t)
  (options : AIExecuteOptions.t) : M AIResponse.t :=
  match anthropicClient this with
  | None => throw (newError "Anthropic client not initialized")
  | Some _ =>
      let model :=
        AzureAIProvider.orDefault (AIExecuteOptions.model options)
                                  claude_sonnet_4_5_20250929 in
      let maxTokens :=
        AzureAIProvider.orDefault (AIExecuteOptions.maxTokens options)
                                  8000%Z in
      let extendedThinking :=
        AzureAIProvider.orDefault (AIExecuteOptions.extendedThinking options)
                                  false in
      let thinkingBudget :=
        AzureAIProvider.orDefault (AIExecuteOptions.thinkingBudget options)
                                  5000%Z in
      let stream :=
        AzureAIProvider.orDefault (AIExecuteOptions.stream options) false in
      let createParams :=
        {| Anthropic.model := mapModelToAnthropicFormat model;
           Anthropic.max_tokens := maxTokens;
           Anthropic.messages :=
             [ ("user", AIExecuteOptions.prompt options) ];
           Anthropic.system := truthy (AIExecuteOptions.systemPrompt options);
           Anthropic.tools := AIExecuteOptions.tools options;
           Anthropic.thinking_budget :=
             if extendedThinking then Some thinkingBudget else None;
           Anthropic.stream := stream |} in
      if stream then
        executeAnthropicStreaming this createParams model
          (AIExecuteOptions.onChunk options)
          (AIExecuteOptions.onThinking options)
      else executeAnthropicNonStreaming this createParams model
  end.

(** [executeWithAnthropic], with its entry recorded in the trace. *)
Definition executeWithAnthropic (this : t) (options : AIExecuteOptions.t)
  : M AIResponse.t :=
  emit (EvProviderCall anthropic (AIExecuteOptions.model options)) ;;
  executeWithAnthropic_body this options.

(** *** [execute]: provider selection and failover *)

(** The inner [try] of the [catch] block: [Some] is the [return] of a
    fallback response, [None] is falling through to [throw error], whether
    no branch applied or the fallback threw. *)
Definition tryFallback (this : t) (options : AIExecuteOptions.t)
  (model : AIModel) : M (option AIResponse.t) :=
  try
    (if match activeProvider this with azure => true | _ => false end
        && hasAnthropicClient this
     then
       r <- executeWithAnthropic this
              (AIExecuteOptions.withModel options
                                          (mapModelToAnthropic model)) ;;
       ret (Some r)
     else if match activeProvider this with anthropic => true | _ => false end
             && AzureAIProvider.getInitializationStatus (azureProvider this)
     then
       r <- executeWithAzure this
              (AIExecuteOptions.withModel options (mapModelToAzure model)) ;;
       ret (Some r)
     else ret None)
  catch _fallbackError => ret None.

Definition execute (this : t) (options : AIExecuteOptions.t)
  : M AIResponse.t :=
  if negb (isInitialized this) then
    throw (newError "AI Service not initialized. Call initialize() first.")
  else
    let model :=
      mapModel (AzureAIProvider.orDefault (AIExecuteOptions.model options)
                                          claude_3_5_sonnet_20241022) in
    try
      (match activeProvider this with
       | azure =>
           executeWithAzure this (AIExecuteOptions.withModel options model)
       | anthropic =>
           executeWithAnthropic this
                                (AIExecuteOptions.withModel options model)
       end)
    catch error =>
      (fallback <- tryFallback this options model ;;
       match fallback with
       | Some response => ret response
       | None => throw error
       end).

(** *** [testConnection], [getAvailableModels] *)

Definition testConnection (this : t) : M bool :=
  if negb (isInitialized this) then ret false
  else
    try
      (response <-
         execute this
           {| AIExecuteOptions.prompt := AzureAIProvider.connectionPrompt;
              AIExecuteOptions.model := None;
              AIExecuteOptions.maxTokens := Some 50%Z;
              AIExecuteOptions.extendedThinking := None;
              AIExecuteOptions.thinkingBudget := None;
              AIExecuteOptions.stream := None;
              AIExecuteOptions.onChunk := false;
              AIExecuteOptions.onThinking := false;
              AIExecuteOptions.tools := None;
              AIExecuteOptions.systemPrompt := None |} ;;
       let isOk := includes (AIResponse.content response) "CONNECTION_OK" in
       ret isOk)
    catch _error => ret false.

Definition getAvailableModels (this : t) : list AIModel :=
  match activeProvider this with
  | azure =>
      [ claude_3_5_sonnet_20241022; claude_3_5_haiku_20241022;
        claude_3_opus_20240229; gpt_4o; gpt_4o_mini ]
  | anthropic =>
      [ claude_sonnet_4_5_20250929; claude_opus_4_20250514;
        claude_haiku_4_5 ]
  end.

End AIService.

(* ===================================================================== *)
(** ** [AIService.ts]: header values *)
(* ===================================================================== *)

(** [sanitizeHeaderValue] looks at code units above [0xFF], which the
    strings of the rest of this file do not have: here a string is the
    list of its UTF-16 code units. *)
Module Headers.

Definition questionMark : N := 63%N.

(** [value.replace(/[^\x00-\xFF]/g, '?')]: the pattern has no [u] flag, so
    it is tried on every code unit by itself. *)
Definition sanitizeHeaderValue (value : list N) : list N :=
  map (fun unit => if (unit <=? 255)%N then unit else questionMark) value.

(** Every code unit of [value] is one of ISO-8859-1. *)
Definition isLatin1 (value : list N) : bool :=
  forallb (fun unit => (unit <=? 255)%N) value.

End Headers.

(* ===================================================================== *)
(** ** [ExplorationEngine]: the mini-synthesis integration *)
(* ===================================================================== *)

(** The fragments of [ExplorationEngine.ts] that
    [docs/MINI_SYNTHESIS_INTEGRATION.md] gives: the configuration, the
    context, [createMiniSynthesis] and the trigger in [executeStage]. *)
Module ExplorationEngine.
Include ExplorationTypes.

(** [ExplorationConfig]: every field optional. *)
Record ExplorationConfig := {
  maxDepth : option nat;
  autoProgress : option bool;
  extendedThinking : option bool;
  saveArtifacts : option bool;
  enableMiniSynthesis : option bool;
  synthesisInterval : option Z
}.

(** [Required<ExplorationConfig>]; [maxDepth = None] is [Infinity]. *)
Module Config.
Record t := {
  maxDepth : option nat;
  autoProgress : bool;
  extendedThinking : bool;
  saveArtifacts : bool;
  enableMiniSynthesis : bool;
  synthesisInterval : Z
}.
End Config.

(** The [config.x ?? default] block of the constructor. *)
Definition configOf (config : ExplorationConfig) : Config.t :=
  {| Config.maxDepth := maxDepth config;
     Config.autoProgress :=
       AzureAIProvider.orDefault (autoProgress config) true;
     Config.extendedThinking :=
       AzureAIProvider.orDefault (extendedThinking config) true;
     Config.saveArtifacts :=
       AzureAIProvider.orDefault (saveArtifacts config) true;
     Config.enableMiniSynthesis :=
       AzureAIProvider.orDefault (enableMiniSynthesis config) true;
     Config.synthesisInterval :=
       AzureAIProvider.orDefault (synthesisInterval config) 3%Z |}.

Record ExplorationContext := {
  previousStages : list Stage;
  currentStage : Z;
  insights : list string;
  richInsights : option (list RichInsight);
  synthesisCount : option nat
}.

(** [a % b] on integers: [None] is [NaN] (a zero divisor); the sign is the
    dividend's. *)
Definition jsRem (a b : Z) : option Z :=
  if (b =? 0)%Z then None else Some (Z.rem a b).

(** [xs.slice(start)] *)
Definition sliceFrom {A} (start : Z) (xs : list A) : list A :=
  let len := Z.of_nat (List.length xs) in
  let k := if (start <? 0)%Z then Z.max (len + start) 0
           else Z.min start len in
  skipn (Z.to_nat k) xs.

(** [await this.synthesisService.createMiniSynthesis(lastStages, richInsights)]:
    the service is outside these sources; the world answers for it. *)
Definition synthesisService_createMiniSynthesis (lastStages : list Stage)
  (richInsights : list RichInsight) : M SynthesisReport :=
  fun w =>
    (synthesisScript w (synthesisCalls w),
     synthesisCalled
       (logged w (EvSynthesis {| givenStages := lastStages;
                                 givenInsights := richInsights |}))).

(** Modelled from the spec: [MiniSynthesisService.createSynthesisInsight],
    of which the integration guide shows the call and not the source.  The
    spec: a synthesis report is "converted into one Insight entry (category
    Synthesis)", an insight having a category, a text and a quality
    score. *)
Definition synthesisService_createSynthesisInsight (report : SynthesisReport)
  : RichInsight :=
  {| category := "Synthesis";
     insight := summary report;
     quality := synthesisQuality report |}.

(** The context after the [try] block of [createMiniSynthesis] went
    through with [synthesisReport]: one rich insight and one legacy insight
    more, the counter one up. *)
Definition recordSynthesis (context : ExplorationContext)
  (synthesisReport : SynthesisReport) : ExplorationContext :=
  let rich := match richInsights context with Some l => l | None => [] end in
  let synthesisInsight :=
    synthesisService_createSynthesisInsight synthesisReport in
  {| previousStages := previousStages context;
     currentStage := currentStage context;
     insights :=
       insights context ++ [ "[SYNTHESIS] " +++ summary synthesisReport ];
     richInsights := Some (rich ++ [ synthesisInsight ]);
     synthesisCount :=
       Some (match synthesisCount context with
             | Some n => n
             | None => 0
             end + 1) |}.

Definition createMiniSynthesis (config : Config.t) (context : ExplorationContext)
  : M ExplorationContext :=
  let interval := Config.synthesisInterval config in
  let lastStages := sliceFrom (- interval) (previousStages context) in
  if (Z.of_nat (List.length lastStages) <? interval)%Z then ret context
  else
    try
      (let rich :=
         match richInsights context with Some l => l | None => [] end in
       synthesisReport <-
         synthesisService_createMiniSynthesis lastStages rich ;;
       ret (recordSynthesis context synthesisReport))
    catch _error => ret context.

(** The condition of the [if] that Step 6 adds to [executeStage], read
    after [previousStages.push(stage)]. *)
Definition synthesisDue (config : Config.t) (isSummary : bool)
  (stage : Stage) (context : ExplorationContext) : bool :=
  let count := Z.of_nat (List.length (previousStages context)) in
  Config.enableMiniSynthesis config
  && negb isSummary
  && match status stage with complete => true | _ => false end
  && match jsRem count (Config.synthesisInterval config) with
     | Some r => (r =? 0)%Z
     | None => false
     end
  && (count >=? Config.synthesisInterval config)%Z.

(** [this.context.previousStages.push(stage);
     this.context.currentStage = stageNumber - 1;] *)
Definition pushStage (context : ExplorationContext) (stage : Stage)
  (stageNumber : Z) : ExplorationContext :=
  {| previousStages := previousStages context ++ [ stage ];
     currentStage := stageNumber - 1;
     insights := insights context;
     richInsights := richInsights context;
     synthesisCount := synthesisCount context |}.

(** The context update of [executeStage] and the trigger behind it. *)
Definition executeStage_updateContext (config : Config.t)
  (context : ExplorationContext) (stage : Stage) (stageNumber : Z)
  (isSummary : bool) : M ExplorationContext :=
  let context1 := pushStage context stage stageNumber in
  if synthesisDue config isSummary stage context1 then
    try createMiniSynthesis config context1
    catch _error => ret context1
  else ret context1.

(** Stage after stage through [executeStage_updateContext], numbered from
    [stageNumber]; each entry is a stage and whether it is a summary. *)
Fixpoint runStages (config : Config.t) (context : ExplorationContext)
  (stageNumber : Z) (stages : list (Stage * bool)) : M ExplorationContext :=
  match stages with
  | [] => ret context
  | (stage, isSummary) :: more =>
      context' <- executeStage_updateContext config context stage
                                             stageNumber isSummary ;;
      runStages config context' (stageNumber + 1) more
  end.

End ExplorationEngine.

(* ===================================================================== *)
(** ** A direct reading of the fence pattern, to compare the matcher with *)
(* ===================================================================== *)

Module Fence.
Import Regex.

(** The longest run of word characters at the start of [s], and the
    rest. *)
Fixpoint wordRun (s : string) : string * string :=
  match s with
  | EmptyString => (EmptyString, EmptyString)
  | String c r =>
      if isWordChar c then
        let (w, t) := wordRun r in (String c w, t)
      else (EmptyString, s)
  end.

(** [s] cut at its first closing fence: what stands before it and what
    follows it. *)
Fixpoint splitFence (s : string) : option (string * string) :=
  match stripPrefix fence s with
  | Some r => Some (EmptyString, r)
  | None =>
      match s with
      | EmptyString => None
      | String c r =>
          match splitFence r with
          | Some (b, t) => Some (String c b, t)
          | None => None
          end
      end
  end.

(** The pattern read without backtracking: an opening fence, the longest
    run of word characters, a line feed, everything up to the first closing
    fence. *)
Definition directMatchAt (s : string) : option (Match * string) :=
  match stripPrefix fence s with
  | None => None
  | Some s1 =>
      let (w, s2) := wordRun s1 in
      match stripPrefix newline s2 with
      | None => None
      | Some s3 =>
          match splitFence s3 with
          | None => None
          | Some (body, s5) =>
              Some ({| group1 := if isEmpty w then None else Some w;
                       group2 := body |}, s5)
          end
      end
  end.

(** All the matches of a global scan of [s], in order: the fenced blocks
    of [s] as the extractors see them. *)
Equations? matches (s : string) : list Match by wf (String.length s) lt :=
  matches s with inspect (exec s) := {
    | exist _ None _ => []
    | exist _ (Some (m, rest)) Hexec => m :: matches rest }.
Proof.
  apply exec_consumes in Hexec. simpl in Hexec. lia.
Qed.

Definition backtick : ascii := ascii_of_nat 96.

(** No backtick anywhere in [s]. *)
Fixpoint noBacktick (s : string) : bool :=
  match s with
  | EmptyString => true
  | String c r => negb (Ascii.eqb c backtick) && noBacktick r
  end.

(** Only word characters in [s]. *)
Fixpoint allWord (s : string) : bool :=
  match s with
  | EmptyString => true
  | String c r => isWordChar c && allWord r
  end.

(** The closing fence written after [body] is the first fence from the
    start of [body] on: no fence begins inside [body]. *)
Definition closes (body : string) : bool :=
  negb (includes (body +++ "``") fence).

(** A fenced block in the text: tag, line feed, body between two fences. *)
Definition fenced (tag body : string) : string :=
  fence +++ tag +++ newline +++ body +++ fence.

End Fence.

(* ===================================================================== *)
(** ** What an artifact is made of, apart from its stamps *)
(* ===================================================================== *)

Module Shape.

(** An artifact without [id] and [createdAt]. *)
Record t := {
  type : ArtifactType;
  title : string;
  content : string;
  metadata : option ArtifactMetadata
}.

Definition ofArtifact (a : Artifact.t) : t :=
  {| type := Artifact.type a; title := Artifact.title a;
     content := Artifact.content a; metadata := Artifact.metadata a |}.

(** The language an extractor reads off a match. *)
Definition languageOf (m : Regex.Match) : string :=
  orString (Regex.group1 m) "text".

(** Does the extractor keep the match?  The test of the source. *)
Definition kept (m : Regex.Match) : bool :=
  10 <? String.length (trim (Regex.group2 m)).

(** The shape the extractor of [AzureAIProvider] gives a kept match. *)
Definition ofMatch (m : Regex.Match) : t :=
  {| type := AzureAIProvider.getArtifactType (languageOf m);
     title := AzureAIProvider.capitalizeFirst (languageOf m) +++ " Code";
     content := trim (Regex.group2 m);
     metadata :=
       Some {| language := languageOf m;
               lineCount := List.length (split LF (trim (Regex.group2 m))) |} |}.

(** The artifact the extractor makes of a kept match: [i] is its ordinal
    among the kept ones, the two stamps are the clock readings taken for
    [id] and for [createdAt]. *)
Definition artifactOf (idStamp created : Z) (i : nat) (m : Regex.Match)
  : Artifact.t :=
  {| Artifact.id := "artifact-" +++ ofZ idStamp +++ "-" +++ ofNat i;
     Artifact.stageId := None;
     Artifact.type := type (ofMatch m);
     Artifact.title := title (ofMatch m);
     Artifact.content := content (ofMatch m);
     Artifact.metadata := metadata (ofMatch m);
     Artifact.createdAt := created |}.

(** [artifactOf] along a list of kept matches, the first with ordinal [i],
    the clock having been read [reads] times before. *)
Fixpoint artifactsFrom (clock : nat -> Z) (reads : nat) (i : nat)
  (ms : list Regex.Match) : list Artifact.t :=
  match ms with
  | [] => []
  | m :: more =>
      artifactOf (clock reads) (clock (S reads)) i m
      :: artifactsFrom clock (S (S reads)) (S i) more
  end.

End Shape.

(** The classification table as the specification words it. *)
Module Taxonomy.

Definition programmingTags : list string :=
  [ "javascript"; "typescript"; "python"; "java"; "rust"; "go"; "cpp"; "c";
    "html"; "css"; "jsx"; "tsx"; "ruby"; "php"; "swift"; "kotlin"; "scala" ].

Definition diagrammingTags : list string :=
  [ "mermaid"; "graphviz"; "dot"; "plantuml" ].

Definition structuredDataTags : list string :=
  [ "json"; "yaml"; "toml"; "xml"; "csv" ].

End Taxonomy.

(* ===================================================================== *)
(** ** Reading the trace *)
(* ===================================================================== *)

(** The provider calls of a trace, in order: which provider was asked, and
    for which model. *)
Fixpoint providerCalls (t : list Event) : list (AIProvider * option AIModel) :=
  match t with
  | [] => []
  | EvProviderCall p m :: more => (p, m) :: providerCalls more
  | _ :: more => providerCalls more
  end.

(** A computation that asks no provider. *)
Definition Quiet {A} (m : M A) : Prop :=
  forall w, providerCalls (trace (snd (m w))) = providerCalls (trace w).

(** An event that is not a provider call. *)
Definition plainEvent (e : Event) : Prop :=
  match e with
  | EvProviderCall _ _ => False
  | _ => True
  end.

(** An event an observer callback receives ([onChunk], [onThinking]). *)
Definition isObserverEvent (e : Event) : bool :=
  match e with
  | EvChunk _ | EvThinking _ => true
  | _ => false
  end.

(** What went over the wire and the waits in between: the trace without
    the observer events. *)
Definition wire (t : list Event) : list Event :=
  filter (fun e => negb (isObserverEvent e)) t.

Definition sameKind (a b : StreamChunk.kind.t) : bool :=
  match a, b with
  | StreamChunk.kind.content, StreamChunk.kind.content => true
  | StreamChunk.kind.thinking, StreamChunk.kind.thinking => true
  | StreamChunk.kind.tool_use, StreamChunk.kind.tool_use => true
  | _, _ => false
  end.

(** What [onChunk] was given for one kind of chunk, put together in the
    order it came. *)
Fixpoint heard (kind : StreamChunk.kind.t) (t : list Event) : string :=
  match t with
  | [] => ""
  | EvChunk c :: more =>
      if sameKind (StreamChunk.type c) kind
      then StreamChunk.content c +++ heard kind more
      else heard kind more
  | _ :: more => heard kind more
  end.

(** What [onThinking] was given, put together. *)
Fixpoint thought (t : list Event) : string :=
  match t with
  | [] => ""
  | EvThinking s :: more => s +++ thought more
  | _ :: more => thought more
  end.

(** A computation that leaves one view of the world as it found it. *)
Definition Keeps {X A} (view : World -> X) (m : M A) : Prop :=
  forall w, view (snd (m w)) = view w.

(** What the observers have been told since the world [w0], when the
    text and the thinking gathered since then are [content] and
    [thinking]: the content chunks spell the one, the thinking chunks and,
    with an [onThinking] observer, its calls spell the other. *)
Definition Hears (onThinking : bool) (w0 w : World)
  (content thinking : string) : Prop :=
  heard StreamChunk.kind.content (trace w)
  = heard StreamChunk.kind.content (trace w0) +++ content
  /\ heard StreamChunk.kind.thinking (trace w)
     = heard StreamChunk.kind.thinking (trace w0) +++ thinking
  /\ (onThinking = true ->
      thought (trace w) = thought (trace w0) +++ thinking).

(** Is the event a request to the provider: an HTTP request for Azure, a
    call of the SDK for Anthropic? *)
Definition isRequestTo (p : AIProvider) (e : Event) : bool :=
  match p, e with
  | azure, EvFetch _ _ _ => true
  | anthropic, EvMessagesCreate _ => true
  | anthropic, EvMessagesStream _ => true
  | _, _ => false
  end.

(** A computation that only adds to the trace. *)
Definition Grows {A} (m : M A) : Prop :=
  forall w, exists more, trace (snd (m w)) = trace w ++ more.

(** A computation whose every response carries the given provider and
    model. *)
Definition Stamped (p : AIProvider) (model : AIModel)
  (m : M AIResponse.t) : Prop :=
  forall w r w',
    m w = (Return r, w') ->
    AIResponse.provider r = p /\ AIResponse.model r = model.

(** *** Failover *)

(** The other of the two providers, the call of one provider through the
    service, and the test the failover makes before it calls one
    ([this.anthropicClient],
    [this.azureProvider.getInitializationStatus()]). *)
Definition otherProvider (p : AIProvider) : AIProvider :=
  match p with
  | azure => anthropic
  | anthropic => azure
  end.

Definition executeWith (p : AIProvider) (this : AIService.t)
  (options : AIExecuteOptions.t) : M AIResponse.t :=
  match p with
  | azure => AIService.executeWithAzure this options
  | anthropic => AIService.executeWithAnthropic this options
  end.

Definition isSetUp (this : AIService.t) (p : AIProvider) : bool :=
  match p with
  | azure => AzureAIProvider.getInitializationStatus
               (AIService.azureProvider this)
  | anthropic => AIService.hasAnthropicClient this
  end.

(** Modelled from the spec: the model id "translated via the mapping
    table".  The table is [MODEL_MAPPING]; towards a provider, an id that
    is the other provider's side of a pair goes to that pair's id for the
    provider, and an id that is on the other side of no pair stays. *)
Definition sameModel (a b : AIModel) : bool :=
  String.eqb (modelId a) (modelId b).

Fixpoint translateVia (table : list (string * ModelPair.t))
  (target : AIProvider) (model : AIModel) : AIModel :=
  match table with
  | [] => model
  | (_, ids) :: more =>
      match target with
      | anthropic =>
          if sameModel model (ModelPair.azure ids)
          then ModelPair.anthropic ids
          else translateVia more target model
      | azure =>
          if sameModel model (ModelPair.anthropic ids)
          then ModelPair.azure ids
          else translateVia more target model
      end
  end.

Definition translated (target : AIProvider) (model : AIModel) : AIModel :=
  translateVia MODEL_MAPPING target model.

(** The HTTP request the Azure provider makes for the options, and the
    call of the SDK the service makes for them. *)
Definition azureRequest (cfg : AzureAIConfig) (options : AIExecuteOptions.t)
  : Event :=
  let body :=
    AzureAIProvider.buildRequestBody
      (AIExecuteOptions.prompt options)
      (AzureAIProvider.orDefault (AIExecuteOptions.model options)
                                 claude_3_5_sonnet_20241022)
      (AzureAIProvider.orDefault (AIExecuteOptions.maxTokens options) 8000%Z)
      (AzureAIProvider.orDefault (AIExecuteOptions.extendedThinking options)
                                 false)
      (AzureAIProvider.orDefault (AIExecuteOptions.thinkingBudget options)
                                 5000%Z)
      (AIExecuteOptions.tools options)
      (AIExecuteOptions.systemPrompt options) in
  EvFetch (endpoint cfg +++ "/chat/completions") ("Bearer " +++ apiKey cfg)
          (if AzureAIProvider.orDefault (AIExecuteOptions.stream options)
                                        false
           then RequestBody.withStream body else body).

Definition sdkCall (options : AIExecuteOptions.t) : Event :=
  let params :=
    {| Anthropic.model :=
         modelId (AzureAIProvider.orDefault (AIExecuteOptions.model options)
                                            claude_sonnet_4_5_20250929);
       Anthropic.max_tokens :=
         AzureAIProvider.orDefault (AIExecuteOptions.maxTokens options)
                                   8000%Z;
       Anthropic.messages := [ ("user", AIExecuteOptions.prompt options) ];
       Anthropic.system := truthy (AIExecuteOptions.systemPrompt options);
       Anthropic.tools := AIExecuteOptions.tools options;
       Anthropic.thinking_budget :=
         if AzureAIProvider.orDefault
              (AIExecuteOptions.extendedThinking options) false
         then Some (AzureAIProvider.orDefault
                      (AIExecuteOptions.thinkingBudget options) 5000%Z)
         else None;
       Anthropic.stream :=
         AzureAIProvider.orDefault (AIExecuteOptions.stream options)
                                   false |} in
  if AzureAIProvider.orDefault (AIExecuteOptions.stream options) false
  then EvMessagesStream params
  else EvMessagesCreate params.

(** The attempts of one provider call: what it may put on the wire after
    its entry.  Nothing when the provider is not set up.  One call of the
    SDK for Anthropic.  For Azure one HTTP request without [stream]; with
    [stream] that request one to three times, a wait of 2000 ms before
    the second and of 4000 ms before the third. *)
Definition Attempts (p : AIProvider) (this : AIService.t)
  (options : AIExecuteOptions.t) (sent : list Event) : Prop :=
  match p with
  | anthropic =>
      match AIService.anthropicClient this with
      | None => sent = []
      | Some _ => sent = [ sdkCall options ]
      end
  | azure =>
      match AzureAIProvider.config (AIService.azureProvider this) with
      | None => sent = []
      | Some cfg =>
          let request := azureRequest cfg options in
          if AzureAIProvider.orDefault (AIExecuteOptions.stream options)
                                       false
          then sent = [ request ]
               \/ sent = [ request; EvSleep 2000; request ]
               \/ sent = [ request; EvSleep 2000; request;
                           EvSleep 4000; request ]
          else sent = [ request ]
      end
  end.

(* ===================================================================== *)
(** ** Sample worlds and inputs *)
(* ===================================================================== *)

Module Sample.

(** A world where the network is down, the SDK and the synthesis service
    refuse, nothing parses and the clock ticks once per reading. *)
Definition idleWorld : World :=
  {| fetchScript := fun _ => FetchRejects (JsError "TypeError" "fetch failed");
     fetchCalls := 0;
     createScript := fun _ => Throw (newError "Connection error.");
     streamScript := fun _ => Throw (newError "Connection error.");
     sdkCalls := 0;
     clock := fun n => (1700000000000 + Z.of_nat n)%Z;
     clockReads := 0;
     parseFrame := fun _ => None;
     parseJson := fun _ => None;
     synthesisScript := fun _ => Throw (newError "synthesis unavailable");
     synthesisCalls := 0;
     trace := [] |}.

(** [idleWorld] with a scripted endpoint: the answers to the first
    fetches, in order. *)
Definition withFetches (answers : list FetchOutcome) : World :=
  {| fetchScript :=
       fun n => nth n answers
                    (FetchRejects (JsError "TypeError" "fetch failed"));
     fetchCalls := 0;
     createScript := createScript idleWorld;
     streamScript := streamScript idleWorld;
     sdkCalls := 0;
     clock := clock idleWorld;
     clockReads := 0;
     parseFrame := parseFrame idleWorld;
     parseJson := parseJson idleWorld;
     synthesisScript := synthesisScript idleWorld;
     synthesisCalls := 0;
     trace := [] |}.

(** One fenced block whose content has exactly ten characters. *)
Definition tenCharacterBlock : string :=
  Fence.fenced "js" "0123456789".

(** A 40-character body and a 5-character body. *)
Definition fortyCharacters : string :=
  "print('0123456789012345678901234567890')".

Definition fiveCharacters : string := "{a:1}".

Definition twoBlocks : string :=
  "Here is code: " +++ Fence.fenced "python" fortyCharacters
  +++ " and data: " +++ Fence.fenced "json" fiveCharacters +++ " done.".

Definition untaggedBlock : string :=
  "Notes: " +++ Fence.fenced "" "plain words, no tag" +++ " end".

(** A bare request. *)
Definition ask : AIExecuteOptions.t :=
  {| AIExecuteOptions.prompt := "Reply with exactly CONNECTION_OK";
     AIExecuteOptions.model := None;
     AIExecuteOptions.maxTokens := Some 50%Z;
     AIExecuteOptions.extendedThinking := None;
     AIExecuteOptions.thinkingBudget := None;
     AIExecuteOptions.stream := None;
     AIExecuteOptions.onChunk := false;
     AIExecuteOptions.onThinking := false;
     AIExecuteOptions.tools := None;
     AIExecuteOptions.systemPrompt := None |}.

Definition askStreaming : AIExecuteOptions.t :=
  {| AIExecuteOptions.prompt := "Reply with exactly CONNECTION_OK";
     AIExecuteOptions.model := None;
     AIExecuteOptions.maxTokens := Some 50%Z;
     AIExecuteOptions.extendedThinking := None;
     AIExecuteOptions.thinkingBudget := None;
     AIExecuteOptions.stream := Some true;
     AIExecuteOptions.onChunk := false;
     AIExecuteOptions.onThinking := false;
     AIExecuteOptions.tools := None;
     AIExecuteOptions.systemPrompt := None |}.

(** Azure is the primary provider, its endpoint is given, its API key is
    not; no other provider is configured. *)
Definition azureWithoutKey : AIConfig.t :=
  {| AIConfig.provider := azure;
     AIConfig.azure :=
       Some (Build_AzureAIConfig "https://models.inference.ai.azure.com"
                                 "" None None);
     AIConfig.anthropic := None |}.

(** Anthropic is the primary provider, its API key is empty; no other
    provider is configured. *)
Definition anthropicWithoutKey : AIConfig.t :=
  {| AIConfig.provider := anthropic;
     AIConfig.azure := None;
     AIConfig.anthropic := Some {| AnthropicConfig.apiKey := "" |} |}.

(** An endpoint that is no URL at all, with a key. *)
Definition azureBadEndpoint : AzureAIConfig :=
  Build_AzureAIConfig "not a url" "secret" None None.

Definition azureGood : AzureAIConfig :=
  Build_AzureAIConfig "https://models.inference.ai.azure.com/" "secret"
                      None None.

Definition bothProviders : AIConfig.t :=
  {| AIConfig.provider := azure;
     AIConfig.azure := Some azureGood;
     AIConfig.anthropic := Some {| AnthropicConfig.apiKey := "sk-ant-1" |} |}.

(** A synthesis report, a world whose synthesis service always delivers
    it, and engine configurations with the interval 3. *)
Definition report : SynthesisReport :=
  {| summary := "so far"; connections := "a-b"; patterns := "p";
     contradictions := "none"; forwardLook := "next";
     synthesisQuality := 7; keyInsights := [ "k" ] |}.

Definition synthesisWorld : World :=
  {| fetchScript := fetchScript idleWorld; fetchCalls := 0;
     createScript := createScript idleWorld;
     streamScript := streamScript idleWorld; sdkCalls := 0;
     clock := clock idleWorld; clockReads := 0;
     parseFrame := parseFrame idleWorld; parseJson := parseJson idleWorld;
     synthesisScript := fun _ => Return report;
     synthesisCalls := 0;
     trace := [] |}.

Definition everyThree : ExplorationEngine.Config.t :=
  ExplorationEngine.configOf
    {| ExplorationEngine.maxDepth := None;
       ExplorationEngine.autoProgress := None;
       ExplorationEngine.extendedThinking := None;
       ExplorationEngine.saveArtifacts := None;
       ExplorationEngine.enableMiniSynthesis := None;
       ExplorationEngine.synthesisInterval := None |}.

Definition everyThreeDisabled : ExplorationEngine.Config.t :=
  ExplorationEngine.configOf
    {| ExplorationEngine.maxDepth := None;
       ExplorationEngine.autoProgress := None;
       ExplorationEngine.extendedThinking := None;
       ExplorationEngine.saveArtifacts := None;
       ExplorationEngine.enableMiniSynthesis := Some false;
       ExplorationEngine.synthesisInterval := Some 3%Z |}.

Definition doneStage : ExplorationEngine.Stage :=
  {| ExplorationEngine.stageType := ExplorationEngine.discovering;
     ExplorationEngine.status := ExplorationEngine.complete;
     ExplorationEngine.result := "found" |}.

Definition emptyContext : ExplorationEngine.ExplorationContext :=
  {| ExplorationEngine.previousStages := [];
     ExplorationEngine.currentStage := 0;
     ExplorationEngine.insights := [];
     ExplorationEngine.richInsights := None;
     ExplorationEngine.synthesisCount := Some 0 |}.

Definition twoStagesDone : ExplorationEngine.ExplorationContext :=
  {| ExplorationEngine.previousStages := [ doneStage; doneStage ];
     ExplorationEngine.currentStage := 1;
     ExplorationEngine.insights := [];
     ExplorationEngine.richInsights := None;
     ExplorationEngine.synthesisCount := Some 0 |}.

(** An initialized Azure provider. *)
Definition azureReady : AzureAIProvider.t :=
  {| AzureAIProvider.config :=
       Some (Build_AzureAIConfig "https://models.inference.ai.azure.com"
                                 "secret" None (Some "2024-05-01-preview"));
     AzureAIProvider.isInitialized := true |}.

(** HTTP 503 with a short body. *)
Definition serviceUnavailable : Response.t :=
  {| Response.status := 503;
     Response.text := "Service Unavailable";
     Response.json := Throw syntaxError;
     Response.body := None |}.



(** HTTP 200 with a completion that says hello. *)
Definition hello : Response.t :=
  {| Response.status := 200;
     Response.text := "";
     Response.json :=
       Return
         (Body.shaped
            {| Completion.choices :=
                 Some [ {| Choice.message :=
                             Some {| Message.content := Some "Hello";
                                     Message.tool_calls := None |} |} ];
               Completion.usage :=
                 Some {| Usage.prompt_tokens := Some 7%Z;
                         Usage.completion_tokens := Some 1%Z |} |});
     Response.body := None |}.

(** HTTP 200 whose stream carries one frame that is no JSON and the end
    marker. *)
Definition garbledStream : Response.t :=
  {| Response.status := 200;
     Response.text := "";
     Response.json := Throw syntaxError;
     Response.body :=
       Some [ ReadChunk ("data: {oops" +++ Regex.newline
                         +++ "data: [DONE]" +++ Regex.newline) ] |}.

(** An initialized service with Azure as primary and Anthropic as
    fallback. *)
Definition serviceReady : AIService.t :=
  snd (AIService.initialize AIService.new bothProviders).

(** An initialized service with Anthropic as primary and Azure as
    fallback, and requests for the Anthropic id of the sonnet pair. *)
Definition anthropicFirst : AIService.t :=
  snd (AIService.initialize AIService.new
         {| AIConfig.provider := anthropic;
            AIConfig.azure := Some azureGood;
            AIConfig.anthropic :=
              Some {| AnthropicConfig.apiKey := "sk-ant-1" |} |}).

Definition askSonnet : AIExecuteOptions.t :=
  {| AIExecuteOptions.prompt := "hi";
     AIExecuteOptions.model := Some claude_sonnet_4_5_20250929;
     AIExecuteOptions.maxTokens := Some 50%Z;
     AIExecuteOptions.extendedThinking := None;
     AIExecuteOptions.thinkingBudget := None;
     AIExecuteOptions.stream := None;
     AIExecuteOptions.onChunk := false;
     AIExecuteOptions.onThinking := false;
     AIExecuteOptions.tools := None;
     AIExecuteOptions.systemPrompt := None |}.

Definition askSonnetStreaming : AIExecuteOptions.t :=
  {| AIExecuteOptions.prompt := "hi";
     AIExecuteOptions.model := Some claude_sonnet_4_5_20250929;
     AIExecuteOptions.maxTokens := Some 50%Z;
     AIExecuteOptions.extendedThinking := None;
     AIExecuteOptions.thinkingBudget := None;
     AIExecuteOptions.stream := Some true;
     AIExecuteOptions.onChunk := false;
     AIExecuteOptions.onThinking := false;
     AIExecuteOptions.tools := None;
     AIExecuteOptions.systemPrompt := None |}.

(** A world where Azure answers 503 every time and the SDK delivers one
    text block. *)
Definition azureDownWorld : World :=
  {| fetchScript := fun _ => FetchResolves serviceUnavailable;
     fetchCalls := 0;
     createScript :=
       fun _ => Return {| Anthropic.content := [ Anthropic.text "Hello" ];
                          Anthropic.input_tokens := 7;
                          Anthropic.output_tokens := 1;
                          Anthropic.thinking := None |};
     streamScript := streamScript idleWorld;
     sdkCalls := 0;
     clock := clock idleWorld;
     clockReads := 0;
     parseFrame := parseFrame idleWorld;
     parseJson := parseJson idleWorld;
     synthesisScript := synthesisScript idleWorld;
     synthesisCalls := 0;
     trace := [] |}.

(** The endpoint answers 503 twice and then streams. *)
Definition recoveringWorld : World :=
  withFetches [ FetchResolves serviceUnavailable;
                FetchResolves serviceUnavailable;
                FetchResolves garbledStream ].

(** The streaming request of [askStreaming] to [azureReady]. *)
Definition streamingRequest : Event :=
  EvFetch "https://models.inference.ai.azure.com/chat/completions"
          "Bearer secret"
          (RequestBody.withStream
             (AzureAIProvider.buildRequestBody
                "Reply with exactly CONNECTION_OK"
                claude_3_5_sonnet_20241022 50 false 5000 None None)).

(** HTTP 200 with the completion a connection test asks for. *)
Definition connectionOk : Response.t :=
  {| Response.status := 200;
     Response.text := "";
     Response.json :=
       Return
         (Body.shaped
            {| Completion.choices :=
                 Some [ {| Choice.message :=
                             Some {| Message.content := Some "CONNECTION_OK";
                                     Message.tool_calls := None |} |} ];
               Completion.usage := None |});
     Response.body := None |}.

(** A world whose [JSON.parse] reads the frame [{hi}] as a delta with the
    content [Hi] and the thinking [hm], and HTTP 200 with a stream of that
    frame. *)
Definition hiFrame : Frame.t :=
  {| Frame.choices :=
       Some [ {| FrameChoice.delta :=
                   Some {| Delta.content := Some "Hi";
                           Delta.thinking := Some "hm" |} |} ];
     Frame.usage := None |}.

Definition hiStream : Response.t :=
  {| Response.status := 200;
     Response.text := "";
     Response.json := Throw syntaxError;
     Response.body :=
       Some [ ReadChunk ("data: {hi}" +++ Regex.newline
                         +++ "data: [DONE]" +++ Regex.newline) ] |}.

Definition hiWorld : World :=
  {| fetchScript := fun _ => FetchResolves hiStream;
     fetchCalls := 0;
     createScript := createScript idleWorld;
     streamScript :=
       fun _ =>
         Return
           {| Anthropic.events :=
                [ Anthropic.Yields (Anthropic.thinking_delta "hm");
                  Anthropic.Yields (Anthropic.text_delta "H");
                  Anthropic.Yields (Anthropic.text_delta "i") ];
              Anthropic.finalMessage :=
                Return {| Anthropic.content := [ Anthropic.text "Hi" ];
                          Anthropic.input_tokens := 7;
                          Anthropic.output_tokens := 1;
                          Anthropic.thinking := None |} |};
     sdkCalls := 0;
     clock := clock idleWorld;
     clockReads := 0;
     parseFrame :=
       fun text => if String.eqb text "{hi}" then Some hiFrame else None;
     parseJson := parseJson idleWorld;
     synthesisScript := synthesisScript idleWorld;
     synthesisCalls := 0;
     trace := [] |}.

(** A request body, the parameters of an SDK call, and the responses
    the two streams of [hiWorld] add up to. *)
Definition hiBody : RequestBody.t :=
  AzureAIProvider.buildRequestBody "hi" gpt_4o 50 false 0 None None.

Definition hiParams : Anthropic.Params :=
  {| Anthropic.model := "claude-sonnet-4-5-20250929";
     Anthropic.max_tokens := 50;
     Anthropic.messages := [ ("user", "hi") ];
     Anthropic.system := None;
     Anthropic.tools := None;
     Anthropic.thinking_budget := None;
     Anthropic.stream := true |}.

Definition hiResponse : AIResponse.t :=
  {| AIResponse.content := "Hi";
     AIResponse.thinking := Some "hm";
     AIResponse.artifacts := Some [];
     AIResponse.toolUses := None;
     AIResponse.usage :=
       Some {| TokenUsage.inputTokens := 0;
               TokenUsage.outputTokens := 0;
               TokenUsage.thinkingTokens := None |};
     AIResponse.provider := azure;
     AIResponse.model := gpt_4o |}.

Definition hiAnswer : AIResponse.t :=
  {| AIResponse.content := "Hi";
     AIResponse.thinking := Some "hm";
     AIResponse.artifacts := Some [];
     AIResponse.toolUses := None;
     AIResponse.usage :=
       Some {| TokenUsage.inputTokens := 7;
               TokenUsage.outputTokens := 1;
               TokenUsage.thinkingTokens := None |};
     AIResponse.provider := anthropic;
     AIResponse.model := claude_sonnet_4_5_20250929 |}.

(** A stream that delivers the frame [{hi}] and then breaks, a world
    whose endpoint answers with it first and with [hiStream] from then on,
    and a streaming request with an [onChunk] observer. *)
Definition brokenStream : Response.t :=
  {| Response.status := 200;
     Response.text := "";
     Response.json := Throw syntaxError;
     Response.body :=
       Some [ ReadChunk ("data: {hi}" +++ Regex.newline);
              ReadRejects (JsError "TypeError" "network error") ] |}.

Definition brokenThenHi : World :=
  {| fetchScript :=
       fun n => match n with
                | O => FetchResolves brokenStream
                | S _ => FetchResolves hiStream
                end;
     fetchCalls := 0;
     createScript := createScript idleWorld;
     streamScript := streamScript idleWorld;
     sdkCalls := 0;
     clock := clock idleWorld;
     clockReads := 0;
     parseFrame := parseFrame hiWorld;
     parseJson := parseJson idleWorld;
     synthesisScript := synthesisScript idleWorld;
     synthesisCalls := 0;
     trace := [] |}.

Definition askObserved : AIExecuteOptions.t :=
  {| AIExecuteOptions.prompt := "hi";
     AIExecuteOptions.model := Some gpt_4o;
     AIExecuteOptions.maxTokens := Some 50%Z;
     AIExecuteOptions.extendedThinking := None;
     AIExecuteOptions.thinkingBudget := Some 0%Z;
     AIExecuteOptions.stream := Some true;
     AIExecuteOptions.onChunk := true;
     AIExecuteOptions.onThinking := true;
     AIExecuteOptions.tools := None;
     AIExecuteOptions.systemPrompt := None |}.

(** A world where Azure answers 503 every time and the SDK delivers the
    text a connection test asks for. *)
Definition fallbackOkWorld : World :=
  {| fetchScript := fun _ => FetchResolves serviceUnavailable;
     fetchCalls := 0;
     createScript :=
       fun _ => Return {| Anthropic.content :=
                            [ Anthropic.text "CONNECTION_OK" ];
                          Anthropic.input_tokens := 7;
                          Anthropic.output_tokens := 1;
                          Anthropic.thinking := None |};
     streamScript := streamScript idleWorld;
     sdkCalls := 0;
     clock := clock idleWorld;
     clockReads := 0;
     parseFrame := parseFrame idleWorld;
     parseJson := parseJson idleWorld;
     synthesisScript := synthesisScript idleWorld;
     synthesisCalls := 0;
     trace := [] |}.

End Sample.

(* ===================================================================== *)
(** * Facts *)
(* ===================================================================== *)

(** ** Strings *)

Section StringFacts.

Lemma append_assoc (a b c : string) : (a +++ b) +++ c = a +++ b +++ c.
Proof. induction a as [|x a IH]; simpl; [reflexivity | now rewrite IH]. Qed.

Lemma append_empty_r (a : string) : a +++ "" = a.
Proof. induction a as [|x a IH]; simpl; [reflexivity | now rewrite IH]. Qed.

Lemma length_append (a b : string) :
  String.length (a +++ b) = String.length a + String.length b.
Proof. induction a as [|x a IH]; simpl; [reflexivity | now rewrite IH]. Qed.

Lemma stripPrefix_append (p s : string) : stripPrefix p (p +++ s) = Some s.
Proof.
  induction p as [|a p IH]; simpl; [reflexivity|].
  now rewrite Ascii.eqb_refl.
Qed.

Lemma stripPrefix_spec (p s r : string) :
  stripPrefix p s = Some r <-> s = p +++ r.
Proof.
  split.
  - revert s. induction p as [|a p IH]; intros [|b s] H; simpl in H.
    + now inversion H.
    + now inversion H.
    + discriminate.
    + destruct (Ascii.eqb_spec a b) as [->|]; [|discriminate].
      simpl. f_equal. now apply IH.
  - intros ->. apply stripPrefix_append.
Qed.

(** Whether [s] starts with [p] is decided by the first [length p] code
    units of [s]. *)
Lemma startsWith_append (p x y : string) :
  String.length p <= String.length x ->
  startsWith (x +++ y) p = startsWith x p.
Proof.
  unfold startsWith. revert x.
  induction p as [|a p IH]; intros [|b x] Hlen; simpl in *;
    try reflexivity; try lia.
  destruct (Ascii.eqb a b); [|reflexivity].
  apply IH. lia.
Qed.

Lemma isEmpty_true (s : string) : isEmpty s = true <-> s = "".
Proof. destruct s; simpl; split; congruence. Qed.

Lemma toLowerCase_idempotent (s : string) :
  toLowerCase (toLowerCase s) = toLowerCase s.
Proof.
  induction s as [|c s IH]; simpl; [reflexivity|].
  rewrite IH. f_equal.
  destruct c as [[] [] [] [] [] [] [] []]; reflexivity.
Qed.

End StringFacts.

(** ** The fence pattern *)

Section FenceFacts.
Import Regex Fence.

Lemma wordChar_not_LF (c : ascii) : isWordChar c = true -> Ascii.eqb LF c = false.
Proof.
  intros H. destruct (Ascii.eqb_spec LF c) as [<-|]; [|reflexivity].
  discriminate H.
Qed.

Lemma wordRun_empty (s : string) :
  fst (wordRun s) = "" -> snd (wordRun s) = s.
Proof.
  destruct s as [|c s]; simpl; [reflexivity|].
  destruct (isWordChar c); [|reflexivity].
  destruct (wordRun s); simpl. discriminate.
Qed.

Lemma wordRun_nonempty (s : string) :
  fst (wordRun s) <> "" ->
  exists c r, s = String c r /\ isWordChar c = true.
Proof.
  destruct s as [|c s]; simpl; [congruence|].
  destruct (isWordChar c) eqn:E; [|simpl; congruence].
  intros _. now exists c, s.
Qed.

(** The greedy run, when what follows the group refuses to start on a word
    character: no shorter run is ever taken. *)
Lemma plusGreedy_wordRun {R} (s : string) (k : string -> string -> option R) :
  (forall cap c r, isWordChar c = true -> k cap (String c r) = None) ->
  plusGreedy isWordChar s k =
  if isEmpty (fst (wordRun s)) then None
  else k (fst (wordRun s)) (snd (wordRun s)).
Proof.
  revert k. induction s as [|c s IH]; intros k Hk; simpl; [reflexivity|].
  destruct (isWordChar c) eqn:Ec; [|reflexivity].
  rewrite IH by (intros; now apply Hk).
  destruct (wordRun s) as [w t] eqn:Ew. simpl.
  destruct w as [|c' w]; simpl.
  - f_equal. change t with (snd (EmptyString, t)). rewrite <- Ew.
    symmetry. apply wordRun_empty. now rewrite Ew.
  - destruct (k (String c (String c' w)) t) eqn:Ek; [reflexivity|].
    destruct (wordRun_nonempty s) as (c0 & r0 & -> & Hc0).
    + rewrite Ew. simpl. discriminate.
    + now apply Hk.
Qed.

(** The lazy run stops at the first closing fence. *)
Lemma starLazyAny_splitFence (g1 : option string) (s : string)
  (f : string -> string) :
  starLazyAny s (fun cap rest =>
    lit fence rest (fun s5 =>
      Some ({| group1 := g1; group2 := f cap |}, s5))) =
  match splitFence s with
  | Some (b, t) => Some ({| group1 := g1; group2 := f b |}, t)
  | None => None
  end.
Proof.
  revert f. induction s as [|c s IH]; intros f.
  - reflexivity.
  - cbn [starLazyAny splitFence]. unfold lit at 1.
    destruct (stripPrefix fence (String c s)) as [t|]; [reflexivity|].
    rewrite (IH (fun cap => f (String c cap))).
    destruct (splitFence s) as [[b t]|]; reflexivity.
Qed.

(** The backtracking matcher and the direct reading agree. *)
Lemma matchAt_direct (s : string) : matchAt s = directMatchAt s.
Proof.
  unfold matchAt, directMatchAt. unfold lit at 1.
  destruct (stripPrefix fence s) as [s1|]; [|reflexivity].
  set (K := fun (g1 : option string) (s2 : string) =>
              lit newline s2 (fun s3 =>
                starLazyAny s3 (fun g2 s4 =>
                  lit fence s4 (fun s5 =>
                    Some ({| group1 := g1; group2 := g2 |}, s5))))).
  assert (HK : forall g1 s2,
             K g1 s2 =
             match stripPrefix newline s2 with
             | None => None
             | Some s3 =>
                 match splitFence s3 with
                 | None => None
                 | Some (body, s5) =>
                     Some ({| group1 := g1; group2 := body |}, s5)
                 end
             end).
  { intros g1 s2. unfold K, lit at 1.
    destruct (stripPrefix newline s2) as [s3|]; [|reflexivity].
    rewrite (starLazyAny_splitFence g1 s3 (fun x => x)).
    destruct (splitFence s3) as [[b t]|]; reflexivity. }
  assert (Hword : forall g1 c r, isWordChar c = true -> K g1 (String c r) = None).
  { intros g1 c r Hc. rewrite HK.
    change (stripPrefix newline (String c r))
      with (if Ascii.eqb LF c then stripPrefix "" r else None).
    now rewrite (wordChar_not_LF c Hc). }
  unfold optGreedy. change (match
    plusGreedy isWordChar s1 (fun cap rest => K (Some cap) rest)
    with Some x => Some x | None => K None s1 end = 
    (let (w, s2) := wordRun s1 in
     match stripPrefix newline s2 with
     | Some s3 =>
         match splitFence s3 with
         | Some (body, s5) =>
             Some ({| group1 := if isEmpty w then None else Some w;
                      group2 := body |}, s5)
         | None => None
         end
     | None => None
     end)).
  rewrite plusGreedy_wordRun by (intros; apply Hword; assumption).
  destruct (wordRun s1) as [w s2] eqn:Ew. cbn [fst snd].
  destruct w as [|c w]; cbn [isEmpty].
  - assert (s2 = s1) as ->.
    { change s2 with (snd (EmptyString, s2)). rewrite <- Ew.
      apply wordRun_empty. now rewrite Ew. }
    apply HK.
  - rewrite <- HK. destruct (K (Some (String c w)) s2) eqn:EK; [reflexivity|].
    destruct (wordRun_nonempty s1) as (c0 & r0 & -> & Hc0).
    + rewrite Ew. simpl. discriminate.
    + now apply Hword.
Qed.

(** The pattern on a few texts: a fourth backtick before the fence is
    passed over; a tag must be followed by the line feed at once; a fence
    that is never closed is no block; the body ends at the first closing
    fence. *)
Example exec_samples :
  exec ("see ````py" +++ newline +++ "x = 1" +++ newline +++ "``` ok")
  = Some ({| group1 := Some "py"; group2 := "x = 1" +++ newline |}, " ok")
  /\ exec ("```py " +++ newline +++ "x = 1```") = None
  /\ exec ("```py" +++ newline +++ "x = 1``") = None
  /\ exec ("```" +++ newline +++ "a```b```")
     = Some ({| group1 := None; group2 := "a" |}, "b```").
Proof. repeat split. Qed.

End FenceFacts.

Section ScanFacts.
Import Regex Fence.

Lemma matchAt_not_backtick (c : ascii) (r : string) :
  Ascii.eqb c backtick = false -> matchAt (String c r) = None.
Proof.
  intros H. unfold matchAt, lit.
  change (stripPrefix fence (String c r))
    with (if Ascii.eqb backtick c then stripPrefix "``" r else None).
  rewrite Ascii.eqb_sym. now rewrite H.
Qed.

(** The scan walks over a stretch without backticks. *)
Lemma exec_skip (pre s : string) :
  noBacktick pre = true -> exec (pre +++ s) = exec s.
Proof.
  induction pre as [|c pre IH]; intros H; [reflexivity|].
  simpl in H. apply andb_true_iff in H. destruct H as [Hc Hpre].
  apply negb_true_iff in Hc.
  change (String c pre +++ s) with (String c (pre +++ s)).
  cbn [exec]. rewrite (matchAt_not_backtick _ _ Hc). now apply IH.
Qed.

Lemma exec_none (s : string) : noBacktick s = true -> exec s = None.
Proof.
  intros H. rewrite <- (append_empty_r s). rewrite (exec_skip s "" H).
  reflexivity.
Qed.

Lemma wordRun_tag (tag r : string) :
  allWord tag = true ->
  wordRun (tag +++ newline +++ r) = (tag, newline +++ r).
Proof.
  induction tag as [|c tag IH]; intros H.
  - reflexivity.
  - simpl in H. apply andb_true_iff in H. destruct H as [Hc Htag].
    change (String c tag +++ newline +++ r)
      with (String c (tag +++ newline +++ r)).
    cbn [wordRun]. rewrite Hc, (IH Htag). reflexivity.
Qed.

Lemma splitFence_closes (body post : string) :
  closes body = true ->
  splitFence (body +++ fence +++ post) = Some (body, post).
Proof.
  unfold closes. induction body as [|c body IH]; intros H.
  - reflexivity.
  - apply negb_true_iff in H.
    change (String c body +++ "``") with (String c (body +++ "``")) in H.
    cbn [includes] in H. apply orb_false_iff in H. destruct H as [Hhere Hlater].
    change (String c body +++ fence +++ post)
      with (String c (body +++ fence +++ post)).
    cbn [splitFence].
    assert (Hno : stripPrefix fence (String c (body +++ fence +++ post)) = None).
    { assert (Hs : startsWith (String c (body +++ "``") +++ "`" +++ post) fence
                   = false).
      { rewrite startsWith_append; [exact Hhere|].
        simpl. rewrite length_append. simpl. lia. }
      unfold startsWith in Hs.
      replace (String c (body +++ "``") +++ "`" +++ post)
        with (String c (body +++ fence +++ post)) in Hs.
      - destruct (stripPrefix fence (String c (body +++ fence +++ post)));
          [discriminate|reflexivity].
      - simpl. f_equal. rewrite append_assoc. reflexivity. }
    rewrite Hno. rewrite IH by (now apply negb_true_iff). reflexivity.
Qed.

(** The scan finds a well-formed block behind a stretch without backticks,
    with the tag as group 1 (undefined when there is none) and the body as
    group 2, and stops right behind its closing fence. *)
Lemma exec_fenced (pre tag body post : string) :
  noBacktick pre = true -> allWord tag = true -> closes body = true ->
  exec (pre +++ fenced tag body +++ post) =
  Some ({| group1 := if isEmpty tag then None else Some tag;
           group2 := body |}, post).
Proof.
  intros Hpre Htag Hbody. rewrite (exec_skip _ _ Hpre).
  assert (Hm : matchAt (fenced tag body +++ post) =
               Some ({| group1 := if isEmpty tag then None else Some tag;
                        group2 := body |}, post)).
  { rewrite matchAt_direct. unfold directMatchAt, fenced.
    rewrite !append_assoc. rewrite stripPrefix_append.
    rewrite (wordRun_tag _ _ Htag). rewrite stripPrefix_append.
    rewrite (splitFence_closes _ _ Hbody). reflexivity. }
  destruct (fenced tag body +++ post) eqn:E.
  - vm_compute in Hm. discriminate.
  - cbn [exec]. now rewrite Hm.
Qed.

Lemma matches_step (s : string) :
  matches s =
  match exec s with
  | None => []
  | Some (m, rest) => m :: matches rest
  end.
Proof.
  funelim (matches s);
    match goal with H : exec _ = _ |- _ => now rewrite H end.
Qed.

Lemma matches_fenced (pre tag body post : string) :
  noBacktick pre = true -> allWord tag = true -> closes body = true ->
  matches (pre +++ fenced tag body +++ post) =
  {| group1 := if isEmpty tag then None else Some tag; group2 := body |}
    :: matches post.
Proof.
  intros. rewrite matches_step, exec_fenced by assumption. reflexivity.
Qed.

Lemma matches_none (s : string) : noBacktick s = true -> matches s = [].
Proof. intros H. now rewrite matches_step, exec_none. Qed.

End ScanFacts.

(** ** The extraction loop *)

Section ExtractionFacts.
Import Regex Fence.

Lemma extractLoop_step (content : string) (index : nat)
  (artifacts : list Artifact.t) (w : World) :
  AzureAIProvider.extractLoop content index artifacts w =
  match exec content with
  | None => (Return artifacts, w)
  | Some (m, rest) =>
      match AzureAIProvider.extractStep m index artifacts w with
      | (Return (index', artifacts'), w') =>
          AzureAIProvider.extractLoop rest index' artifacts' w'
      | (Throw e, w') => (Throw e, w')
      end
  end.
Proof.
  funelim (AzureAIProvider.extractLoop content index artifacts w);
    match goal with H : exec _ = _ |- _ => rewrite H end;
    try match goal with
        | H : AzureAIProvider.extractStep _ _ _ _ = _ |- _ => rewrite H
        end;
    reflexivity.
Qed.

(** One turn of the loop: a kept match costs two clock readings and adds
    one artifact; any other match changes nothing. *)
Lemma extractStep_spec (m : Match) (index : nat) (artifacts : list Artifact.t)
  (w : World) :
  AzureAIProvider.extractStep m index artifacts w =
  if Shape.kept m then
    (Return (index + 1,
             artifacts ++ [ Shape.artifactOf (clock w (clockReads w))
                              (clock w (S (clockReads w))) index m ]),
     clockRead (clockRead w))
  else (Return (index, artifacts), w).
Proof.
  unfold AzureAIProvider.extractStep, Shape.kept.
  destruct (10 <? String.length (trim (group2 m))); reflexivity.
Qed.

Lemma iter_clockRead (n : nat) (w : World) :
  clock (Nat.iter n clockRead w) = clock w
  /\ clockReads (Nat.iter n clockRead w) = n + clockReads w
  /\ trace (Nat.iter n clockRead w) = trace w
  /\ fetchCalls (Nat.iter n clockRead w) = fetchCalls w.
Proof.
  induction n as [|n IH]; simpl; [tauto|].
  destruct IH as (H1 & H2 & H3 & H4). repeat split; simpl; congruence.
Qed.

Lemma iter_clockRead_shift (n : nat) (w : World) :
  Nat.iter n clockRead (clockRead w) = clockRead (Nat.iter n clockRead w).
Proof. induction n as [|n IH]; simpl; [reflexivity | now rewrite IH]. Qed.

(** The loop, in one piece: it never throws, it appends one artifact per
    kept match, in order, and reads the clock twice for each. *)
Lemma extractLoop_spec (content : string) (index : nat)
  (artifacts : list Artifact.t) (w : World) :
  AzureAIProvider.extractLoop content index artifacts w =
  (Return (artifacts
           ++ Shape.artifactsFrom (clock w) (clockReads w) index
                (filter Shape.kept (matches content))),
   Nat.iter (2 * List.length (filter Shape.kept (matches content)))
            clockRead w).
Proof.
  funelim (AzureAIProvider.extractLoop content index artifacts w);
    rewrite (matches_step content);
    match goal with H : exec _ = _ |- _ => rewrite H end.
  - simpl. now rewrite app_nil_r.
  - match goal with
    | H : AzureAIProvider.extractStep _ _ _ _ = _ |- _ =>
        rewrite extractStep_spec in H; cbn [filter];
        destruct (Shape.kept m); inversion H; subst; clear H
    end;
    match goal with
    | IH : AzureAIProvider.extractLoop _ _ _ _ = (Return _, _) |- _ =>
        rewrite IH
    end.
    + cbn [Shape.artifactsFrom List.length clock clockReads clockRead].
      rewrite <- app_assoc. cbn [app].
      replace (index + 1) with (S index) by lia.
      f_equal.
      replace (2 * S (List.length (filter Shape.kept (matches rest))))
        with (S (S (2 * List.length (filter Shape.kept (matches rest)))))
        by lia.
      cbn [Nat.iter]. now rewrite !iter_clockRead_shift.
    + reflexivity.
  - match goal with
    | H : AzureAIProvider.extractStep _ _ _ _ = _ |- _ =>
        rewrite extractStep_spec in H; destruct (Shape.kept m); discriminate H
    end.
Qed.

Lemma extractArtifacts_spec (content : string) (w : World) :
  AzureAIProvider.extractArtifacts content w =
  (Return (Shape.artifactsFrom (clock w) (clockReads w) 0
             (filter Shape.kept (matches content))),
   Nat.iter (2 * List.length (filter Shape.kept (matches content)))
            clockRead w).
Proof. unfold AzureAIProvider.extractArtifacts. now rewrite extractLoop_spec. Qed.

Lemma shapes_artifactsFrom (clk : nat -> Z) (r i : nat) (ms : list Match) :
  map Shape.ofArtifact (Shape.artifactsFrom clk r i ms) = map Shape.ofMatch ms.
Proof.
  revert r i. induction ms as [|m ms IH]; intros r i; simpl;
    [reflexivity|].
  rewrite IH. reflexivity.
Qed.

Lemma length_artifactsFrom (clk : nat -> Z) (r i : nat) (ms : list Match) :
  List.length (Shape.artifactsFrom clk r i ms) = List.length ms.
Proof.
  revert r i. induction ms as [|m ms IH]; intros r i; simpl;
    [reflexivity | now rewrite IH].
Qed.

(** The service's copy of the extractor is the provider's. *)
Lemma AIService_extractStep_same (m : Match) (index : nat)
  (artifacts : list Artifact.t) :
  AIService.extractStep m index artifacts
  = AzureAIProvider.extractStep m index artifacts.
Proof.
  unfold AIService.extractStep, AzureAIProvider.extractStep.
  destruct (10 <? String.length (trim (group2 m))); [|reflexivity].
  destruct (orString (group1 m) "text"); reflexivity.
Qed.

Lemma AIService_extractLoop_same (content : string) (index : nat)
  (artifacts : list Artifact.t) (w : World) :
  AIService.extractLoop content index artifacts w
  = AzureAIProvider.extractLoop content index artifacts w.
Proof.
  funelim (AIService.extractLoop content index artifacts w);
    rewrite extractLoop_step;
    match goal with H : exec _ = _ |- _ => rewrite H end;
    try match goal with
        | H : AIService.extractStep _ _ _ _ = _ |- _ =>
            rewrite AIService_extractStep_same in H; rewrite H
        end;
    try reflexivity.
  assumption.
Qed.

End ExtractionFacts.

(* ===================================================================== *)
(** * Artifact extraction *)
(* ===================================================================== *)

Section ExtractionTheorems.
Import Regex Fence.

Lemma arrayIncludes_In (xs : list string) (x : string) :
  arrayIncludes xs x = true <-> In x xs.
Proof.
  unfold arrayIncludes. rewrite existsb_exists. split.
  - intros (y & Hy & E). apply String.eqb_eq in E. now subst.
  - intros H. exists x. split; [assumption | apply String.eqb_refl].
Qed.

(** C4 -- The classification of a language tag: a programming-language tag
    is [code], a diagramming tag is [visualization], a structured-data tag
    is [data], anything else is [document]; the tag is compared in lower
    case, so its case does not matter, and the provider and the service
    classify alike. *)
Theorem getArtifactType_table (language : string) :
  (In (toLowerCase language) Taxonomy.programmingTags ->
   AzureAIProvider.getArtifactType language = code)
  /\ (In (toLowerCase language) Taxonomy.diagrammingTags ->
      AzureAIProvider.getArtifactType language = visualization)
  /\ (In (toLowerCase language) Taxonomy.structuredDataTags ->
      AzureAIProvider.getArtifactType language = data)
  /\ (~ In (toLowerCase language)
          (Taxonomy.programmingTags ++ Taxonomy.diagrammingTags
           ++ Taxonomy.structuredDataTags) ->
      AzureAIProvider.getArtifactType language = document)
  /\ (forall other, toLowerCase other = toLowerCase language ->
      AzureAIProvider.getArtifactType other
      = AzureAIProvider.getArtifactType language)
  /\ AzureAIProvider.getArtifactType (toLowerCase language)
     = AzureAIProvider.getArtifactType language
  /\ AIService.getArtifactType language
     = AzureAIProvider.getArtifactType language.
Proof.
  unfold AzureAIProvider.getArtifactType, AIService.getArtifactType.
  cbv zeta. rewrite toLowerCase_idempotent.
  remember (toLowerCase language) as lang eqn:Elang.
  repeat split.
  - intros H. simpl in H.
    repeat (destruct H as [<- | H]; [reflexivity|]). contradiction.
  - intros H. simpl in H.
    repeat (destruct H as [<- | H]; [reflexivity|]). contradiction.
  - intros H. simpl in H.
    repeat (destruct H as [<- | H]; [reflexivity|]). contradiction.
  - intros H. rewrite !in_app_iff in H.
    match goal with
    | |- context [if arrayIncludes ?l lang then code else _] =>
        destruct (arrayIncludes l lang) eqn:E1
    end.
    { exfalso. apply H. left. now apply arrayIncludes_In. }
    match goal with
    | |- context [if arrayIncludes ?l lang then visualization else _] =>
        destruct (arrayIncludes l lang) eqn:E2
    end.
    { exfalso. apply H. right. left. now apply arrayIncludes_In. }
    match goal with
    | |- context [if arrayIncludes ?l lang then data else _] =>
        destruct (arrayIncludes l lang) eqn:E3
    end.
    { exfalso. apply H. right. right. now apply arrayIncludes_In. }
    reflexivity.
  - intros other ->. reflexivity.
Qed.

Lemma getArtifactType_table_witness :
  AzureAIProvider.getArtifactType "PyThon" = code
  /\ AzureAIProvider.getArtifactType "Mermaid" = visualization
  /\ AzureAIProvider.getArtifactType "YAML" = data
  /\ AzureAIProvider.getArtifactType "markdown" = document
  /\ AzureAIProvider.getArtifactType "PYTHON"
     = AzureAIProvider.getArtifactType "python".
Proof.
  split; [|split; [|split; [|split]]].
  - apply (proj1 (getArtifactType_table "PyThon")).
    vm_compute. tauto.
  - apply (proj1 (proj2 (getArtifactType_table "Mermaid"))).
    vm_compute. tauto.
  - apply (proj1 (proj2 (proj2 (getArtifactType_table "YAML")))).
    vm_compute. tauto.
  - apply (proj1 (proj2 (proj2 (proj2 (getArtifactType_table "markdown"))))).
    vm_compute. intros H.
    repeat (destruct H as [H | H]; [discriminate H|]). exact H.
  - apply (proj1 (proj2 (proj2 (proj2 (proj2
             (getArtifactType_table "python")))))).
    reflexivity.
Defined.

(** C8 -- Two runs of the extractor on one text, whatever the clock says
    in each, give lists of one length whose artifacts agree pairwise in
    type, title, content and metadata (only [id] and [createdAt] may
    differ). *)
Theorem extraction_same_up_to_stamps (text : string) (w1 w2 : World) :
  exists l1 l2,
    fst (AzureAIProvider.extractArtifacts text w1) = Return l1
    /\ fst (AzureAIProvider.extractArtifacts text w2) = Return l2
    /\ List.length l1 = List.length l2
    /\ map Shape.ofArtifact l1 = map Shape.ofArtifact l2
    /\ Forall2 (fun a b =>
                  Artifact.type a = Artifact.type b
                  /\ Artifact.title a = Artifact.title b
                  /\ Artifact.content a = Artifact.content b
                  /\ Artifact.metadata a = Artifact.metadata b) l1 l2.
Proof.
  rewrite !extractArtifacts_spec. cbn [fst].
  eexists. eexists. split; [reflexivity|]. split; [reflexivity|].
  split; [now rewrite !length_artifactsFrom|].
  split; [now rewrite !shapes_artifactsFrom|].
  generalize (filter Shape.kept (matches text)).
  generalize (clockReads w1), (clockReads w2), 0.
  intros r1 r2 i ms. revert r1 r2 i.
  induction ms as [|m ms IH]; intros r1 r2 i; simpl; constructor.
  - repeat split.
  - apply IH.
Qed.

End ExtractionTheorems.

Section ThresholdTheorems.
Import Regex Fence.

Lemma kept_fenced (tag body : string) :
  Shape.kept {| group1 := if isEmpty tag then None else Some tag;
                group2 := body |}
  = (10 <? String.length (trim body)).
Proof. reflexivity. Qed.

(** C3, as stated, fails: a fenced block whose trimmed content has exactly
    ten characters is not shorter than the ten-character minimum, and the
    extractor drops it all the same. *)
Lemma ten_character_block_is_dropped :
  matches Sample.tenCharacterBlock
  = [ {| group1 := Some "js"; group2 := "0123456789" |} ]
  /\ (String.length (trim "0123456789") <? 10) = false
  /\ fst (AzureAIProvider.extractArtifacts Sample.tenCharacterBlock
                                           Sample.idleWorld)
     = Return [].
Proof. repeat split; vm_compute; reflexivity. Qed.

(** C3 (amended) -- For every input text, extraction keeps, in order,
    exactly the fenced blocks whose trimmed content is longer than ten
    characters, and discards the others (ten characters or fewer).  In
    particular a text with exactly two fenced blocks, one tagged python with
    40 characters of content and one tagged json with 5, in either order,
    gives exactly one artifact, of type code. *)
Theorem extraction_keeps_longer_than_ten :
  (forall text w, exists l,
      fst (AzureAIProvider.extractArtifacts text w) = Return l
      /\ map Shape.ofArtifact l
         = map Shape.ofMatch
             (filter (fun m => 10 <? String.length (trim (group2 m)))
                     (matches text)))
  /\ (forall pre mid post body40 body5 w,
        noBacktick pre = true -> noBacktick mid = true ->
        noBacktick post = true ->
        closes body40 = true -> closes body5 = true ->
        String.length (trim body40) = 40 ->
        String.length (trim body5) = 5 ->
        (exists a,
            fst (AzureAIProvider.extractArtifacts
                   (pre +++ fenced "python" body40 +++ mid
                    +++ fenced "json" body5 +++ post) w) = Return [a]
            /\ Artifact.type a = code
            /\ Artifact.content a = trim body40)
        /\ (exists a,
               fst (AzureAIProvider.extractArtifacts
                      (pre +++ fenced "json" body5 +++ mid
                       +++ fenced "python" body40 +++ post) w) = Return [a]
               /\ Artifact.type a = code
               /\ Artifact.content a = trim body40)).
Proof.
  split.
  - intros text w. rewrite extractArtifacts_spec. cbn [fst].
    eexists. split; [reflexivity|]. apply shapes_artifactsFrom.
  - intros pre mid post body40 body5 w Hpre Hmid Hpost H40 H5 L40 L5.
    split; rewrite extractArtifacts_spec; cbn [fst];
      rewrite !matches_fenced by (assumption || reflexivity);
      rewrite (matches_none post Hpost); cbn [filter];
      rewrite !kept_fenced, L40, L5; cbn [Nat.ltb Nat.leb filter];
      cbn [Shape.artifactsFrom]; eexists; (split; [reflexivity|]);
      split; reflexivity.
Qed.

Lemma extraction_keeps_longer_than_ten_witness :
  exists a,
    fst (AzureAIProvider.extractArtifacts Sample.twoBlocks Sample.idleWorld)
    = Return [a]
    /\ Artifact.type a = code
    /\ Artifact.content a = Sample.fortyCharacters.
Proof.
  exact (proj1 (proj2 extraction_keeps_longer_than_ten
                  "Here is code: " " and data: " " done."
                  Sample.fortyCharacters Sample.fiveCharacters
                  Sample.idleWorld
                  eq_refl eq_refl eq_refl eq_refl eq_refl eq_refl eq_refl)).
Defined.

(** C10 -- A fenced block without a language tag is not skipped: when its
    trimmed content is longer than the ten-character threshold it becomes
    an artifact with metadata language "text", type document, title
    "Text Code" and the trimmed body as content.  First for any untagged
    block the scan of any text finds, then for such a block written out
    behind text without backticks, which the scan finds first. *)
Theorem untagged_block_is_extracted :
  (forall text w m,
      In m (matches text) -> group1 m = None ->
      10 < String.length (trim (group2 m)) ->
      exists l a,
        fst (AzureAIProvider.extractArtifacts text w) = Return l
        /\ In a l
        /\ option_map language (Artifact.metadata a) = Some "text"
        /\ Artifact.type a = document
        /\ Artifact.title a = "Text Code"
        /\ Artifact.content a = trim (group2 m))
  /\ (forall pre body post w,
        noBacktick pre = true -> closes body = true ->
        10 < String.length (trim body) ->
        exists a rest,
          fst (AzureAIProvider.extractArtifacts
                 (pre +++ fenced "" body +++ post) w) = Return (a :: rest)
          /\ option_map language (Artifact.metadata a) = Some "text"
          /\ Artifact.type a = document
          /\ Artifact.title a = "Text Code"
          /\ Artifact.content a = trim body).
Proof.
  split.
  - intros text w m Hin Hg Hlen. rewrite extractArtifacts_spec. cbn [fst].
    eexists. 
    assert (Hk : In m (filter Shape.kept (matches text))).
    { apply filter_In. split; [assumption|].
      unfold Shape.kept. now apply Nat.ltb_lt. }
    apply (in_map Shape.ofMatch) in Hk.
    rewrite <- (shapes_artifactsFrom (clock w) (clockReads w) 0) in Hk.
    apply in_map_iff in Hk. destruct Hk as (a & Ha & Hin').
    exists a. split; [reflexivity|]. split; [assumption|].
    unfold Shape.ofArtifact, Shape.ofMatch, Shape.languageOf in Ha.
    rewrite Hg in Ha. inversion Ha as [[Ht Hti Hc Hm]].
    rewrite Hm, Ht, Hti, Hc. repeat split.
  - intros pre body post w Hpre Hbody Hlen.
    rewrite extractArtifacts_spec. cbn [fst].
    rewrite matches_fenced by (assumption || reflexivity).
    cbn [filter]. rewrite kept_fenced.
    apply Nat.ltb_lt in Hlen. rewrite Hlen.
    cbn [Shape.artifactsFrom]. eexists. eexists.
    split; [reflexivity|]. repeat split.
Qed.

Lemma untagged_block_is_extracted_witness :
  exists a rest,
    fst (AzureAIProvider.extractArtifacts Sample.untaggedBlock
                                          Sample.idleWorld)
    = Return (a :: rest)
    /\ option_map language (Artifact.metadata a) = Some "text"
    /\ Artifact.type a = document
    /\ Artifact.title a = "Text Code"
    /\ Artifact.content a = "plain words, no tag".
Proof.
  apply (proj2 untagged_block_is_extracted
           "Notes: " "plain words, no tag" " end" Sample.idleWorld).
  - reflexivity.
  - reflexivity.
  - vm_compute. lia.
Defined.

End ThresholdTheorems.

(* ===================================================================== *)
(** * Model ids *)
(* ===================================================================== *)

Section ModelIdTheorems.

(** C7 -- The translation of model ids is a fixed two-way table: for each
    of the three pairs of [MODEL_MAPPING] (sonnet, haiku, opus) the Azure id
    goes to the Anthropic id and back to itself, and the Anthropic id goes
    to the Azure id and back to itself; an id that is no key of a
    translation passes through it unchanged. *)
Theorem model_mapping_round_trip :
  (forall family pair, In (family, pair) MODEL_MAPPING ->
      AIService.mapModelToAnthropic (ModelPair.azure pair)
      = ModelPair.anthropic pair
      /\ AIService.mapModelToAzure (ModelPair.anthropic pair)
         = ModelPair.azure pair
      /\ AIService.mapModelToAzure
           (AIService.mapModelToAnthropic (ModelPair.azure pair))
         = ModelPair.azure pair
      /\ AIService.mapModelToAnthropic
           (AIService.mapModelToAzure (ModelPair.anthropic pair))
         = ModelPair.anthropic pair)
  /\ (forall m,
        (forall family pair, In (family, pair) MODEL_MAPPING ->
                             ModelPair.azure pair <> m) ->
        AIService.mapModelToAnthropic m = m)
  /\ (forall m,
        (forall family pair, In (family, pair) MODEL_MAPPING ->
                             ModelPair.anthropic pair <> m) ->
        AIService.mapModelToAzure m = m)
  /\ (forall m,
        (forall family pair, In (family, pair) MODEL_MAPPING ->
                             ModelPair.azure pair <> m
                             /\ ModelPair.anthropic pair <> m) ->
        AIService.mapModelToAnthropic m = m
        /\ AIService.mapModelToAzure m = m).
Proof.
  assert (Hsonnet : In ("sonnet",
                        {| ModelPair.azure := claude_3_5_sonnet_20241022;
                           ModelPair.anthropic := claude_sonnet_4_5_20250929 |})
                       MODEL_MAPPING) by (simpl; tauto).
  assert (Hhaiku : In ("haiku",
                       {| ModelPair.azure := claude_3_5_haiku_20241022;
                          ModelPair.anthropic := claude_haiku_4_5 |})
                      MODEL_MAPPING) by (simpl; tauto).
  assert (Hopus : In ("opus",
                      {| ModelPair.azure := claude_3_opus_20240229;
                         ModelPair.anthropic := claude_opus_4_20250514 |})
                     MODEL_MAPPING) by (simpl; tauto).
  split; [|split; [|split]].
  - intros family pair H. simpl in H.
    destruct H as [H | [H | [H | []]]]; inversion H; subst; simpl;
      repeat split.
  - intros m H.
    pose proof (H _ _ Hsonnet) as H1. pose proof (H _ _ Hhaiku) as H2.
    pose proof (H _ _ Hopus) as H3. simpl in H1, H2, H3.
    destruct m; try reflexivity; congruence.
  - intros m H.
    pose proof (H _ _ Hsonnet) as H1. pose proof (H _ _ Hhaiku) as H2.
    pose proof (H _ _ Hopus) as H3. simpl in H1, H2, H3.
    destruct m; try reflexivity; congruence.
  - intros m H.
    pose proof (H _ _ Hsonnet) as [H1 H1']. pose proof (H _ _ Hhaiku) as [H2 H2'].
    pose proof (H _ _ Hopus) as [H3 H3']. simpl in *.
    destruct m; split; try reflexivity; congruence.
Qed.

Lemma model_mapping_round_trip_witness :
  AIService.mapModelToAzure
    (AIService.mapModelToAnthropic claude_3_5_haiku_20241022)
  = claude_3_5_haiku_20241022
  /\ AIService.mapModelToAnthropic gpt_4o = gpt_4o
  /\ AIService.mapModelToAzure gpt_4o = gpt_4o.
Proof.
  split.
  - apply (proj1 model_mapping_round_trip "haiku"
             {| ModelPair.azure := claude_3_5_haiku_20241022;
                ModelPair.anthropic := claude_haiku_4_5 |}).
    simpl. tauto.
  - apply (proj2 (proj2 (proj2 model_mapping_round_trip)) gpt_4o).
    intros family pair H. simpl in H.
    destruct H as [H | [H | [H | []]]]; inversion H; subst; simpl;
      split; discriminate.
Defined.

End ModelIdTheorems.

(* ===================================================================== *)
(** * Initialization *)
(* ===================================================================== *)

Section InitializationTheorems.

Lemma isEmpty_false (s : string) : isEmpty s = false <-> s <> "".
Proof. destruct s; simpl; split; congruence. Qed.

(** [AIService.initialize] only hands [AzureAIProvider.initialize] a
    configuration it accepts. *)
Lemma azureConfigured_accepted (config : AIConfig.t) (a : AzureAIConfig)
  (this : AzureAIProvider.t) :
  AIService.azureConfigured config = Some a ->
  exists p, AzureAIProvider.initialize this a = Return p
            /\ AzureAIProvider.getInitializationStatus p = true.
Proof.
  unfold AIService.azureConfigured, AzureAIProvider.initialize.
  destruct (AIConfig.azure config) as [a'|]; [|discriminate].
  destruct (isEmpty (endpoint a')) eqn:E1; [discriminate|].
  destruct (isEmpty (apiKey a')) eqn:E2; [discriminate|].
  simpl. intros H. inversion H; subst. rewrite E1, E2. simpl.
  eexists. split; reflexivity.
Qed.

(** C9, as stated, fails: with Azure as the primary provider and its API
    key missing, [AIService.initialize] returns normally and reports the
    service initialized; the missing credential first shows as the failure
    of the later [execute].  And an endpoint that is no URL passes
    [AzureAIProvider.initialize]. *)
Lemma missing_key_surfaces_at_execute :
  fst (AIService.initialize AIService.new Sample.azureWithoutKey) = Return tt
  /\ AIService.getInitializationStatus
       (snd (AIService.initialize AIService.new Sample.azureWithoutKey))
     = true
  /\ fst (AIService.execute
            (snd (AIService.initialize AIService.new Sample.azureWithoutKey))
            Sample.ask Sample.idleWorld)
     = Throw (newError "Azure AI provider not initialized")
  /\ (exists p,
        AzureAIProvider.initialize AzureAIProvider.new Sample.azureBadEndpoint
        = Return p
        /\ AzureAIProvider.getInitializationStatus p = true).
Proof.
  repeat split; try (vm_compute; reflexivity).
  eexists. split; vm_compute; reflexivity.
Qed.

(** C9 (amended) -- [AzureAIProvider.initialize] raises, at initialization
    time, exactly when the endpoint or the API key is missing (empty), and
    otherwise leaves the provider initialized; whether a given endpoint is a
    valid one is not looked at.  [AIService.initialize] never raises and
    reports the service initialized, whatever the configuration; it sets
    up the Azure provider when both its endpoint and its API key are given,
    with these credentials, and the Anthropic client when its API key is
    given, and leaves a provider whose credentials are missing as it was.
    On a service none of whose providers was set up before, when the
    credentials of neither provider are given, the first [execute] is what
    raises: that the Azure provider is not initialized when Azure is the
    primary provider, that the Anthropic client is not when Anthropic
    is. *)
Theorem initialization_checks :
  (forall this config,
      endpoint config = "" \/ apiKey config = "" ->
      AzureAIProvider.initialize this config
      = Throw (newError "Azure AI endpoint and API key are required"))
  /\ (forall this config,
        endpoint config <> "" -> apiKey config <> "" ->
        exists this',
          AzureAIProvider.initialize this config = Return this'
          /\ AzureAIProvider.getInitializationStatus this' = true)
  /\ (forall this config,
        fst (AIService.initialize this config) = Return tt
        /\ AIService.getInitializationStatus
             (snd (AIService.initialize this config)) = true
        /\ AIService.getActiveProvider
             (snd (AIService.initialize this config))
           = AIConfig.provider config)
  /\ (forall this config,
        let this' := snd (AIService.initialize this config) in
        (forall a,
            AIService.azureConfigured config = Some a ->
            AzureAIProvider.initialize (AIService.azureProvider this) a
            = Return (AIService.azureProvider this')
            /\ AzureAIProvider.getInitializationStatus
                 (AIService.azureProvider this') = true
            /\ exists cfg,
                 AzureAIProvider.config (AIService.azureProvider this')
                 = Some cfg
                 /\ apiKey cfg = apiKey a
                 /\ endpoint cfg
                    = AzureAIProvider.removeTrailingSlash (endpoint a))
        /\ (forall a,
              AIService.anthropicConfigured config = Some a ->
              AIService.anthropicClient this'
              = Some {| Anthropic.apiKey := AnthropicConfig.apiKey a;
                        Anthropic.timeout := 1200000;
                        Anthropic.maxRetries := 2 |})
        /\ (AIService.azureConfigured config = None ->
            AIService.azureProvider this' = AIService.azureProvider this)
        /\ (AIService.anthropicConfigured config = None ->
            AIService.anthropicClient this' = AIService.anthropicClient this))
  /\ (forall this config options w,
        AzureAIProvider.config (AIService.azureProvider this) = None ->
        AIService.anthropicClient this = None ->
        AIService.azureConfigured config = None ->
        AIService.anthropicConfigured config = None ->
        AIService.execute (snd (AIService.initialize this config)) options w
        = (Throw (newError
                    match AIConfig.provider config with
                    | azure => "Azure AI provider not initialized"
                    | anthropic => "Anthropic client not initialized"
                    end),
           logged w
             (EvProviderCall (AIConfig.provider config)
                (Some (AzureAIProvider.orDefault
                         (AIExecuteOptions.model options)
                         claude_3_5_sonnet_20241022))))).
Proof.
  split; [|split; [|split; [|split]]].
  - intros this config H. unfold AzureAIProvider.initialize.
    destruct H as [H | H]; rewrite H; simpl;
      [reflexivity | now rewrite orb_true_r].
  - intros this config He Hk. unfold AzureAIProvider.initialize.
    apply isEmpty_false in He. apply isEmpty_false in Hk.
    rewrite He, Hk. simpl. eexists. split; reflexivity.
  - intros this config. unfold AIService.initialize. cbv zeta.
    destruct (AIService.azureConfigured config) as [a|] eqn:E.
    + cbn [AIService.azureProvider].
      destruct (@azureConfigured_accepted config a
                  (AIService.azureProvider this) E) as (p & Hp & _).
      rewrite Hp. repeat split.
    + repeat split.
  - intros this config. cbv zeta. unfold AIService.initialize. cbv zeta.
    cbn [AIService.azureProvider].
    destruct (AIService.azureConfigured config) as [a|] eqn:E.
    + destruct (@azureConfigured_accepted config a
                  (AIService.azureProvider this) E) as (p & Hp & Hready).
      rewrite Hp.
      cbn [snd AIService.azureProvider AIService.anthropicClient].
      split; [|split; [|split]].
      * intros a' Ha'. injection Ha' as <-.
        split; [exact Hp|]. split; [exact Hready|].
        unfold AzureAIProvider.initialize in Hp.
        destruct (isEmpty (endpoint a) || isEmpty (apiKey a));
          [discriminate Hp|].
        injection Hp as <-. eexists. split; [reflexivity|].
        split; reflexivity.
      * intros a' ->. reflexivity.
      * discriminate.
      * intros ->. reflexivity.
    + cbn [snd AIService.azureProvider AIService.anthropicClient].
      split; [|split; [|split]].
      * discriminate.
      * intros a' ->. reflexivity.
      * reflexivity.
      * intros ->. reflexivity.
  - intros this config options w Hazure Hclient Haz Han.
    unfold AIService.initialize. cbv zeta. rewrite Haz, Han.
    cbn [snd AIService.anthropicClient AIService.azureProvider].
    unfold AIService.execute.
    cbn [AIService.isInitialized negb AIService.activeProvider].
    cbv zeta. unfold AIService.mapModel.
    unfold tryCatch, AIService.tryFallback, tryCatch,
      AIService.hasAnthropicClient, AzureAIProvider.getInitializationStatus.
    cbn [AIService.activeProvider AIService.anthropicClient
         AIService.azureProvider].
    rewrite Hazure, Hclient. rewrite andb_false_r.
    destruct (AIConfig.provider config).
    + unfold AIService.executeWithAzure, AzureAIProvider.execute, bind, emit.
      cbn [AIService.azureProvider]. rewrite Hazure. reflexivity.
    + unfold AIService.executeWithAnthropic,
        AIService.executeWithAnthropic_body, bind, emit.
      cbn [AIService.anthropicClient]. unfold throw, ret.
      rewrite !andb_false_r. reflexivity.
Qed.

Lemma initialization_checks_witness :
  AzureAIProvider.initialize AzureAIProvider.new
    (Build_AzureAIConfig "https://models.inference.ai.azure.com" "" None None)
  = Throw (newError "Azure AI endpoint and API key are required")
  /\ fst (AIService.execute
            (snd (AIService.initialize AIService.new Sample.azureWithoutKey))
            Sample.askStreaming Sample.idleWorld)
     = Throw (newError "Azure AI provider not initialized")
  /\ fst (AIService.execute
            (snd (AIService.initialize AIService.new
                    Sample.anthropicWithoutKey))
            Sample.askStreaming Sample.idleWorld)
     = Throw (newError "Anthropic client not initialized").
Proof.
  split; [|split].
  - apply (proj1 initialization_checks). right. reflexivity.
  - rewrite (proj2 (proj2 (proj2 (proj2 initialization_checks)))
               AIService.new Sample.azureWithoutKey Sample.askStreaming
               Sample.idleWorld eq_refl eq_refl eq_refl eq_refl).
    reflexivity.
  - rewrite (proj2 (proj2 (proj2 (proj2 initialization_checks)))
               AIService.new Sample.anthropicWithoutKey Sample.askStreaming
               Sample.idleWorld eq_refl eq_refl eq_refl eq_refl).
    reflexivity.
Defined.

End InitializationTheorems.

(* ===================================================================== *)
(** * The synthesis trigger *)
(* ===================================================================== *)

Section SynthesisTheorems.
Import ExplorationEngine.
Local Open Scope Z_scope.

(** On a positive count, [count % interval === 0] is divisibility. *)
Lemma jsRem_zero (count interval : Z) :
  0 < count ->
  match jsRem count interval with
  | Some r => (r =? 0)
  | None => false
  end = true
  <-> count mod interval = 0.
Proof.
  intros Hpos. unfold jsRem.
  destruct (Z.eqb_spec interval 0) as [->|Hne].
  - rewrite Z.mod_0_r. split; [discriminate | lia].
  - rewrite Z.eqb_eq. rewrite Z.rem_divide by assumption.
    now rewrite Z.mod_divide by assumption.
Qed.

Lemma synthesisDue_iff (config : Config.t) (isSummary : bool) (stage : Stage)
  (context : ExplorationContext) :
  0 < Z.of_nat (List.length (previousStages context)) ->
  synthesisDue config isSummary stage context = true
  <-> Config.enableMiniSynthesis config = true
      /\ isSummary = false
      /\ status stage = complete
      /\ Z.of_nat (List.length (previousStages context))
         mod Config.synthesisInterval config = 0
      /\ Config.synthesisInterval config
         <= Z.of_nat (List.length (previousStages context)).
Proof.
  intros Hpos. unfold synthesisDue. cbv zeta.
  rewrite !andb_true_iff, negb_true_iff, (jsRem_zero _ Hpos), Z.geb_le.
  assert (Hs : match status stage with complete => true | _ => false end
               = true <-> status stage = complete).
  { destruct (status stage); split; congruence. }
  rewrite Hs. tauto.
Qed.

(** When the trigger fires, [createMiniSynthesis] has its [interval]
    stages: its own guard never skips. *)
Lemma lastStages_enough {A} (interval : Z) (xs : list A) :
  interval <= Z.of_nat (List.length xs) ->
  (Z.of_nat (List.length (sliceFrom (- interval) xs)) <? interval) = false.
Proof.
  intros H. apply Z.ltb_ge. unfold sliceFrom. rewrite length_skipn.
  destruct (Z.ltb_spec (- interval) 0); lia.
Qed.

(** C5, as stated, fails: with synthesis switched off in the
    configuration, the third completed stage (3 mod 3 = 0, 3 >= 3, not a
    summary) generates no synthesis, though the service would deliver. *)
Lemma disabled_synthesis_is_not_generated :
  3 mod Config.synthesisInterval Sample.everyThreeDisabled = 0
  /\ Config.synthesisInterval Sample.everyThreeDisabled <= 3
  /\ status Sample.doneStage = complete
  /\ executeStage_updateContext Sample.everyThreeDisabled
       Sample.twoStagesDone Sample.doneStage 3 false Sample.synthesisWorld
     = (Return (pushStage Sample.twoStagesDone Sample.doneStage 3),
        Sample.synthesisWorld)
  /\ List.length (previousStages
                    (pushStage Sample.twoStagesDone Sample.doneStage 3))
     = 3%nat
  /\ synthesisCount (pushStage Sample.twoStagesDone Sample.doneStage 3)
     = Some 0%nat.
Proof.
  repeat split; vm_compute; first [reflexivity | discriminate].
Qed.

(** C5 (amended) -- After a stage is appended, a synthesis is requested
    exactly when mini-synthesis is enabled in the configuration, the stage
    is not a summary stage, it completed, and the stage count is a positive
    multiple of [synthesisInterval] (count mod interval = 0 and count >=
    interval).  Then the synthesis service is called once; if it delivers,
    the report is recorded (one insight more, the counter one up), if it
    fails the journey goes on with the context as it was.  In every other
    case nothing is requested and the context is only the one with the
    stage appended. *)
Theorem synthesis_trigger (config : Config.t) (context : ExplorationContext)
  (stage : Stage) (stageNumber : Z) (isSummary : bool) (w : World) :
  let context1 := pushStage context stage stageNumber in
  let count := Z.of_nat (List.length (previousStages context1)) in
  let interval := Config.synthesisInterval config in
  let due :=
    Config.enableMiniSynthesis config = true
    /\ isSummary = false
    /\ status stage = complete
    /\ count mod interval = 0
    /\ interval <= count in
  (due ->
   exists given,
     executeStage_updateContext config context stage stageNumber isSummary w
     = match synthesisScript w (synthesisCalls w) with
       | Return synthesisReport =>
           (Return (recordSynthesis context1 synthesisReport),
            synthesisCalled (logged w (EvSynthesis given)))
       | Throw _ =>
           (Return context1, synthesisCalled (logged w (EvSynthesis given)))
       end)
  /\ (~ due ->
      executeStage_updateContext config context stage stageNumber isSummary w
      = (Return context1, w)).
Proof.
  intros context1 count interval due. subst due interval count.
  assert (Hpos : 0 < Z.of_nat (List.length (previousStages context1))).
  { unfold context1, pushStage. cbn [previousStages].
    rewrite length_app. simpl. lia. }
  pose proof (synthesisDue_iff config isSummary stage context1 Hpos) as Hiff.
  unfold executeStage_updateContext. fold context1. split.
  - intros Hdue. pose proof Hdue as (_ & _ & _ & _ & Hle).
    apply Hiff in Hdue. rewrite Hdue.
    unfold tryCatch, createMiniSynthesis. cbv zeta.
    rewrite (lastStages_enough _ Hle).
    eexists.
    unfold tryCatch, bind, synthesisService_createMiniSynthesis, ret.
    destruct (synthesisScript w (synthesisCalls w)); reflexivity.
  - intros Hnot.
    destruct (synthesisDue config isSummary stage context1) eqn:E;
      [|reflexivity].
    exfalso. apply Hnot. now apply Hiff.
Qed.

Lemma synthesis_trigger_witness :
  exists given,
    executeStage_updateContext Sample.everyThree Sample.twoStagesDone
      Sample.doneStage 3 false Sample.synthesisWorld
    = (Return (recordSynthesis
                 (pushStage Sample.twoStagesDone Sample.doneStage 3)
                 Sample.report),
       synthesisCalled (logged Sample.synthesisWorld (EvSynthesis given))).
Proof.
  apply (proj1 (synthesis_trigger Sample.everyThree Sample.twoStagesDone
                  Sample.doneStage 3 false Sample.synthesisWorld)).
  repeat split. vm_compute. discriminate.
Defined.

(** The end-to-end scenario of the specification: with the interval 3, six
    completed stages give a synthesis after the third and after the sixth,
    none after the fourth; the counter ends at 2. *)
Example six_stages_two_syntheses :
  let run n :=
    fst (runStages Sample.everyThree Sample.emptyContext 1
           (repeat (Sample.doneStage, false) n) Sample.synthesisWorld) in
  (exists c3, run 3%nat = Return c3 /\ synthesisCount c3 = Some 1%nat
              /\ option_map (map category) (richInsights c3)
                 = Some [ "Synthesis" ])
  /\ (exists c4, run 4%nat = Return c4 /\ synthesisCount c4 = Some 1%nat)
  /\ (exists c6, run 6%nat = Return c6 /\ synthesisCount c6 = Some 2%nat).
Proof.
  cbv zeta. repeat split; eexists; (split; [vm_compute; reflexivity|]);
    repeat split.
Qed.

End SynthesisTheorems.

(* ===================================================================== *)
(** * Provider calls *)
(* ===================================================================== *)

Section ProviderFacts.

Lemma includes_append (a b c : string) : includes (a +++ b +++ c) b = true.
Proof.
  induction a as [|x a IH].
  - change ("" +++ b +++ c) with (b +++ c).
    destruct (b +++ c) eqn:E; simpl; unfold startsWith; rewrite <- E;
      now rewrite stripPrefix_append.
  - change (String x a +++ b +++ c) with (String x (a +++ b +++ c)).
    cbn [includes]. rewrite IH. apply orb_true_r.
Qed.

Lemma toLowerCase_append (a b : string) :
  toLowerCase (a +++ b) = toLowerCase a +++ toLowerCase b.
Proof. induction a as [|x a IH]; simpl; [reflexivity | now rewrite IH]. Qed.

(** An HTTP error with status 429, 502 or 503 is one the retry wrapper
    calls retryable. *)
Lemma httpError_retryable (response : Response.t) :
  In (Response.status response) [429; 502; 503] ->
  AzureAIProvider.isRetryableError (AzureAIProvider.httpError response) = true.
Proof.
  intros H. unfold AzureAIProvider.httpError, newError.
  cbn [AzureAIProvider.isRetryableError]. rewrite !toLowerCase_append.
  apply existsb_exists. simpl in H.
  destruct H as [H | [H | [H | []]]]; rewrite <- H.
  - exists "429". split; [simpl; tauto | apply includes_append].
  - exists "502". split; [simpl; tauto | apply includes_append].
  - exists "503". split; [simpl; tauto | apply includes_append].
Qed.

(** [parseResponse] skips the tool calls it cannot parse and goes on. *)
Lemma parseToolCalls_total (toolCalls : list ToolCall.t)
  (toolUses : list ToolUse.t) (w : World) :
  exists l, AzureAIProvider.parseToolCalls toolCalls toolUses w = (Return l, w).
Proof.
  revert toolUses. induction toolCalls as [|tool more IH]; intros toolUses.
  - now exists toolUses.
  - cbn [AzureAIProvider.parseToolCalls]. unfold bind, tryCatch, JSON_parse, ret.
    destruct (parseJson w (ToolCall.arguments tool)); apply IH.
Qed.

(** On a body the optional chains can read, [parseResponse] never throws;
    the content of its result is the [content] field of the first choice's
    message, or the empty string when any link of that path is missing. *)
Lemma parseResponse_total (response : Completion.t) (model : AIModel)
  (w : World) :
  exists r w',
    AzureAIProvider.parseResponse (Body.shaped response) model w
    = (Return r, w')
    /\ AIResponse.content r
       = orString (match AzureAIProvider.firstMessage response with
                   | Some msg => Message.content msg
                   | None => None
                   end) ""
    /\ AIResponse.provider r = azure
    /\ fetchCalls w' = fetchCalls w
    /\ trace w' = trace w.
Proof.
  unfold AzureAIProvider.parseResponse. cbv zeta. unfold bind at 1.
  destruct (parseToolCalls_total
              match AzureAIProvider.firstMessage response with
              | Some msg =>
                  match Message.tool_calls msg with
                  | Some l => l
                  | None => []
                  end
              | None => []
              end [] w) as (l & ->).
  unfold bind. rewrite extractArtifacts_spec. unfold ret.
  eexists. eexists. split; [reflexivity|].
  cbn [AIResponse.content AIResponse.provider].
  repeat split; apply iter_clockRead.
Qed.

(** The one HTTP exchange of a non-streaming call. *)
Lemma executeNonStreaming_exchange (this : AzureAIProvider.t)
  (cfg : AzureAIConfig) (body : RequestBody.t) (model : AIModel) (w : World) :
  AzureAIProvider.config this = Some cfg ->
  AzureAIProvider.executeNonStreaming this body model w =
  let w1 :=
    fetched (logged (clockRead w)
               (EvFetch (endpoint cfg +++ "/chat/completions")
                        ("Bearer " +++ apiKey cfg) body)) in
  match fetchScript w (fetchCalls w) with
  | FetchRejects e => (Throw e, w1)
  | FetchResolves response =>
      if Response.ok response then
        match Response.json response with
        | Return parsed =>
            AzureAIProvider.parseResponse parsed model (clockRead w1)
        | Throw e => (Throw e, w1)
        end
      else (Throw (AzureAIProvider.httpError response), w1)
  end.
Proof.
  intros Hcfg.
  unfold AzureAIProvider.executeNonStreaming, AzureAIProvider.getEndpoint,
    AzureAIProvider.getHeaders.
  rewrite Hcfg. unfold bind, ret, Date_now, fetch, throw. cbv zeta.
  cbn [fetchScript fetchCalls clockRead logged].
  destruct (fetchScript w (fetchCalls w)) as [e | response]; [reflexivity|].
  destruct (Response.ok response); cbn [negb]; [|reflexivity].
  destruct (Response.json response); reflexivity.
Qed.


(** [execute] without [stream] is [executeNonStreaming], bare. *)
Lemma execute_nonstreaming (this : AzureAIProvider.t) (cfg : AzureAIConfig)
  (options : AIExecuteOptions.t) :
  AzureAIProvider.config this = Some cfg ->
  AzureAIProvider.orDefault (AIExecuteOptions.stream options) false = false ->
  exists body model,
    AzureAIProvider.execute this options
    = AzureAIProvider.executeNonStreaming this body model.
Proof.
  intros Hcfg Hstream. unfold AzureAIProvider.execute.
  rewrite Hcfg. cbv zeta. rewrite Hstream. eexists. eexists. reflexivity.
Qed.

(** The retry wrapper obeys the recursive equation of the source. *)
Lemma executeWithRetry_step (operation : M AIResponse.t) (attempt : nat) :
  forall w,
    AzureAIProvider.executeWithRetry operation attempt w =
    (try operation
     catch error =>
       let isNetworkError := AzureAIProvider.isRetryableError error in
       let shouldRetry :=
         isNetworkError && (attempt <? AzureAIProvider.MAX_RETRIES) in
       if shouldRetry then
         sleep (AzureAIProvider.retryDelay attempt) ;;
         AzureAIProvider.executeWithRetry operation (attempt + 1)
       else throw error) w.
Proof.
  intros w.
  funelim (AzureAIProvider.executeWithRetry operation attempt w);
    unfold tryCatch;
    match goal with H : operation _ = _ |- _ => rewrite H end;
    try reflexivity; cbv zeta;
    match goal with H : andb _ _ = _ |- _ => rewrite H end; reflexivity.
Qed.

(** The whole retry policy: at most three attempts; a retryable failure of
    the first is followed by a wait of 2000 ms, one of the second by a
    wait of 4000 ms; a failure that is not retryable, and any outcome of
    the third attempt, go to the caller as they are. *)
Lemma executeWithRetry_three_attempts (operation : M AIResponse.t) (w : World) :
  AzureAIProvider.executeWithRetry operation 1 w =
  match operation w with
  | (Return r, w1) => (Return r, w1)
  | (Throw e1, w1) =>
      if AzureAIProvider.isRetryableError e1 then
        match operation (logged w1 (EvSleep 2000)) with
        | (Return r, w2) => (Return r, w2)
        | (Throw e2, w2) =>
            if AzureAIProvider.isRetryableError e2 then
              operation (logged w2 (EvSleep 4000))
            else (Throw e2, w2)
        end
      else (Throw e1, w1)
  end.
Proof.
  rewrite executeWithRetry_step. unfold tryCatch.
  destruct (operation w) as [[r | e1] w1]; [reflexivity|].
  cbv zeta. change (1 <? AzureAIProvider.MAX_RETRIES) with true.
  rewrite andb_true_r.
  destruct (AzureAIProvider.isRetryableError e1); [|reflexivity].
  unfold bind, sleep, emit.
  change (AzureAIProvider.retryDelay 1) with 2000.
  rewrite executeWithRetry_step. unfold tryCatch.
  destruct (operation (logged w1 (EvSleep 2000))) as [[r | e2] w2];
    [reflexivity|].
  cbv zeta. change (1 + 1 <? AzureAIProvider.MAX_RETRIES) with true.
  rewrite andb_true_r.
  destruct (AzureAIProvider.isRetryableError e2); [|reflexivity].
  unfold bind, sleep, emit.
  change (AzureAIProvider.retryDelay (1 + 1)) with 4000.
  rewrite executeWithRetry_step. unfold tryCatch.
  destruct (operation (logged w2 (EvSleep 4000))) as [[r | e3] w3];
    [reflexivity|].
  cbv zeta. change (1 + 1 + 1 <? AzureAIProvider.MAX_RETRIES) with false.
  rewrite andb_false_r. reflexivity.
Qed.

(** [execute] with [stream] is the streaming attempt under the retry
    wrapper, entered at attempt 1. *)
Lemma execute_streaming (this : AzureAIProvider.t) (cfg : AzureAIConfig)
  (options : AIExecuteOptions.t) :
  AzureAIProvider.config this = Some cfg ->
  AzureAIProvider.orDefault (AIExecuteOptions.stream options) false = true ->
  exists body model,
    AzureAIProvider.execute this options
    = AzureAIProvider.executeWithRetry
        (AzureAIProvider.executeStreaming this body model
           (AIExecuteOptions.onChunk options)
           (AIExecuteOptions.onThinking options)) 1.
Proof.
  intros Hcfg Hstream. unfold AzureAIProvider.execute.
  rewrite Hcfg. cbv zeta. rewrite Hstream. eexists. eexists. reflexivity.
Qed.


End ProviderFacts.

Section ProviderTheorems.




(** C1 -- where the code departs from the claim: a non-streaming call on
    an initialized provider that meets a transient failure (HTTP 429, 502
    or 503) is not retried.  The error is one the retry wrapper calls
    retryable, and yet it reaches the caller after the one request, with no
    wait and no second request. *)
Theorem nonstreaming_call_is_not_retried (this : AzureAIProvider.t)
  (cfg : AzureAIConfig) (options : AIExecuteOptions.t) (w : World)
  (response : Response.t) :
  AzureAIProvider.config this = Some cfg ->
  AzureAIProvider.orDefault (AIExecuteOptions.stream options) false = false ->
  fetchScript w (fetchCalls w) = FetchResolves response ->
  In (Response.status response) [429; 502; 503] ->
  AzureAIProvider.isRetryableError (AzureAIProvider.httpError response) = true
  /\ fst (AzureAIProvider.execute this options w)
     = Throw (AzureAIProvider.httpError response)
  /\ fetchCalls (snd (AzureAIProvider.execute this options w))
     = S (fetchCalls w)
  /\ exists url authorization body,
       trace (snd (AzureAIProvider.execute this options w))
       = trace w ++ [ EvFetch url authorization body ].
Proof.
  intros Hcfg Hstream Hfetch Hstatus.
  split; [now apply httpError_retryable|].
  destruct (execute_nonstreaming this options Hcfg Hstream)
    as (body & model & ->).
  rewrite (executeNonStreaming_exchange _ _ _ _ Hcfg). cbv zeta.
  rewrite Hfetch.
  assert (Hok : Response.ok response = false).
  { unfold Response.ok. simpl in Hstatus.
    destruct Hstatus as [H | [H | [H | []]]]; rewrite <- H; reflexivity. }
  rewrite Hok. split; [reflexivity|]. split; [reflexivity|].
  eexists. eexists. eexists. reflexivity.
Qed.

Lemma nonstreaming_call_is_not_retried_witness :
  fst (AzureAIProvider.execute Sample.azureReady Sample.ask
         (Sample.withFetches [ FetchResolves Sample.serviceUnavailable;
                               FetchResolves Sample.hello ]))
  = Throw (newError "Azure AI error: 503 - Service Unavailable")
  /\ fetchCalls
       (snd (AzureAIProvider.execute Sample.azureReady Sample.ask
               (Sample.withFetches [ FetchResolves Sample.serviceUnavailable;
                                     FetchResolves Sample.hello ])))
     = 1.
Proof.
  pose proof (@nonstreaming_call_is_not_retried Sample.azureReady
                (Build_AzureAIConfig "https://models.inference.ai.azure.com"
                                     "secret" None
                                     (Some "2024-05-01-preview"))
                Sample.ask
                (Sample.withFetches [ FetchResolves Sample.serviceUnavailable;
                                      FetchResolves Sample.hello ])
                Sample.serviceUnavailable
                eq_refl eq_refl eq_refl
                (or_intror (or_intror (or_introl eq_refl))))
    as (_ & H1 & H2 & _).
  split; [exact H1 | exact H2].
Defined.

(** The streaming path, on the same endpoint, does retry: three requests,
    waits of 2000 ms and 4000 ms between them, then the third failure goes
    to the caller; and had the third request got through, its response
    would have. *)
Example streaming_call_is_retried :
  let events (w : World) :=
    map (fun e => match e with
                  | EvFetch _ _ _ => "fetch"
                  | EvSleep ms => ofNat ms
                  | _ => "other"
                  end) (trace w) in
  let down := FetchResolves Sample.serviceUnavailable in
  let failing :=
    AzureAIProvider.execute Sample.azureReady Sample.askStreaming
      (Sample.withFetches [ down; down; down; FetchResolves Sample.garbledStream ]) in
  let recovering :=
    AzureAIProvider.execute Sample.azureReady Sample.askStreaming
      (Sample.withFetches [ down; down; FetchResolves Sample.garbledStream ]) in
  fst failing = Throw (newError "Azure AI error: 503 - Service Unavailable")
  /\ events (snd failing) = [ "fetch"; "2000"; "fetch"; "4000"; "fetch" ]
  /\ (exists r, fst recovering = Return r)
  /\ events (snd recovering) = [ "fetch"; "2000"; "fetch"; "4000"; "fetch" ].
Proof.
  cbv zeta. split; [vm_compute; reflexivity|].
  split; [vm_compute; reflexivity|].
  split; [eexists; vm_compute; reflexivity | vm_compute; reflexivity].
Qed.

End ProviderTheorems.

(* ===================================================================== *)
(** * Which provider is asked *)
(* ===================================================================== *)

Section QuietFacts.

Lemma providerCalls_app (a b : list Event) :
  providerCalls (a ++ b) = providerCalls a ++ providerCalls b.
Proof.
  induction a as [|e a IH]; [reflexivity|].
  destruct e; simpl; now rewrite ?IH.
Qed.

Lemma providerCalls_logged (w : World) (e : Event) :
  plainEvent e ->
  providerCalls (trace (logged w e)) = providerCalls (trace w).
Proof.
  intros H. cbn [trace logged]. rewrite providerCalls_app.
  destruct e; simpl in *; try contradiction; apply app_nil_r.
Qed.

Lemma quiet_ret {A} (a : A) : Quiet (ret a).
Proof. intros w. reflexivity. Qed.

Lemma quiet_throw {A} (e : Thrown) : Quiet (@throw A e).
Proof. intros w. reflexivity. Qed.

Lemma quiet_lift {A} (x : Outcome A) : Quiet (fun w => (x, w)).
Proof. intros w. reflexivity. Qed.

Lemma quiet_bind {A B} (m : M A) (k : A -> M B) :
  Quiet m -> (forall a, Quiet (k a)) -> Quiet (bind m k).
Proof.
  intros Hm Hk w. unfold bind. specialize (Hm w).
  destruct (m w) as [[a | e] w1]; simpl in *; [|assumption].
  now rewrite (Hk a w1).
Qed.

Lemma quiet_tryCatch {A} (m : M A) (h : Thrown -> M A) :
  Quiet m -> (forall e, Quiet (h e)) -> Quiet (tryCatch m h).
Proof.
  intros Hm Hh w. unfold tryCatch. specialize (Hm w).
  destruct (m w) as [[a | e] w1]; simpl in *; [assumption|].
  now rewrite (Hh e w1).
Qed.

Lemma quiet_emit (e : Event) : plainEvent e -> Quiet (emit e).
Proof. intros H w. now apply providerCalls_logged. Qed.

Lemma quiet_when (c : bool) (m : M unit) : Quiet m -> Quiet (when c m).
Proof. intros H. destruct c; [exact H | apply quiet_ret]. Qed.

Lemma quiet_fetch (url authorization : string) (body : RequestBody.t) :
  Quiet (fetch url authorization body).
Proof.
  intros w. unfold fetch.
  destruct (fetchScript w (fetchCalls w)); cbn [snd fetched trace];
    now apply providerCalls_logged.
Qed.

Lemma quiet_Date_now : Quiet Date_now.
Proof. intros w. reflexivity. Qed.

Lemma quiet_JSON_parse (text : string) : Quiet (JSON_parse text).
Proof. intros w. unfold JSON_parse. now destruct (parseJson w text). Qed.

Lemma quiet_JSON_parse_frame (text : string) : Quiet (JSON_parse_frame text).
Proof.
  intros w. unfold JSON_parse_frame. now destruct (parseFrame w text).
Qed.

Lemma quiet_messages_create (p : Anthropic.Params) : Quiet (messages_create p).
Proof.
  intros w. unfold messages_create. cbn [snd sdkCalled trace].
  now apply providerCalls_logged.
Qed.

Lemma quiet_messages_stream (p : Anthropic.Params) : Quiet (messages_stream p).
Proof.
  intros w. unfold messages_stream. cbn [snd sdkCalled trace].
  now apply providerCalls_logged.
Qed.

Lemma quiet_sleep (ms : nat) : Quiet (sleep ms).
Proof. now apply quiet_emit. Qed.

Lemma quiet_extractArtifacts (content : string) :
  Quiet (AzureAIProvider.extractArtifacts content).
Proof.
  intros w. rewrite extractArtifacts_spec. cbn [snd].
  now rewrite (proj1 (proj2 (proj2 (iter_clockRead _ w)))).
Qed.

Lemma quiet_AIService_extractArtifacts (content : string) :
  Quiet (AIService.extractArtifacts content).
Proof.
  intros w. unfold AIService.extractArtifacts.
  rewrite AIService_extractLoop_same.
  apply (quiet_extractArtifacts content w).
Qed.

End QuietFacts.

Create HintDb quiet.
#[local] Hint Resolve quiet_ret quiet_throw quiet_lift quiet_fetch
  quiet_Date_now quiet_JSON_parse quiet_JSON_parse_frame
  quiet_messages_create quiet_messages_stream quiet_sleep
  quiet_extractArtifacts quiet_AIService_extractArtifacts : quiet.

(** Takes a computation apart along its binds, handlers and case
    distinctions, and closes the leaves from the hint base. *)
Ltac quiet :=
  repeat match goal with
         | |- Quiet (bind _ _) => apply quiet_bind; [|intros]
         | |- Quiet (tryCatch _ _) => apply quiet_tryCatch; [|intros]
         | |- Quiet (when _ _) => apply quiet_when
         | |- Quiet (emit _) => apply quiet_emit; exact I
         | |- Quiet (match ?x with _ => _ end) => destruct x
         | |- Quiet _ => solve [auto with quiet]
         end.

Section QuietProviders.

Lemma quiet_parseToolCalls (toolCalls : list ToolCall.t)
  (toolUses : list ToolUse.t) :
  Quiet (AzureAIProvider.parseToolCalls toolCalls toolUses).
Proof.
  revert toolUses. induction toolCalls as [|tool more IH]; intros toolUses;
    cbn [AzureAIProvider.parseToolCalls]; quiet.
Qed.
#[local] Hint Resolve quiet_parseToolCalls : quiet.

Lemma quiet_parseResponse (response : Body.t) (model : AIModel) :
  Quiet (AzureAIProvider.parseResponse response model).
Proof.
  unfold AzureAIProvider.parseResponse. cbv zeta.
  destruct response; quiet.
Qed.
#[local] Hint Resolve quiet_parseResponse : quiet.

Lemma quiet_executeNonStreaming (this : AzureAIProvider.t)
  (body : RequestBody.t) (model : AIModel) :
  Quiet (AzureAIProvider.executeNonStreaming this body model).
Proof.
  unfold AzureAIProvider.executeNonStreaming, AzureAIProvider.getEndpoint,
    AzureAIProvider.getHeaders.
  destruct (AzureAIProvider.config this); quiet.
Qed.

Lemma quiet_handleFrame (onChunk onThinking : bool) (parsed : Frame.t)
  (st : AzureAIProvider.StreamState) :
  Quiet (AzureAIProvider.handleFrame onChunk onThinking parsed st).
Proof. unfold AzureAIProvider.handleFrame, AzureAIProvider.chunk. quiet. Qed.
#[local] Hint Resolve quiet_handleFrame : quiet.

Lemma quiet_handleLines (onChunk onThinking : bool) (lines : list string)
  (st : AzureAIProvider.StreamState) :
  Quiet (AzureAIProvider.handleLines onChunk onThinking lines st).
Proof.
  revert st. induction lines as [|line more IH]; intros st;
    cbn [AzureAIProvider.handleLines]; cbv zeta; quiet.
Qed.
#[local] Hint Resolve quiet_handleLines : quiet.

Lemma quiet_readLoop (onChunk onThinking : bool) (reads : list ReadResult)
  (st : AzureAIProvider.StreamState) :
  Quiet (AzureAIProvider.readLoop onChunk onThinking reads st).
Proof.
  revert st. induction reads as [|read more IH]; intros st;
    cbn [AzureAIProvider.readLoop]; [quiet|].
  destruct read; cbv zeta; quiet.
Qed.
#[local] Hint Resolve quiet_readLoop : quiet.

Lemma quiet_executeStreaming (this : AzureAIProvider.t)
  (body : RequestBody.t) (model : AIModel) (onChunk onThinking : bool) :
  Quiet (AzureAIProvider.executeStreaming this body model onChunk onThinking).
Proof.
  unfold AzureAIProvider.executeStreaming, AzureAIProvider.getEndpoint,
    AzureAIProvider.getHeaders, AzureAIProvider.chunk.
  destruct (AzureAIProvider.config this); quiet.
Qed.

Lemma quiet_executeWithRetry (operation : M AIResponse.t) :
  Quiet operation ->
  forall attempt, Quiet (AzureAIProvider.executeWithRetry operation attempt).
Proof.
  intros Hop.
  assert (H : forall n attempt,
             AzureAIProvider.MAX_RETRIES - attempt <= n ->
             Quiet (AzureAIProvider.executeWithRetry operation attempt)).
  { induction n as [|n IH]; intros attempt Hn w;
      rewrite executeWithRetry_step;
      revert w; (apply quiet_tryCatch; [exact Hop|]); intros e; cbv zeta;
      destruct (AzureAIProvider.isRetryableError e
                && (attempt <? AzureAIProvider.MAX_RETRIES)) eqn:E;
      try apply quiet_throw;
      apply andb_true_iff in E; destruct E as [_ E];
      apply Nat.ltb_lt in E.
    - lia.
    - apply quiet_bind; [apply quiet_sleep | intros _; apply IH; lia]. }
  intros attempt. now apply (H (AzureAIProvider.MAX_RETRIES - attempt)).
Qed.

Lemma quiet_azure_execute (this : AzureAIProvider.t)
  (options : AIExecuteOptions.t) :
  Quiet (AzureAIProvider.execute this options).
Proof.
  unfold AzureAIProvider.execute.
  destruct (AzureAIProvider.config this); [|quiet]. cbv zeta.
  destruct (AzureAIProvider.orDefault (AIExecuteOptions.stream options) false).
  - apply quiet_executeWithRetry. apply quiet_executeStreaming.
  - apply quiet_executeNonStreaming.
Qed.

Lemma quiet_parseAnthropicResponse (response : Anthropic.Message)
  (model : AIModel) :
  Quiet (AIService.parseAnthropicResponse response model).
Proof. unfold AIService.parseAnthropicResponse. cbv zeta. quiet. Qed.
#[local] Hint Resolve quiet_parseAnthropicResponse : quiet.

Lemma quiet_consumeEvents (onChunk onThinking : bool)
  (events : list Anthropic.StreamStep) (fullContent fullThinking : string) :
  Quiet (AIService.consumeEvents onChunk onThinking events
                                 fullContent fullThinking).
Proof.
  revert fullContent fullThinking.
  induction events as [|step more IH]; intros fullContent fullThinking;
    cbn [AIService.consumeEvents]; [quiet|].
  destruct step as [event | e]; [|quiet].
  unfold AzureAIProvider.chunk.
  destruct event; quiet.
Qed.
#[local] Hint Resolve quiet_consumeEvents : quiet.

Lemma quiet_executeWithAnthropic_body (this : AIService.t)
  (options : AIExecuteOptions.t) :
  Quiet (AIService.executeWithAnthropic_body this options).
Proof.
  unfold AIService.executeWithAnthropic_body,
    AIService.executeAnthropicStreaming,
    AIService.executeAnthropicNonStreaming, AzureAIProvider.chunk.
  cbv zeta. quiet.
Qed.

(** A recorded entry followed by a computation that asks no provider is
    one provider call. *)
Lemma calls_after_entry {A} (p : AIProvider) (model : option AIModel)
  (m : M A) (w : World) :
  Quiet m ->
  providerCalls (trace (snd ((emit (EvProviderCall p model) ;; m) w)))
  = providerCalls (trace w) ++ [ (p, model) ].
Proof.
  intros Hm. unfold bind, emit.
  rewrite (Hm (logged w (EvProviderCall p model))).
  cbn [trace logged]. now rewrite providerCalls_app.
Qed.

(** A call of a provider through the service is one provider call. *)
Lemma calls_executeWithAzure (this : AIService.t)
  (options : AIExecuteOptions.t) (w : World) :
  providerCalls (trace (snd (AIService.executeWithAzure this options w)))
  = providerCalls (trace w) ++ [ (azure, AIExecuteOptions.model options) ].
Proof. apply calls_after_entry, quiet_azure_execute. Qed.

Lemma calls_executeWithAnthropic (this : AIService.t)
  (options : AIExecuteOptions.t) (w : World) :
  providerCalls (trace (snd (AIService.executeWithAnthropic this options w)))
  = providerCalls (trace w) ++ [ (anthropic, AIExecuteOptions.model options) ].
Proof. apply calls_after_entry, quiet_executeWithAnthropic_body. Qed.

End QuietProviders.

(* ===================================================================== *)
(** * What a provider call does to the outside *)
(* ===================================================================== *)

Section KeepsFacts.
Context {X : Type} (view : World -> X).

Lemma keeps_ret {A} (a : A) : Keeps view (ret a).
Proof. intros w. reflexivity. Qed.

Lemma keeps_throw {A} (e : Thrown) : Keeps view (@throw A e).
Proof. intros w. reflexivity. Qed.

Lemma keeps_lift {A} (x : Outcome A) : Keeps view (fun w => (x, w)).
Proof. intros w. reflexivity. Qed.

Lemma keeps_bind {A B} (m : M A) (k : A -> M B) :
  Keeps view m -> (forall a, Keeps view (k a)) -> Keeps view (bind m k).
Proof.
  intros Hm Hk w. unfold bind. specialize (Hm w).
  destruct (m w) as [[a | e] w1]; simpl in *; [|assumption].
  now rewrite (Hk a w1).
Qed.

Lemma keeps_tryCatch {A} (m : M A) (h : Thrown -> M A) :
  Keeps view m -> (forall e, Keeps view (h e)) -> Keeps view (tryCatch m h).
Proof.
  intros Hm Hh w. unfold tryCatch. specialize (Hm w).
  destruct (m w) as [[a | e] w1]; simpl in *; [assumption|].
  now rewrite (Hh e w1).
Qed.

Lemma keeps_when (c : bool) (m : M unit) :
  Keeps view m -> Keeps view (when c m).
Proof. intros H. destruct c; [exact H | apply keeps_ret]. Qed.

Lemma keeps_emit (e : Event) :
  (forall w, view (logged w e) = view w) -> Keeps view (emit e).
Proof. intros H w. apply H. Qed.

Lemma keeps_Date_now :
  (forall w, view (clockRead w) = view w) -> Keeps view Date_now.
Proof. intros H w. apply H. Qed.

Lemma keeps_JSON_parse (text : string) : Keeps view (JSON_parse text).
Proof. intros w. unfold JSON_parse. now destruct (parseJson w text). Qed.

Lemma keeps_JSON_parse_frame (text : string) :
  Keeps view (JSON_parse_frame text).
Proof.
  intros w. unfold JSON_parse_frame. now destruct (parseFrame w text).
Qed.

Lemma keeps_iter_clockRead (n : nat) (w : World) :
  (forall w0, view (clockRead w0) = view w0) ->
  view (Nat.iter n clockRead w) = view w.
Proof.
  intros H. induction n as [|n IH]; [reflexivity|].
  simpl. now rewrite H.
Qed.

End KeepsFacts.

Create HintDb keeps.
#[local] Hint Resolve keeps_ret keeps_throw keeps_lift keeps_JSON_parse
  keeps_JSON_parse_frame : keeps.

(** Takes a computation apart along its binds, handlers and case
    distinctions; an emitted event and a clock reading are closed with the
    assumptions on the view that are at hand. *)
Ltac keeps :=
  repeat match goal with
         | |- Keeps _ (bind _ _) => apply keeps_bind; [|intros]
         | |- Keeps _ (tryCatch _ _) => apply keeps_tryCatch; [|intros]
         | |- Keeps _ (when _ _) => apply keeps_when
         | |- Keeps _ (emit _) =>
             apply keeps_emit; intros;
             match goal with
             | H : forall w e, isObserverEvent e = true -> _ |- _ =>
                 apply H; reflexivity
             end
         | |- Keeps _ Date_now => apply keeps_Date_now; assumption
         | |- Keeps _ (match ?x with _ => _ end) => destruct x
         | |- Keeps _ _ => solve [auto with keeps]
         end.

(** The parts of a provider call that neither send nor wait: they leave
    alone every view of the world that ignores the clock and what the
    observers are told. *)
Section KeepsProviders.
Context {X : Type} (view : World -> X).
Hypothesis Hclock : forall w, view (clockRead w) = view w.
Hypothesis Hobserver :
  forall w e, isObserverEvent e = true -> view (logged w e) = view w.

Lemma keeps_extractArtifacts (content : string) :
  Keeps view (AzureAIProvider.extractArtifacts content).
Proof.
  intros w. rewrite extractArtifacts_spec. cbn [snd].
  now apply keeps_iter_clockRead.
Qed.

Lemma keeps_AIService_extractArtifacts (content : string) :
  Keeps view (AIService.extractArtifacts content).
Proof.
  intros w. unfold AIService.extractArtifacts.
  rewrite AIService_extractLoop_same.
  apply (keeps_extractArtifacts content w).
Qed.
#[local] Hint Resolve keeps_extractArtifacts
  keeps_AIService_extractArtifacts : keeps.

Lemma keeps_parseToolCalls (toolCalls : list ToolCall.t)
  (toolUses : list ToolUse.t) :
  Keeps view (AzureAIProvider.parseToolCalls toolCalls toolUses).
Proof.
  revert toolUses. induction toolCalls as [|tool more IH]; intros toolUses;
    cbn [AzureAIProvider.parseToolCalls]; keeps.
Qed.
#[local] Hint Resolve keeps_parseToolCalls : keeps.

Lemma keeps_parseResponse (response : Body.t) (model : AIModel) :
  Keeps view (AzureAIProvider.parseResponse response model).
Proof.
  unfold AzureAIProvider.parseResponse. cbv zeta. destruct response; keeps.
Qed.
#[local] Hint Resolve keeps_parseResponse : keeps.

Lemma keeps_handleFrame (onChunk onThinking : bool) (parsed : Frame.t)
  (st : AzureAIProvider.StreamState) :
  Keeps view (AzureAIProvider.handleFrame onChunk onThinking parsed st).
Proof. unfold AzureAIProvider.handleFrame, AzureAIProvider.chunk. keeps. Qed.
#[local] Hint Resolve keeps_handleFrame : keeps.

Lemma keeps_handleLines (onChunk onThinking : bool) (lines : list string)
  (st : AzureAIProvider.StreamState) :
  Keeps view (AzureAIProvider.handleLines onChunk onThinking lines st).
Proof.
  revert st. induction lines as [|line more IH]; intros st;
    cbn [AzureAIProvider.handleLines]; cbv zeta; keeps.
Qed.
#[local] Hint Resolve keeps_handleLines : keeps.

Lemma keeps_readLoop (onChunk onThinking : bool) (reads : list ReadResult)
  (st : AzureAIProvider.StreamState) :
  Keeps view (AzureAIProvider.readLoop onChunk onThinking reads st).
Proof.
  revert st. induction reads as [|read more IH]; intros st;
    cbn [AzureAIProvider.readLoop]; [keeps|].
  destruct read; cbv zeta; keeps.
Qed.
#[local] Hint Resolve keeps_readLoop : keeps.

(** What follows the [fetch] of a streaming attempt. *)
Lemma keeps_streamingTail (model : AIModel) (onChunk onThinking : bool)
  (response : Response.t) :
  Keeps view
    (if negb (Response.ok response)
     then throw (AzureAIProvider.httpError response)
     else
       match Response.body response with
       | None => throw (newError "No response body")
       | Some reads =>
           st <- AzureAIProvider.readLoop onChunk onThinking reads
                   {| AzureAIProvider.fullContent := "";
                      AzureAIProvider.fullThinking := "";
                      AzureAIProvider.inputTokens := 0;
                      AzureAIProvider.outputTokens := 0 |} ;;
           when onChunk
             (emit (AzureAIProvider.chunk StreamChunk.kind.content "" true)) ;;
           artifacts <-
             AzureAIProvider.extractArtifacts
               (AzureAIProvider.fullContent st) ;;
           ret {| AIResponse.content := AzureAIProvider.fullContent st;
                  AIResponse.thinking :=
                    truthy (Some (AzureAIProvider.fullThinking st));
                  AIResponse.artifacts := Some artifacts;
                  AIResponse.toolUses := None;
                  AIResponse.usage :=
                    Some {| TokenUsage.inputTokens :=
                              AzureAIProvider.inputTokens st;
                            TokenUsage.outputTokens :=
                              AzureAIProvider.outputTokens st;
                            TokenUsage.thinkingTokens := None |};
                  AIResponse.provider := azure;
                  AIResponse.model := model |}
       end).
Proof. unfold AzureAIProvider.chunk. keeps. Qed.

(** What follows the [fetch] of a non-streaming call. *)
Lemma keeps_nonStreamingTail (model : AIModel) (response : Response.t) :
  Keeps view
    (if negb (Response.ok response)
     then throw (AzureAIProvider.httpError response)
     else
       completion <- (fun w => (Response.json response, w)) ;;
       _endTime <- Date_now ;;
       AzureAIProvider.parseResponse completion model).
Proof. keeps. Qed.

Lemma keeps_parseAnthropicResponse (response : Anthropic.Message)
  (model : AIModel) :
  Keeps view (AIService.parseAnthropicResponse response model).
Proof. unfold AIService.parseAnthropicResponse. cbv zeta. keeps. Qed.

Lemma keeps_consumeEvents (onChunk onThinking : bool)
  (events : list Anthropic.StreamStep) (fullContent fullThinking : string) :
  Keeps view (AIService.consumeEvents onChunk onThinking events
                                      fullContent fullThinking).
Proof.
  revert fullContent fullThinking.
  induction events as [|step more IH]; intros fullContent fullThinking;
    cbn [AIService.consumeEvents]; [keeps|].
  destruct step as [event | e]; [|keeps].
  unfold AzureAIProvider.chunk. destruct event; keeps.
Qed.

End KeepsProviders.

Section WireFacts.

Lemma wire_app (s t : list Event) : wire (s ++ t) = wire s ++ wire t.
Proof. apply filter_app. Qed.

Lemma wire_clockRead (w : World) : wire (trace (clockRead w)) = wire (trace w).
Proof. reflexivity. Qed.

Lemma wire_observer (w : World) (e : Event) :
  isObserverEvent e = true -> wire (trace (logged w e)) = wire (trace w).
Proof.
  intros H. cbn [logged trace]. rewrite wire_app. cbn [wire filter].
  rewrite H. cbn [negb]. apply app_nil_r.
Qed.

Lemma wire_plain (w : World) (e : Event) :
  isObserverEvent e = false ->
  wire (trace (logged w e)) = wire (trace w) ++ [e].
Proof.
  intros H. cbn [logged trace]. rewrite wire_app. cbn [wire filter].
  now rewrite H.
Qed.

(** A request followed by work that neither sends nor waits puts that one
    request on the wire. *)
Lemma wire_after_fetch {A} (url authorization : string) (body : RequestBody.t)
  (k : Response.t -> M A) (w : World) :
  (forall response, Keeps (fun w0 => wire (trace w0)) (k response)) ->
  wire (trace (snd ((response <- fetch url authorization body ;; k response) w)))
  = wire (trace w) ++ [EvFetch url authorization body].
Proof.
  intros Hk. unfold bind, fetch. cbv zeta.
  destruct (fetchScript w (fetchCalls w)) as [e | response].
  - cbn [snd]. change (trace (fetched ?x)) with (trace x).
    now apply wire_plain.
  - rewrite (Hk response). change (trace (fetched ?x)) with (trace x).
    now apply wire_plain.
Qed.

Lemma executeNonStreaming_wire (this : AzureAIProvider.t)
  (cfg : AzureAIConfig) (body : RequestBody.t) (model : AIModel) (w : World) :
  AzureAIProvider.config this = Some cfg ->
  wire (trace (snd (AzureAIProvider.executeNonStreaming this body model w)))
  = wire (trace w)
    ++ [EvFetch (endpoint cfg +++ "/chat/completions")
                ("Bearer " +++ apiKey cfg) body].
Proof.
  intros Hcfg.
  unfold AzureAIProvider.executeNonStreaming, AzureAIProvider.getEndpoint,
    AzureAIProvider.getHeaders.
  rewrite Hcfg.
  change (wire (trace w)) with (wire (trace (clockRead w))).
  apply (wire_after_fetch _ _ _ _ (clockRead w)).
  intros response.
  apply keeps_nonStreamingTail. reflexivity.
Qed.

Lemma executeStreaming_wire (this : AzureAIProvider.t)
  (cfg : AzureAIConfig) (body : RequestBody.t) (model : AIModel)
  (onChunk onThinking : bool) (w : World) :
  AzureAIProvider.config this = Some cfg ->
  wire (trace (snd (AzureAIProvider.executeStreaming this body model
                      onChunk onThinking w)))
  = wire (trace w)
    ++ [EvFetch (endpoint cfg +++ "/chat/completions")
                ("Bearer " +++ apiKey cfg) (RequestBody.withStream body)].
Proof.
  intros Hcfg.
  unfold AzureAIProvider.executeStreaming, AzureAIProvider.getEndpoint,
    AzureAIProvider.getHeaders.
  rewrite Hcfg.
  apply (wire_after_fetch _ _ _ _ w).
  intros response.
  apply keeps_streamingTail; [reflexivity|].
  intros w0 e. apply wire_observer.
Qed.

(** An operation that puts one request on the wire each time it runs, run
    under the retry wrapper: one to three requests, 2000 ms before the
    second and 4000 ms before the third. *)
Lemma executeWithRetry_wire (operation : M AIResponse.t) (request : Event)
  (w : World) :
  (forall w0, wire (trace (snd (operation w0)))
              = wire (trace w0) ++ [request]) ->
  let sent := wire (trace (snd (AzureAIProvider.executeWithRetry
                                  operation 1 w))) in
  sent = wire (trace w) ++ [request]
  \/ sent = wire (trace w) ++ [request; EvSleep 2000; request]
  \/ sent = wire (trace w)
            ++ [request; EvSleep 2000; request; EvSleep 4000; request].
Proof.
  intros Hop sent. subst sent.
  rewrite executeWithRetry_three_attempts.
  pose proof (Hop w) as H1.
  destruct (operation w) as [[r | e1] w1]; cbn [snd] in *; [now left|].
  destruct (AzureAIProvider.isRetryableError e1); [|now left].
  pose proof (Hop (logged w1 (EvSleep 2000))) as H2.
  rewrite (wire_plain w1 (EvSleep 2000) eq_refl) in H2.
  rewrite H1, <- !app_assoc in H2. cbn [app] in H2.
  destruct (operation (logged w1 (EvSleep 2000))) as [[r | e2] w2];
    cbn [snd] in *; [right; now left|].
  destruct (AzureAIProvider.isRetryableError e2); [|right; now left].
  right. right.
  rewrite Hop, (wire_plain w2 (EvSleep 4000) eq_refl).
  rewrite H2, <- !app_assoc. reflexivity.
Qed.

End WireFacts.

Section WireTheorems.

(** X1 -- What one [execute] of an initialised Azure provider puts on the
    wire.  Without [stream]: exactly one POST, to
    [<endpoint>/chat/completions] with [Bearer <apiKey>] and the body built
    from the options.  With [stream]: that request with [stream: true], one
    to three times, with a wait of 2000 ms before the second and of 4000 ms
    before the third, and nothing else.  Whatever the outside answers. *)
Theorem azure_execute_wire (this : AzureAIProvider.t) (cfg : AzureAIConfig)
  (options : AIExecuteOptions.t) (w : World) :
  AzureAIProvider.config this = Some cfg ->
  let body :=
    AzureAIProvider.buildRequestBody
      (AIExecuteOptions.prompt options)
      (AzureAIProvider.orDefault (AIExecuteOptions.model options)
                                 claude_3_5_sonnet_20241022)
      (AzureAIProvider.orDefault (AIExecuteOptions.maxTokens options) 8000%Z)
      (AzureAIProvider.orDefault (AIExecuteOptions.extendedThinking options)
                                 false)
      (AzureAIProvider.orDefault (AIExecuteOptions.thinkingBudget options)
                                 5000%Z)
      (AIExecuteOptions.tools options)
      (AIExecuteOptions.systemPrompt options) in
  let post := EvFetch (endpoint cfg +++ "/chat/completions")
                      ("Bearer " +++ apiKey cfg) in
  let sent := wire (trace (snd (AzureAIProvider.execute this options w))) in
  if AzureAIProvider.orDefault (AIExecuteOptions.stream options) false then
    let request := post (RequestBody.withStream body) in
    sent = wire (trace w) ++ [request]
    \/ sent = wire (trace w) ++ [request; EvSleep 2000; request]
    \/ sent = wire (trace w)
              ++ [request; EvSleep 2000; request; EvSleep 4000; request]
  else sent = wire (trace w) ++ [post body].
Proof.
  intros Hcfg body post sent. subst sent.
  unfold AzureAIProvider.execute. rewrite Hcfg. cbv zeta.
  destruct (AzureAIProvider.orDefault (AIExecuteOptions.stream options) false).
  - apply executeWithRetry_wire. intros w0.
    now apply executeStreaming_wire.
  - now apply executeNonStreaming_wire.
Qed.

Lemma azure_execute_wire_witness :
  wire (trace (snd (AzureAIProvider.execute Sample.azureReady
                      Sample.askStreaming Sample.recoveringWorld)))
  = [ Sample.streamingRequest ]
  \/ wire (trace (snd (AzureAIProvider.execute Sample.azureReady
                         Sample.askStreaming Sample.recoveringWorld)))
     = [ Sample.streamingRequest; EvSleep 2000; Sample.streamingRequest ]
  \/ wire (trace (snd (AzureAIProvider.execute Sample.azureReady
                         Sample.askStreaming Sample.recoveringWorld)))
     = [ Sample.streamingRequest; EvSleep 2000; Sample.streamingRequest;
         EvSleep 4000; Sample.streamingRequest ].
Proof.
  exact (@azure_execute_wire Sample.azureReady
           (Build_AzureAIConfig "https://models.inference.ai.azure.com"
                                "secret" None (Some "2024-05-01-preview"))
           Sample.askStreaming Sample.recoveringWorld eq_refl).
Defined.

End WireTheorems.

Section ConnectionFacts.

(** The request of the provider's connection test. *)
Lemma azure_testConnection_run (this : AzureAIProvider.t)
  (cfg : AzureAIConfig) (w : World) :
  AzureAIProvider.config this = Some cfg ->
  AzureAIProvider.testConnection this w =
  let w1 :=
    fetched (logged (clockRead w)
               (EvFetch (endpoint cfg +++ "/chat/completions")
                        ("Bearer " +++ apiKey cfg)
                        (AzureAIProvider.buildRequestBody
                           AzureAIProvider.connectionPrompt
                           claude_3_5_sonnet_20241022 50 false 5000
                           None None))) in
  match fetchScript w (fetchCalls w) with
  | FetchRejects _ => (Return false, w1)
  | FetchResolves response =>
      if Response.ok response then
        match Response.json response with
        | Return (Body.shaped completion) =>
            (Return
               (includes
                  (orString
                     (match AzureAIProvider.firstMessage completion with
                      | Some msg => Message.content msg
                      | None => None
                      end) "")
                  "CONNECTION_OK"),
             snd (AzureAIProvider.parseResponse
                    (Body.shaped completion) claude_3_5_sonnet_20241022
                    (clockRead w1)))
        | Return _ => (Return false, clockRead w1)
        | Throw _ => (Return false, w1)
        end
      else (Return false, w1)
  end.
Proof.
  intros Hcfg. unfold AzureAIProvider.testConnection. rewrite Hcfg.
  unfold tryCatch, bind, AzureAIProvider.execute. rewrite Hcfg. cbv zeta.
  cbn [AIExecuteOptions.stream AIExecuteOptions.prompt AIExecuteOptions.model
       AIExecuteOptions.maxTokens AIExecuteOptions.extendedThinking
       AIExecuteOptions.thinkingBudget AIExecuteOptions.tools
       AIExecuteOptions.systemPrompt AzureAIProvider.orDefault].
  rewrite (executeNonStreaming_exchange _ _ _ _ Hcfg). cbv zeta.
  destruct (fetchScript w (fetchCalls w)) as [e | response]; [reflexivity|].
  destruct (Response.ok response); [|reflexivity].
  destruct (Response.json response) as [[| | completion] | e];
    [reflexivity | reflexivity | | reflexivity].
  destruct (parseResponse_total completion claude_3_5_sonnet_20241022
              (clockRead
                 (fetched
                    (logged (clockRead w)
                       (EvFetch (endpoint cfg +++ "/chat/completions")
                          ("Bearer " +++ apiKey cfg)
                          (AzureAIProvider.buildRequestBody
                             AzureAIProvider.connectionPrompt
                             claude_3_5_sonnet_20241022 50 false 5000
                             None None))))))
    as (r & w' & -> & Hcontent & _).
  unfold ret. cbn [snd]. now rewrite Hcontent.
Qed.

End ConnectionFacts.

Section ConnectionTheorems.

(** X2 -- The Azure provider's [testConnection] never throws.  Without a
    configuration it answers [false] and touches nothing.  With one it
    sends exactly one request, not streamed: the prompt asking for
    CONNECTION_OK, 50 tokens at most, to [<endpoint>/chat/completions];
    and it answers [true] exactly when the endpoint answered with success
    and a completion whose first message mentions CONNECTION_OK. *)
Theorem azure_testConnection (this : AzureAIProvider.t) (w : World) :
  (exists isOk, fst (AzureAIProvider.testConnection this w) = Return isOk)
  /\ (AzureAIProvider.config this = None ->
      AzureAIProvider.testConnection this w = (Return false, w))
  /\ (forall cfg,
        AzureAIProvider.config this = Some cfg ->
        wire (trace (snd (AzureAIProvider.testConnection this w)))
        = wire (trace w)
          ++ [ EvFetch (endpoint cfg +++ "/chat/completions")
                       ("Bearer " +++ apiKey cfg)
                       (AzureAIProvider.buildRequestBody
                          AzureAIProvider.connectionPrompt
                          claude_3_5_sonnet_20241022 50 false 5000
                          None None) ]
        /\ (fst (AzureAIProvider.testConnection this w) = Return true
            <-> exists response completion,
                fetchScript w (fetchCalls w) = FetchResolves response
                /\ Response.ok response = true
                /\ Response.json response = Return (Body.shaped completion)
                /\ includes
                     (orString
                        (match AzureAIProvider.firstMessage completion with
                         | Some msg => Message.content msg
                         | None => None
                         end) "")
                     "CONNECTION_OK" = true)).
Proof.
  split; [|split].
  - destruct (AzureAIProvider.config this) as [cfg|] eqn:Hcfg.
    + rewrite (azure_testConnection_run this w Hcfg). cbv zeta.
      destruct (fetchScript w (fetchCalls w)) as [e | response];
        [now eexists|].
      destruct (Response.ok response); [|now eexists].
      destruct (Response.json response) as [[| | completion] | e];
        now eexists.
    + unfold AzureAIProvider.testConnection. rewrite Hcfg. now eexists.
  - intros Hcfg. unfold AzureAIProvider.testConnection. now rewrite Hcfg.
  - intros cfg Hcfg. rewrite (azure_testConnection_run this w Hcfg).
    cbv zeta. split.
    + assert (Hsent :
               wire (trace (fetched
                 (logged (clockRead w)
                    (EvFetch (endpoint cfg +++ "/chat/completions")
                       ("Bearer " +++ apiKey cfg)
                       (AzureAIProvider.buildRequestBody
                          AzureAIProvider.connectionPrompt
                          claude_3_5_sonnet_20241022 50 false 5000
                          None None)))))
               = wire (trace w)
                 ++ [ EvFetch (endpoint cfg +++ "/chat/completions")
                        ("Bearer " +++ apiKey cfg)
                        (AzureAIProvider.buildRequestBody
                           AzureAIProvider.connectionPrompt
                           claude_3_5_sonnet_20241022 50 false 5000
                           None None) ]).
      { change (trace (fetched ?x)) with (trace x).
        now rewrite wire_plain. }
      destruct (fetchScript w (fetchCalls w)) as [e | response];
        [exact Hsent|].
      destruct (Response.ok response); [|exact Hsent].
      destruct (Response.json response) as [[| | completion] | e];
        try exact Hsent.
      cbn [snd].
      rewrite (keeps_parseResponse (fun w0 => wire (trace w0))
                 (fun w0 => eq_refl) (Body.shaped completion)
                 claude_3_5_sonnet_20241022).
      exact Hsent.
    + destruct (fetchScript w (fetchCalls w)) as [e | response].
      { split; [discriminate|]. intros (r & c & H & _). discriminate. }
      destruct (Response.ok response) eqn:Hok.
      2:{ split; [discriminate|].
          intros (r & c & H & Hok' & _). injection H as <-. congruence. }
      destruct (Response.json response) as [[| | completion] | e] eqn:Hjson;
        try (split; [discriminate|];
             intros (r & c & H & _ & Hjson' & _); injection H as <-;
             congruence).
      cbn [fst]. split.
      * intros H. injection H as H. exists response, completion.
        now repeat split.
      * intros (r & c & H & _ & Hjson' & Hincl). injection H as <-.
        rewrite Hjson in Hjson'. injection Hjson' as <-. now rewrite Hincl.
Qed.

Lemma azure_testConnection_witness :
  AzureAIProvider.config Sample.azureReady
  = Some (Build_AzureAIConfig "https://models.inference.ai.azure.com"
                              "secret" None (Some "2024-05-01-preview"))
  /\ fst (AzureAIProvider.testConnection Sample.azureReady
            (Sample.withFetches [ FetchResolves Sample.connectionOk ]))
     = Return true.
Proof.
  split; [reflexivity|].
  apply (proj2 (proj2 (proj2 (azure_testConnection Sample.azureReady
                 (Sample.withFetches [ FetchResolves Sample.connectionOk ])))
               _ eq_refl)).
  exists Sample.connectionOk. eexists.
  repeat split.
Defined.

End ConnectionTheorems.

Section StampFacts.

Lemma stamped_ret (p : AIProvider) (model : AIModel) (r : AIResponse.t) :
  AIResponse.provider r = p -> AIResponse.model r = model ->
  Stamped p model (ret r).
Proof. intros Hp Hm w r' w' H. injection H as <- _. now split. Qed.

Lemma stamped_throw (p : AIProvider) (model : AIModel) (e : Thrown) :
  Stamped p model (throw e).
Proof. intros w r w' H. discriminate H. Qed.

Lemma stamped_bind {A} (p : AIProvider) (model : AIModel) (m : M A)
  (k : A -> M AIResponse.t) :
  (forall a, Stamped p model (k a)) -> Stamped p model (bind m k).
Proof.
  intros Hk w r w' H. unfold bind in H.
  destruct (m w) as [[a | e] w1]; [|discriminate H].
  exact (Hk a w1 r w' H).
Qed.

Lemma stamped_parseResponse (response : Body.t) (model : AIModel) :
  Stamped azure model (AzureAIProvider.parseResponse response model).
Proof.
  unfold AzureAIProvider.parseResponse. cbv zeta.
  destruct response as [| | completion]; try apply stamped_throw.
  apply stamped_bind. intros toolUses. apply stamped_bind. intros artifacts.
  now apply stamped_ret.
Qed.

Lemma stamped_executeNonStreaming (this : AzureAIProvider.t)
  (body : RequestBody.t) (model : AIModel) :
  Stamped azure model (AzureAIProvider.executeNonStreaming this body model).
Proof.
  unfold AzureAIProvider.executeNonStreaming.
  destruct (AzureAIProvider.config this); [|apply stamped_throw].
  do 4 (apply stamped_bind; intros ?).
  destruct (negb _); [apply stamped_throw|].
  do 2 (apply stamped_bind; intros ?). apply stamped_parseResponse.
Qed.

Lemma stamped_executeStreaming (this : AzureAIProvider.t)
  (body : RequestBody.t) (model : AIModel) (onChunk onThinking : bool) :
  Stamped azure model
    (AzureAIProvider.executeStreaming this body model onChunk onThinking).
Proof.
  unfold AzureAIProvider.executeStreaming.
  destruct (AzureAIProvider.config this); [|apply stamped_throw].
  do 3 (apply stamped_bind; intros ?).
  destruct (negb _); [apply stamped_throw|].
  destruct (Response.body _); [|apply stamped_throw].
  do 3 (apply stamped_bind; intros ?). now apply stamped_ret.
Qed.

(** The retry wrapper hands on a response of the operation, never one of
    its own. *)
Lemma stamped_executeWithRetry (p : AIProvider) (model : AIModel)
  (operation : M AIResponse.t) :
  Stamped p model operation ->
  Stamped p model (AzureAIProvider.executeWithRetry operation 1).
Proof.
  intros Hop w r w' H. rewrite executeWithRetry_three_attempts in H.
  destruct (operation w) as [[r1 | e1] w1] eqn:H1.
  { injection H as <- <-. exact (Hop _ _ _ H1). }
  destruct (AzureAIProvider.isRetryableError e1); [|discriminate H].
  destruct (operation (logged w1 (EvSleep 2000))) as [[r2 | e2] w2] eqn:H2.
  { injection H as <- <-. exact (Hop _ _ _ H2). }
  destruct (AzureAIProvider.isRetryableError e2); [|discriminate H].
  exact (Hop _ _ _ H).
Qed.

Lemma stamped_azure_execute (this : AzureAIProvider.t)
  (options : AIExecuteOptions.t) :
  Stamped azure
    (AzureAIProvider.orDefault (AIExecuteOptions.model options)
                               claude_3_5_sonnet_20241022)
    (AzureAIProvider.execute this options).
Proof.
  unfold AzureAIProvider.execute.
  destruct (AzureAIProvider.config this); [|apply stamped_throw].
  cbv zeta.
  destruct (AzureAIProvider.orDefault (AIExecuteOptions.stream options) false).
  - apply stamped_executeWithRetry, stamped_executeStreaming.
  - apply stamped_executeNonStreaming.
Qed.

Lemma stamped_executeWithAnthropic_body (this : AIService.t)
  (options : AIExecuteOptions.t) :
  Stamped anthropic
    (AzureAIProvider.orDefault (AIExecuteOptions.model options)
                               claude_sonnet_4_5_20250929)
    (AIService.executeWithAnthropic_body this options).
Proof.
  unfold AIService.executeWithAnthropic_body.
  destruct (AIService.anthropicClient this) eqn:Hclient;
    [|apply stamped_throw].
  cbv zeta.
  destruct (AzureAIProvider.orDefault (AIExecuteOptions.stream options) false).
  - unfold AIService.executeAnthropicStreaming. rewrite Hclient.
    do 5 (apply stamped_bind; intros ?). now apply stamped_ret.
  - unfold AIService.executeAnthropicNonStreaming. rewrite Hclient.
    do 3 (apply stamped_bind; intros ?).
    unfold AIService.parseAnthropicResponse. cbv zeta.
    apply stamped_bind; intros ?. now apply stamped_ret.
Qed.

(** A response that comes out of a provider call of the service carries
    the provider and the model the call was made for, and that call is the
    last one of the trace. *)
Lemma executeWithAzure_source (this : AIService.t)
  (options : AIExecuteOptions.t) (model : AIModel) (w w' : World)
  (r : AIResponse.t) :
  AIService.executeWithAzure this (AIExecuteOptions.withModel options model) w
  = (Return r, w') ->
  providerCalls (trace w')
  = providerCalls (trace w)
    ++ [ (AIResponse.provider r, Some (AIResponse.model r)) ].
Proof.
  intros H.
  pose proof (calls_executeWithAzure this
                (AIExecuteOptions.withModel options model) w) as Hcalls.
  rewrite H in Hcalls. cbn [snd] in Hcalls.
  unfold AIService.executeWithAzure, bind, emit in H.
  apply stamped_azure_execute in H. destruct H as [-> ->].
  exact Hcalls.
Qed.

Lemma executeWithAnthropic_source (this : AIService.t)
  (options : AIExecuteOptions.t) (model : AIModel) (w w' : World)
  (r : AIResponse.t) :
  AIService.executeWithAnthropic this
    (AIExecuteOptions.withModel options model) w = (Return r, w') ->
  providerCalls (trace w')
  = providerCalls (trace w)
    ++ [ (AIResponse.provider r, Some (AIResponse.model r)) ].
Proof.
  intros H.
  pose proof (calls_executeWithAnthropic this
                (AIExecuteOptions.withModel options model) w) as Hcalls.
  rewrite H in Hcalls. cbn [snd] in Hcalls.
  unfold AIService.executeWithAnthropic, bind, emit in H.
  apply stamped_executeWithAnthropic_body in H. destruct H as [-> ->].
  exact Hcalls.
Qed.

End StampFacts.

Section StampTheorems.

(** X3 -- A response that [AIService.execute] returns names its source:
    its [provider] and [model] fields are those of the last provider call
    the request made, whether that was the primary provider or, after a
    failover, the secondary one with the translated model id. *)
Theorem response_names_its_source (this : AIService.t)
  (options : AIExecuteOptions.t) (w : World) (r : AIResponse.t) :
  fst (AIService.execute this options w) = Return r ->
  exists earlier,
    providerCalls (trace (snd (AIService.execute this options w)))
    = earlier ++ [ (AIResponse.provider r, Some (AIResponse.model r)) ].
Proof.
  unfold AIService.execute.
  destruct (AIService.isInitialized this); cbn [negb];
    [|intros H; discriminate H].
  set (model := AIService.mapModel _). cbv zeta. unfold tryCatch.
  destruct (AIService.activeProvider this) eqn:Hactive.
  - destruct (AIService.executeWithAzure this
                (AIExecuteOptions.withModel options model) w)
      as [[r1 | error] w1] eqn:H1.
    { cbn [fst snd]. intros H. injection H as <-. eexists.
      exact (executeWithAzure_source _ _ _ _ H1). }
    unfold AIService.tryFallback, tryCatch, bind. rewrite Hactive.
    destruct (AIService.hasAnthropicClient this);
      cbn [andb ret throw fst snd]; [|intros H; discriminate H].
    destruct (AIService.executeWithAnthropic this
                (AIExecuteOptions.withModel options
                   (AIService.mapModelToAnthropic model)) w1)
      as [[r2 | e2] w2] eqn:H2; cbn [fst snd ret throw];
      [|intros H; discriminate H].
    intros H. injection H as <-. eexists.
    exact (executeWithAnthropic_source _ _ _ _ H2).
  - destruct (AIService.executeWithAnthropic this
                (AIExecuteOptions.withModel options model) w)
      as [[r1 | error] w1] eqn:H1.
    { cbn [fst snd]. intros H. injection H as <-. eexists.
      exact (executeWithAnthropic_source _ _ _ _ H1). }
    unfold AIService.tryFallback, tryCatch, bind. rewrite Hactive.
    cbn [andb].
    destruct (AzureAIProvider.getInitializationStatus
                (AIService.azureProvider this));
      cbn [andb ret throw fst snd]; [|intros H; discriminate H].
    destruct (AIService.executeWithAzure this
                (AIExecuteOptions.withModel options
                   (AIService.mapModelToAzure model)) w1)
      as [[r2 | e2] w2] eqn:H2; cbn [fst snd ret throw];
      [|intros H; discriminate H].
    intros H. injection H as <-. eexists.
    exact (executeWithAzure_source _ _ _ _ H2).
Qed.

Lemma response_names_its_source_witness :
  exists r,
    fst (AIService.execute Sample.serviceReady Sample.ask
                           Sample.azureDownWorld) = Return r
    /\ AIResponse.provider r = anthropic
    /\ exists earlier,
        providerCalls
          (trace (snd (AIService.execute Sample.serviceReady Sample.ask
                                         Sample.azureDownWorld)))
        = earlier ++ [ (AIResponse.provider r, Some (AIResponse.model r)) ].
Proof.
  eexists. split; [vm_compute; reflexivity|]. split; [reflexivity|].
  apply response_names_its_source. vm_compute. reflexivity.
Defined.

End StampTheorems.

Section HearingFacts.

Lemma heard_app (kind : StreamChunk.kind.t) (s t : list Event) :
  heard kind (s ++ t) = heard kind s +++ heard kind t.
Proof.
  induction s as [|e s IH]; [reflexivity|].
  destruct e; cbn [app heard]; try exact IH.
  destruct (sameKind _ _); [|exact IH].
  now rewrite IH, append_assoc.
Qed.

Lemma thought_app (s t : list Event) :
  thought (s ++ t) = thought s +++ thought t.
Proof.
  induction s as [|e s IH]; [reflexivity|].
  destruct e; cbn [app thought]; try exact IH.
  now rewrite IH, append_assoc.
Qed.

Lemma hears_start (onThinking : bool) (w : World) : Hears onThinking w w "" "".
Proof. unfold Hears. now rewrite !append_empty_r. Qed.

(** An event that is no chunk and no thinking callback is not heard. *)
Lemma hears_plain (onThinking : bool) (w0 w : World) (e : Event)
  (content thinking : string) :
  isObserverEvent e = false ->
  Hears onThinking w0 w content thinking ->
  Hears onThinking w0 (logged w e) content thinking.
Proof.
  intros He (Hc & Ht & Ho). unfold Hears. cbn [logged trace].
  rewrite !heard_app, thought_app.
  destruct e; try discriminate He; cbn [heard thought];
    rewrite !append_empty_r; auto.
Qed.

Lemma hears_clockRead (onThinking : bool) (w0 w : World) (n : nat)
  (content thinking : string) :
  Hears onThinking w0 w content thinking ->
  Hears onThinking w0 (Nat.iter n clockRead w) content thinking.
Proof.
  unfold Hears.
  now rewrite (proj1 (proj2 (proj2 (iter_clockRead n w)))).
Qed.

Lemma hears_content (onThinking final : bool) (w0 w : World)
  (content thinking text : string) :
  Hears onThinking w0 w content thinking ->
  Hears onThinking w0
        (logged w (AzureAIProvider.chunk StreamChunk.kind.content text final))
        (content +++ text) thinking.
Proof.
  intros (Hc & Ht & Ho). unfold Hears. cbn [logged trace].
  rewrite !heard_app, thought_app.
  cbn [heard thought AzureAIProvider.chunk StreamChunk.type
       StreamChunk.content sameKind].
  rewrite !append_empty_r, Hc, append_assoc. auto.
Qed.

Lemma hears_thinking (onThinking : bool) (w0 w : World)
  (content thinking text : string) :
  Hears onThinking w0 w content thinking ->
  Hears onThinking w0
        (logged (if onThinking then logged w (EvThinking text) else w)
                (AzureAIProvider.chunk StreamChunk.kind.thinking text false))
        content (thinking +++ text).
Proof.
  intros (Hc & Ht & Ho). unfold Hears.
  destruct onThinking; cbn [logged trace];
    rewrite !heard_app, ?thought_app;
    cbn [heard thought AzureAIProvider.chunk StreamChunk.type
         StreamChunk.content sameKind];
    rewrite !append_empty_r, Ht, ?append_assoc.
  - repeat split; auto. intros _. now rewrite (Ho eq_refl), append_assoc.
  - repeat split; auto. intros H. discriminate H.
Qed.

(** One frame of an Azure stream, with an [onChunk] observer: it does not
    throw, and what it adds to the accumulators is what the observers are
    told. *)
Lemma handleFrame_hears (onThinking : bool) (parsed : Frame.t)
  (st : AzureAIProvider.StreamState) (w0 w : World) :
  Hears onThinking w0 w (AzureAIProvider.fullContent st)
        (AzureAIProvider.fullThinking st) ->
  exists st' w',
    AzureAIProvider.handleFrame true onThinking parsed st w = (Return st', w')
    /\ Hears onThinking w0 w' (AzureAIProvider.fullContent st')
             (AzureAIProvider.fullThinking st').
Proof.
  intros H. unfold AzureAIProvider.handleFrame.
  destruct (truthy match AzureAIProvider.firstDelta parsed with
                   | Some d => Delta.content d
                   | None => None
                   end) as [content|];
    destruct (truthy match AzureAIProvider.firstDelta parsed with
                     | Some d => Delta.thinking d
                     | None => None
                     end) as [thinking|];
    destruct (Frame.usage parsed) as [u|];
    destruct onThinking;
    unfold bind, when, emit, ret; cbn [fst snd];
    eexists; eexists; (split; [reflexivity|]);
    cbn [AzureAIProvider.fullContent AzureAIProvider.fullThinking];
    try exact H;
    try (apply (hears_content false); exact H);
    try (apply (@hears_thinking true); exact H);
    try (apply (@hears_thinking false); exact H);
    try (apply (@hears_thinking true), (hears_content false); exact H);
    try (apply (@hears_thinking false), (hears_content false); exact H).
Qed.

Lemma handleLines_hears (onThinking : bool) (lines : list string)
  (st : AzureAIProvider.StreamState) (w0 w : World) :
  Hears onThinking w0 w (AzureAIProvider.fullContent st)
        (AzureAIProvider.fullThinking st) ->
  exists st' w',
    AzureAIProvider.handleLines true onThinking lines st w = (Return st', w')
    /\ Hears onThinking w0 w' (AzureAIProvider.fullContent st')
             (AzureAIProvider.fullThinking st').
Proof.
  revert st w. induction lines as [|line more IH]; intros st w H.
  - exists st, w. now split.
  - cbn [AzureAIProvider.handleLines]. cbv zeta. unfold bind at 1.
    destruct (String.eqb (slice 6 line) "[DONE]").
    { unfold ret. now apply IH. }
    unfold tryCatch, bind, JSON_parse_frame.
    destruct (parseFrame w (slice 6 line)) as [parsed|].
    + destruct (handleFrame_hears parsed st H) as (st1 & w1 & -> & H1).
      now apply IH.
    + unfold ret. now apply IH.
Qed.

(** The reads of an Azure stream: when they all arrive, the observers
    have been told what the accumulators hold. *)
Lemma readLoop_hears (onThinking : bool) (reads : list ReadResult)
  (st : AzureAIProvider.StreamState) (w0 w : World) :
  Hears onThinking w0 w (AzureAIProvider.fullContent st)
        (AzureAIProvider.fullThinking st) ->
  forall st' w',
    AzureAIProvider.readLoop true onThinking reads st w = (Return st', w') ->
    Hears onThinking w0 w' (AzureAIProvider.fullContent st')
          (AzureAIProvider.fullThinking st').
Proof.
  revert st w. induction reads as [|read more IH]; intros st w H st' w' Hrun.
  - injection Hrun as <- <-. exact H.
  - cbn [AzureAIProvider.readLoop] in Hrun.
    destruct read as [text | e]; [|discriminate Hrun].
    cbv zeta in Hrun. unfold bind at 1 in Hrun.
    destruct (handleLines_hears
                (filter (fun line => startsWith line "data: ")
                        (split LF text)) st H) as (st1 & w1 & Hlines & H1).
    rewrite Hlines in Hrun. exact (IH st1 w1 H1 st' w' Hrun).
Qed.

(** The events of an Anthropic stream. *)
Lemma consumeEvents_hears (onThinking : bool)
  (events : list Anthropic.StreamStep) (fullContent fullThinking : string)
  (w0 w : World) :
  Hears onThinking w0 w fullContent fullThinking ->
  forall texts w',
    AIService.consumeEvents true onThinking events fullContent fullThinking w
    = (Return texts, w') ->
    Hears onThinking w0 w' (fst texts) (snd texts).
Proof.
  revert fullContent fullThinking w.
  induction events as [|step more IH];
    intros fullContent fullThinking w H texts w' Hrun.
  - injection Hrun as <- <-. exact H.
  - cbn [AIService.consumeEvents] in Hrun.
    destruct step as [event | e]; [|discriminate Hrun].
    destruct event; try exact (IH _ _ _ H _ _ Hrun).
    + unfold bind at 1, when, emit in Hrun.
      exact (IH _ _ _ (hears_content false text H) _ _ Hrun).
    + destruct (isEmpty thinking); [exact (IH _ _ _ H _ _ Hrun)|].
      pose proof (hears_thinking thinking H) as H1.
      destruct onThinking; unfold bind, when, emit, ret in Hrun;
        exact (IH _ _ _ H1 _ _ Hrun).
Qed.

Lemma orString_truthy (s : string) : orString (truthy (Some s)) "" = s.
Proof.
  unfold truthy, orString. destruct (isEmpty s) eqn:H.
  - symmetry. now apply isEmpty_true.
  - now rewrite H.
Qed.

End HearingFacts.

Section HearingTheorems.

(** What a streaming attempt that returns a response went through: the
    request, the reads of the body to their end, the closing chunk for an
    [onChunk] observer. *)
Lemma executeStreaming_returns (this : AzureAIProvider.t)
  (body : RequestBody.t) (model : AIModel) (onChunk onThinking : bool)
  (w w' : World) (r : AIResponse.t) :
  AzureAIProvider.executeStreaming this body model onChunk onThinking w
  = (Return r, w') ->
  exists request reads st w2,
    isObserverEvent request = false
    /\ AzureAIProvider.readLoop onChunk onThinking reads
         {| AzureAIProvider.fullContent := "";
            AzureAIProvider.fullThinking := "";
            AzureAIProvider.inputTokens := 0;
            AzureAIProvider.outputTokens := 0 |}
         (fetched (logged w request)) = (Return st, w2)
    /\ AIResponse.content r = AzureAIProvider.fullContent st
    /\ AIResponse.thinking r
       = truthy (Some (AzureAIProvider.fullThinking st))
    /\ trace w'
       = trace (if onChunk
                then logged w2 (AzureAIProvider.chunk
                                  StreamChunk.kind.content "" true)
                else w2).
Proof.
  intros H.
  unfold AzureAIProvider.executeStreaming, AzureAIProvider.getEndpoint,
    AzureAIProvider.getHeaders in H.
  destruct (AzureAIProvider.config this) as [cfg|]; [|discriminate H].
  unfold bind at 1 2 3, ret at 1 2, fetch in H. cbv zeta in H.
  destruct (fetchScript w (fetchCalls w)) as [e | response];
    [discriminate H|].
  destruct (negb (Response.ok response)); [discriminate H|].
  destruct (Response.body response) as [reads|]; [|discriminate H].
  unfold bind at 1 in H.
  match type of H with
  | context [AzureAIProvider.readLoop onChunk onThinking reads ?st
               (fetched (logged w ?request))] =>
      exists request, reads;
      destruct (AzureAIProvider.readLoop onChunk onThinking reads st
                  (fetched (logged w request)))
        as [[st' | e] w2]; [|discriminate H]
  end.
  exists st', w2.
  destruct onChunk; unfold bind, when, emit, ret in H;
    rewrite extractArtifacts_spec in H; injection H as <- <-;
    (split; [reflexivity|]); (split; [reflexivity|]);
    (split; [reflexivity|]); (split; [reflexivity|]);
    apply iter_clockRead.
Qed.

(** One streaming attempt with an [onChunk] observer that returns a
    response: what the observers were told during it. *)
Lemma azure_attempt_hears (this : AzureAIProvider.t)
  (body : RequestBody.t) (model : AIModel) (onThinking : bool)
  (w w' : World) (r : AIResponse.t) :
  AzureAIProvider.executeStreaming this body model true onThinking w
  = (Return r, w') ->
  Hears onThinking w w' (AIResponse.content r)
        (orString (AIResponse.thinking r) "").
Proof.
  intros H.
  destruct (@executeStreaming_returns _ _ _ _ _ _ _ _ H)
    as (request & reads & st & w2 & Hreq & Hloop & -> & -> & Htrace).
  rewrite orString_truthy.
  pose proof (@hears_plain onThinking w w request "" "" Hreq
                (hears_start onThinking w)) as Hsent.
  change (Hears onThinking w (fetched (logged w request)) "" "") in Hsent.
  assert (Hread : Hears onThinking w w2 (AzureAIProvider.fullContent st)
                       (AzureAIProvider.fullThinking st)).
  { eapply readLoop_hears; [|exact Hloop]. exact Hsent. }
  apply (hears_content true "") in Hread.
  rewrite append_empty_r in Hread.
  unfold Hears in *. rewrite Htrace. exact Hread.
Qed.

(** X4 -- One streaming attempt of the Azure provider with an [onChunk]
    observer, when it returns a response: the content chunks the observer
    received during the attempt, put together, are the response's
    [content]; the thinking chunks are its [thinking] (nothing when that
    is absent), and so is what an [onThinking] observer received; and the
    last thing that happened is the empty chunk marked complete. *)
Theorem azure_stream_is_heard (this : AzureAIProvider.t)
  (body : RequestBody.t) (model : AIModel) (onThinking : bool)
  (w w' : World) (r : AIResponse.t) :
  AzureAIProvider.executeStreaming this body model true onThinking w
  = (Return r, w') ->
  heard StreamChunk.kind.content (trace w')
  = heard StreamChunk.kind.content (trace w) +++ AIResponse.content r
  /\ heard StreamChunk.kind.thinking (trace w')
     = heard StreamChunk.kind.thinking (trace w)
       +++ orString (AIResponse.thinking r) ""
  /\ (onThinking = true ->
      thought (trace w')
      = thought (trace w) +++ orString (AIResponse.thinking r) "")
  /\ exists before,
      trace w'
      = before ++ [ AzureAIProvider.chunk StreamChunk.kind.content "" true ].
Proof.
  intros H.
  destruct (@azure_attempt_hears _ _ _ _ _ _ _ H) as (Hcontent & Hthinking & Hthought).
  destruct (@executeStreaming_returns _ _ _ _ _ _ _ _ H)
    as (request & reads & st & w2 & _ & _ & _ & _ & Htrace).
  repeat split; try assumption.
  exists (trace w2). exact Htrace.
Qed.

Lemma azure_stream_is_heard_witness :
  heard StreamChunk.kind.content
    (trace (snd (AzureAIProvider.executeStreaming Sample.azureReady
                   Sample.hiBody gpt_4o true true Sample.hiWorld)))
  = "Hi"
  /\ thought
       (trace (snd (AzureAIProvider.executeStreaming Sample.azureReady
                      Sample.hiBody gpt_4o true true Sample.hiWorld)))
     = "hm".
Proof.
  assert (Hfst : fst (AzureAIProvider.executeStreaming Sample.azureReady
                        Sample.hiBody gpt_4o true true Sample.hiWorld)
                 = Return Sample.hiResponse) by (vm_compute; reflexivity).
  assert (Hrun : AzureAIProvider.executeStreaming Sample.azureReady
                   Sample.hiBody gpt_4o true true Sample.hiWorld
                 = (Return Sample.hiResponse,
                    snd (AzureAIProvider.executeStreaming Sample.azureReady
                           Sample.hiBody gpt_4o true true Sample.hiWorld)))
    by (rewrite <- Hfst; apply surjective_pairing).
  split.
  - exact (proj1 (@azure_stream_is_heard _ _ _ _ _ _ _ Hrun)).
  - exact (proj1 (proj2 (proj2 (@azure_stream_is_heard _ _ _ _ _ _ _ Hrun)))
             eq_refl).
Defined.

(** X5 -- The same for a streamed call of the Anthropic SDK through the
    service: when it returns a response, the content chunks received
    spell its [content], the thinking chunks and the [onThinking] calls
    spell its [thinking], and the empty chunk marked complete comes
    last. *)
Theorem anthropic_stream_is_heard (this : AIService.t)
  (params : Anthropic.Params) (model : AIModel) (onThinking : bool)
  (w w' : World) (r : AIResponse.t) :
  AIService.executeAnthropicStreaming this params model true onThinking w
  = (Return r, w') ->
  heard StreamChunk.kind.content (trace w')
  = heard StreamChunk.kind.content (trace w) +++ AIResponse.content r
  /\ heard StreamChunk.kind.thinking (trace w')
     = heard StreamChunk.kind.thinking (trace w)
       +++ orString (AIResponse.thinking r) ""
  /\ (onThinking = true ->
      thought (trace w')
      = thought (trace w) +++ orString (AIResponse.thinking r) "")
  /\ exists before,
      trace w'
      = before ++ [ AzureAIProvider.chunk StreamChunk.kind.content "" true ].
Proof.
  intros H. unfold AIService.executeAnthropicStreaming in H.
  destruct (AIService.anthropicClient this); [|discriminate H].
  unfold bind at 1, messages_stream in H.
  destruct (streamScript w (sdkCalls w)) as [stream | e]; [|discriminate H].
  unfold bind at 1 in H.
  match type of H with
  | context [AIService.consumeEvents true onThinking ?events "" "" ?w1] =>
      pose proof (@consumeEvents_hears onThinking events "" "" w1 w1
                    (hears_start onThinking w1)) as Hloop;
      destruct (AIService.consumeEvents true onThinking events "" "" w1)
        as [[texts | e] w2]; [|discriminate H]
  end.
  specialize (Hloop texts w2 eq_refl).
  unfold bind at 1 in H.
  destruct (Anthropic.finalMessage stream) as [finalMessage | e];
    [|discriminate H].
  unfold bind, when, emit in H. unfold AIService.extractArtifacts in H.
  rewrite AIService_extractLoop_same in H.
  change (AzureAIProvider.extractLoop (fst texts) 0 [])
    with (AzureAIProvider.extractArtifacts (fst texts)) in H.
  rewrite extractArtifacts_spec in H.
  unfold ret in H. injection H as <- <-.
  cbn [AIResponse.content AIResponse.thinking].
  fold (truthy (Some (snd texts))).
  rewrite orString_truthy.
  apply (hears_content true "") in Hloop.
  rewrite append_empty_r in Hloop.
  apply (hears_clockRead
           (2 * List.length
                  (filter Shape.kept (Fence.matches (fst texts))))) in Hloop.
  destruct Hloop as (Hc & Ht & Ho).
  assert (Hcall : forall kind,
             heard kind (trace (sdkCalled (logged w
                                 (EvMessagesStream params))))
             = heard kind (trace w)).
  { intros. cbn [sdkCalled logged trace]. rewrite heard_app.
    apply append_empty_r. }
  rewrite Hcall in Hc, Ht.
  repeat split; try assumption.
  - intros Hon. etransitivity; [exact (Ho Hon)|].
    cbn [sdkCalled logged trace].
    rewrite thought_app. cbn [thought]. now rewrite append_empty_r.
  - rewrite (proj1 (proj2 (proj2 (iter_clockRead _ _)))).
    cbn [logged trace]. now eexists.
Qed.

Lemma anthropic_stream_is_heard_witness :
  heard StreamChunk.kind.content
    (trace (snd (AIService.executeAnthropicStreaming Sample.serviceReady
                   Sample.hiParams claude_sonnet_4_5_20250929 true true
                   Sample.hiWorld)))
  = "Hi"
  /\ thought
       (trace (snd (AIService.executeAnthropicStreaming Sample.serviceReady
                      Sample.hiParams claude_sonnet_4_5_20250929 true true
                      Sample.hiWorld)))
     = "hm".
Proof.
  assert (Hfst : fst (AIService.executeAnthropicStreaming
                        Sample.serviceReady Sample.hiParams
                        claude_sonnet_4_5_20250929 true true Sample.hiWorld)
                 = Return Sample.hiAnswer) by (vm_compute; reflexivity).
  assert (Hrun : AIService.executeAnthropicStreaming Sample.serviceReady
                   Sample.hiParams claude_sonnet_4_5_20250929 true true
                   Sample.hiWorld
                 = (Return Sample.hiAnswer,
                    snd (AIService.executeAnthropicStreaming
                           Sample.serviceReady Sample.hiParams
                           claude_sonnet_4_5_20250929 true true
                           Sample.hiWorld)))
    by (rewrite <- Hfst; apply surjective_pairing).
  split.
  - exact (proj1 (@anthropic_stream_is_heard _ _ _ _ _ _ _ Hrun)).
  - exact (proj1 (proj2 (proj2 (@anthropic_stream_is_heard _ _ _ _ _ _ _ Hrun)))
             eq_refl).
Defined.

End HearingTheorems.

(** ** Where the artifacts come from *)

Section SoundnessFacts.
Import Regex Fence.

Lemma wordRun_split (s w t : string) :
  wordRun s = (w, t) -> s = w +++ t /\ allWord w = true.
Proof.
  revert w t. induction s as [|c s IH]; intros w t H; cbn [wordRun] in H.
  - injection H as <- <-. now split.
  - destruct (isWordChar c) eqn:Hc.
    + destruct (wordRun s) as [w' t'] eqn:Hrun. injection H as <- <-.
      destruct (IH w' t' eq_refl) as [-> Hw]. split; [reflexivity|].
      cbn [allWord]. now rewrite Hc.
    + injection H as <- <-. now split.
Qed.

(** The body [splitFence] cuts off holds no fence, even one completed by
    the first two backticks of the closing fence. *)
Lemma splitFence_split (s body post : string) :
  splitFence s = Some (body, post) ->
  s = body +++ fence +++ post /\ closes body = true.
Proof.
  revert body post. induction s as [|c s IH]; intros body post H.
  - discriminate H.
  - cbn [splitFence] in H.
    destruct (stripPrefix fence (String c s)) as [r|] eqn:Hstrip.
    + injection H as <- <-. apply stripPrefix_spec in Hstrip.
      now split.
    + destruct (splitFence s) as [[b t]|] eqn:Hrest; [|discriminate H].
      injection H as <- <-.
      destruct (IH b t eq_refl) as [-> Hb]. split; [reflexivity|].
      unfold closes in *. apply negb_true_iff. apply negb_true_iff in Hb.
      change (String c b +++ "``") with (String c (b +++ "``")).
      cbn [includes]. rewrite Hb, orb_false_r.
      assert (Hs : startsWith (String c (b +++ "``") +++ "`" +++ t) fence
                   = startsWith (String c (b +++ "``")) fence).
      { apply startsWith_append. simpl. rewrite length_append. simpl. lia. }
      rewrite <- Hs.
      replace (String c (b +++ "``") +++ "`" +++ t)
        with (String c (b +++ fence +++ t)).
      * unfold startsWith. now rewrite Hstrip.
      * simpl. f_equal. now rewrite append_assoc.
Qed.

Lemma matchAt_sound (s : string) (m : Match) (rest : string) :
  matchAt s = Some (m, rest) ->
  exists tag,
    s = fenced tag (group2 m) +++ rest
    /\ allWord tag = true
    /\ closes (group2 m) = true
    /\ group1 m = (if isEmpty tag then None else Some tag).
Proof.
  rewrite matchAt_direct. unfold directMatchAt. intros H.
  destruct (stripPrefix fence s) as [s1|] eqn:H1; [|discriminate H].
  destruct (wordRun s1) as [tag s2] eqn:H2.
  destruct (stripPrefix newline s2) as [s3|] eqn:H3; [|discriminate H].
  destruct (splitFence s3) as [[body s5]|] eqn:H4; [|discriminate H].
  injection H as <- <-. cbn [group1 group2].
  apply stripPrefix_spec in H1. apply wordRun_split in H2.
  apply stripPrefix_spec in H3. apply splitFence_split in H4.
  destruct H2 as [-> Htag]. destruct H4 as [-> Hbody].
  subst. exists tag. repeat split; try assumption.
  unfold fenced. now rewrite !append_assoc.
Qed.

Lemma exec_sound (s : string) (m : Match) (rest : string) :
  exec s = Some (m, rest) ->
  exists pre tag,
    s = pre +++ fenced tag (group2 m) +++ rest
    /\ allWord tag = true
    /\ closes (group2 m) = true
    /\ group1 m = (if isEmpty tag then None else Some tag).
Proof.
  induction s as [|c s IH]; intros H.
  - vm_compute in H. discriminate H.
  - cbn [exec] in H. destruct (matchAt (String c s)) as [x|] eqn:Hat.
    + injection H as ->. apply matchAt_sound in Hat.
      destruct Hat as (tag & Hs & Hrest). exists "", tag. now split.
    + destruct (IH H) as (pre & tag & -> & Hrest).
      exists (String c pre), tag. now split.
Qed.

(** Every match of the scan is a fenced block of the text. *)
Lemma matches_sound (s : string) (m : Match) :
  In m (matches s) ->
  exists pre tag post,
    s = pre +++ fenced tag (group2 m) +++ post
    /\ allWord tag = true
    /\ closes (group2 m) = true
    /\ group1 m = (if isEmpty tag then None else Some tag).
Proof.
  remember (String.length s) as n eqn:Hn. revert s Hn.
  induction n as [n IH] using lt_wf_ind. intros s Hn. subst n.
  rewrite matches_step.
  destruct (exec s) as [[m0 rest]|] eqn:Hexec; [|intros []].
  intros [<- | Hin].
  - destruct (exec_sound _ Hexec) as (pre & tag & Hs & Hrest).
    now exists pre, tag, rest.
  - pose proof (exec_consumes _ Hexec) as Hlen. cbn [snd] in Hlen.
    destruct (exec_sound _ Hexec) as (pre0 & tag0 & Hs & _).
    assert (Hlt : String.length rest < String.length s) by lia.
    destruct (IH _ Hlt rest eq_refl Hin) as (pre & tag & post & -> & Hrest).
    exists (pre0 +++ fenced tag0 (group2 m0) +++ pre), tag, post.
    split; [|exact Hrest]. rewrite Hs. now rewrite !append_assoc.
Qed.

Lemma In_artifactsFrom (clk : nat -> Z) (reads i : nat) (ms : list Match)
  (a : Artifact.t) :
  In a (Shape.artifactsFrom clk reads i ms) ->
  exists m idStamp created j,
    In m ms /\ a = Shape.artifactOf idStamp created j m.
Proof.
  revert reads i. induction ms as [|m ms IH]; intros reads i H; [destruct H|].
  cbn [Shape.artifactsFrom] in H. destruct H as [<- | H].
  - exists m. do 3 eexists. split; [now left | reflexivity].
  - destruct (IH _ _ H) as (m' & s & c & j & Hin & ->).
    exists m', s, c, j. split; [now right | reflexivity].
Qed.

End SoundnessFacts.

Section SoundnessTheorems.
Import Regex Fence.

(** X6 -- The extractor invents nothing: every artifact it returns stands
    in the text as a fenced block -- an opening fence, a tag of word
    characters (possibly none), a line feed, a body in which no fence
    begins, a closing fence -- and its content is the body of that block
    trimmed, longer than ten code units, its language the tag, or [text]
    for a block without a tag. *)
Theorem artifacts_come_from_fences (text : string) (w : World) :
  exists l,
    fst (AzureAIProvider.extractArtifacts text w) = Return l
    /\ Forall
         (fun a =>
            exists pre tag body post,
              text = pre +++ fenced tag body +++ post
              /\ allWord tag = true
              /\ closes body = true
              /\ Artifact.content a = trim body
              /\ 10 < String.length (Artifact.content a)
              /\ option_map language (Artifact.metadata a)
                 = Some (if isEmpty tag then "text" else tag)) l.
Proof.
  rewrite extractArtifacts_spec. eexists. split; [reflexivity|].
  apply Forall_forall. intros a Ha.
  apply In_artifactsFrom in Ha.
  destruct Ha as (m & idStamp & created & j & Hm & ->).
  apply filter_In in Hm. destruct Hm as [Hm Hkept].
  apply matches_sound in Hm.
  destruct Hm as (pre & tag & post & Htext & Htag & Hbody & Hg1).
  exists pre, tag, (group2 m), post.
  unfold Shape.kept in Hkept. apply Nat.ltb_lt in Hkept.
  repeat split; try assumption.
  cbn [Shape.artifactOf Artifact.metadata Shape.metadata Shape.ofMatch
       option_map language].
  unfold Shape.languageOf. rewrite Hg1.
  destruct tag; reflexivity.
Qed.

End SoundnessTheorems.

(** ** The ids of the artifacts *)

Section IdentifierFacts.

Lemma digits_no_dash (d : Decimal.uint) :
  includes (NilEmpty.string_of_uint d) "-" = false.
Proof. induction d; cbn [NilEmpty.string_of_uint includes]; auto. Qed.

Lemma ofNat_no_dash (n : nat) : includes (ofNat n) "-" = false.
Proof.
  unfold ofNat, NilZero.string_of_uint.
  destruct (Nat.to_uint n); try apply digits_no_dash. reflexivity.
Qed.

Lemma to_uint_nonnil (n : nat) : Nat.to_uint n <> Decimal.Nil.
Proof.
  rewrite <- (DecimalNat.Unsigned.of_to n) at 1.
  rewrite DecimalNat.Unsigned.to_of. apply DecimalFacts.unorm_nonnil.
Qed.

Lemma ofNat_inj (i j : nat) : ofNat i = ofNat j -> i = j.
Proof.
  unfold ofNat. intros H.
  apply DecimalNat.Unsigned.to_uint_inj.
  pose proof (NilZero.usu _ (to_uint_nonnil i)) as Hi.
  pose proof (NilZero.usu _ (to_uint_nonnil j)) as Hj.
  rewrite H in Hi. rewrite Hi in Hj. now injection Hj.
Qed.

(** What follows the last dash of a string is determined by the string. *)
Lemma after_last_dash (x1 x2 d1 d2 : string) :
  includes d1 "-" = false -> includes d2 "-" = false ->
  x1 +++ "-" +++ d1 = x2 +++ "-" +++ d2 -> d1 = d2.
Proof.
  intros H1 H2. revert x2.
  induction x1 as [|c x1 IH]; intros [|c2 x2] H.
  - now injection H.
  - injection H as _ H.
    pose proof (includes_append x2 "-" d2) as Hc.
    change (x2 +++ "-" +++ d2) with (x2 +++ String "-" d2) in Hc.
    congruence.
  - injection H as _ H.
    pose proof (includes_append x1 "-" d1) as Hc.
    change (x1 +++ "-" +++ d1) with (x1 +++ String "-" d1) in Hc.
    congruence.
  - injection H as _ H. exact (IH _ H).
Qed.

(** The id of an artifact names its ordinal. *)
Lemma artifact_id_inj (z1 z2 : Z) (i j : nat) :
  "artifact-" +++ ofZ z1 +++ "-" +++ ofNat i
  = "artifact-" +++ ofZ z2 +++ "-" +++ ofNat j ->
  i = j.
Proof.
  intros H.
  rewrite <- (append_assoc "artifact-" (ofZ z1) ("-" +++ ofNat i)),
    <- (append_assoc "artifact-" (ofZ z2) ("-" +++ ofNat j)) in H.
  apply ofNat_inj.
  exact (@after_last_dash _ _ _ _ (ofNat_no_dash i) (ofNat_no_dash j) H).
Qed.

Lemma ids_artifactsFrom (clk : nat -> Z) (reads i : nat)
  (ms : list Regex.Match) (a : Artifact.t) :
  In a (Shape.artifactsFrom clk reads i ms) ->
  exists z j,
    i <= j /\ Artifact.id a = "artifact-" +++ ofZ z +++ "-" +++ ofNat j.
Proof.
  revert reads i. induction ms as [|m ms IH]; intros reads i H; [destruct H|].
  cbn [Shape.artifactsFrom] in H. destruct H as [<- | H].
  - do 2 eexists. split; [apply Nat.le_refl | reflexivity].
  - destruct (IH _ _ H) as (z & j & Hj & Hid).
    exists z, j. split; [lia | exact Hid].
Qed.

Lemma NoDup_ids_artifactsFrom (clk : nat -> Z) (reads i : nat)
  (ms : list Regex.Match) :
  NoDup (map Artifact.id (Shape.artifactsFrom clk reads i ms)).
Proof.
  revert reads i. induction ms as [|m ms IH]; intros reads i;
    cbn [Shape.artifactsFrom map]; constructor; [|apply IH].
  intros Hin. apply in_map_iff in Hin. destruct Hin as (a & Hid & Ha).
  apply ids_artifactsFrom in Ha. destruct Ha as (z & j & Hj & Hida).
  rewrite Hida in Hid. cbn [Shape.artifactOf Artifact.id] in Hid.
  apply artifact_id_inj in Hid. lia.
Qed.

End IdentifierFacts.

Section IdentifierTheorems.

(** X7 -- The artifacts of one extraction have pairwise different ids,
    whatever the clock says -- also when every reading of it is the same
    millisecond: the ordinal at the end of the id tells them apart.  Both
    extractors, the provider's and the service's, give this list. *)
Theorem artifact_ids_are_distinct (text : string) (w : World) :
  exists l,
    fst (AzureAIProvider.extractArtifacts text w) = Return l
    /\ fst (AIService.extractArtifacts text w) = Return l
    /\ NoDup (map Artifact.id l).
Proof.
  unfold AIService.extractArtifacts. rewrite AIService_extractLoop_same.
  change (AzureAIProvider.extractLoop text 0 [])
    with (AzureAIProvider.extractArtifacts text).
  rewrite extractArtifacts_spec. eexists.
  split; [reflexivity|]. split; [reflexivity|].
  apply NoDup_ids_artifactsFrom.
Qed.

End IdentifierTheorems.

(** ** Setting the providers up *)

Section SetupFacts.

Lemma removeTrailingSlash_slash (e : string) :
  AzureAIProvider.removeTrailingSlash (e +++ "/") = e.
Proof.
  induction e as [|c e IH]; [reflexivity|].
  change (String c e +++ "/") with (String c (e +++ "/")).
  cbn [AzureAIProvider.removeTrailingSlash]. rewrite IH.
  destruct e; [|now rewrite andb_false_r].
  now rewrite andb_false_r.
Qed.

End SetupFacts.

Section SetupTheorems.

(** X8 -- [initializeLegacy] never throws and leaves the service
    initialized.  With a key that is not empty, the provider it selects is
    ready afterwards: a key that starts with [sk-ant-] selects Anthropic
    and makes its client with that key; any other selects Azure at
    [https://models.inference.ai.azure.com] with that key.  With the empty
    key Azure is selected and no provider is set up or changed. *)
Theorem initializeLegacy_ready (this : AIService.t) (key : string) :
  let this' := snd (AIService.initializeLegacy this key) in
  fst (AIService.initializeLegacy this key) = Return tt
  /\ AIService.isInitialized this' = true
  /\ (isEmpty key = false ->
      if startsWith key "sk-ant-" then
        AIService.activeProvider this' = anthropic
        /\ AIService.anthropicClient this'
           = Some {| Anthropic.apiKey := key;
                     Anthropic.timeout := 1200000;
                     Anthropic.maxRetries := 2 |}
      else
        AIService.activeProvider this' = azure
        /\ AzureAIProvider.config (AIService.azureProvider this')
           = Some (Build_AzureAIConfig
                     "https://models.inference.ai.azure.com" key None
                     (Some "2024-05-01-preview"))
        /\ AzureAIProvider.getInitializationStatus
             (AIService.azureProvider this') = true)
  /\ (key = "" ->
      AIService.activeProvider this' = azure
      /\ AIService.azureProvider this' = AIService.azureProvider this
      /\ AIService.anthropicClient this' = AIService.anthropicClient this).
Proof.
  cbv zeta. unfold AIService.initializeLegacy.
  destruct (startsWith key "sk-ant-") eqn:Hprefix.
  - unfold AIService.initialize, AIService.azureConfigured,
      AIService.anthropicConfigured.
    cbn [AIConfig.azure AIConfig.anthropic AIConfig.provider
         AnthropicConfig.apiKey fst snd AIService.isInitialized
         AIService.activeProvider AIService.anthropicClient
         AIService.azureProvider].
    split; [reflexivity|]. split; [reflexivity|]. split.
    + intros Hkey. rewrite Hkey. now split.
    + intros ->. discriminate Hprefix.
  - unfold AIService.initialize, AIService.azureConfigured,
      AIService.anthropicConfigured, AzureAIProvider.initialize.
    cbn [AIConfig.azure AIConfig.anthropic AIConfig.provider
         endpoint apiKey apiVersion deploymentName isEmpty negb andb orb
         AIService.azureProvider].
    destruct (isEmpty key) eqn:Hempty;
      cbn [negb fst snd AIService.isInitialized AIService.activeProvider
           AIService.anthropicClient AIService.azureProvider
           AzureAIProvider.config].
    + split; [reflexivity|]. split; [reflexivity|]. split.
      * intros H. discriminate H.
      * intros _. now repeat split.
    + cbn [endpoint apiKey apiVersion deploymentName isEmpty orb].
      rewrite Hempty.
      cbn [fst snd AIService.isInitialized AIService.activeProvider
           AIService.anthropicClient AIService.azureProvider
           AzureAIProvider.config].
      split; [reflexivity|]. split; [reflexivity|]. split.
      * intros _. now repeat split.
      * intros ->. discriminate Hempty.
Qed.

Lemma initializeLegacy_ready_witness :
  AIService.activeProvider
    (snd (AIService.initializeLegacy AIService.new "ghp_example")) = azure
  /\ AzureAIProvider.config
       (AIService.azureProvider
          (snd (AIService.initializeLegacy AIService.new "ghp_example")))
     = Some (Build_AzureAIConfig "https://models.inference.ai.azure.com"
                                 "ghp_example" None
                                 (Some "2024-05-01-preview"))
  /\ AzureAIProvider.getInitializationStatus
       (AIService.azureProvider
          (snd (AIService.initializeLegacy AIService.new "ghp_example")))
     = true.
Proof.
  exact (proj1 (proj2 (proj2 (initializeLegacy_ready AIService.new
                                "ghp_example"))) eq_refl).
Defined.

(** X9 -- Initializing the service again never takes a provider away: a
    provider the new configuration does not configure keeps the client or
    the credentials it had, so a provider that was ready before
    [initialize] is ready after it, whatever the new configuration. *)
Theorem initialize_keeps_providers (this : AIService.t)
  (config : AIConfig.t) :
  let this' := snd (AIService.initialize this config) in
  (AIService.anthropicConfigured config = None ->
   AIService.anthropicClient this' = AIService.anthropicClient this)
  /\ (AIService.azureConfigured config = None ->
      AIService.azureProvider this' = AIService.azureProvider this)
  /\ (AIService.hasAnthropicClient this = true ->
      AIService.hasAnthropicClient this' = true)
  /\ (AzureAIProvider.getInitializationStatus (AIService.azureProvider this)
      = true ->
      AzureAIProvider.getInitializationStatus (AIService.azureProvider this')
      = true).
Proof.
  cbv zeta. unfold AIService.initialize. cbv zeta.
  cbn [AIService.azureProvider].
  destruct (AIService.azureConfigured config) as [a|] eqn:Hazure.
  - destruct (azureConfigured_accepted config (AIService.azureProvider this)
                Hazure) as (p & -> & Hready).
    cbn [snd AIService.anthropicClient AIService.azureProvider].
    unfold AIService.hasAnthropicClient. cbn [AIService.anthropicClient].
    destruct (AIService.anthropicConfigured config);
      repeat split; auto; discriminate.
  - cbn [snd AIService.anthropicClient AIService.azureProvider].
    unfold AIService.hasAnthropicClient. cbn [AIService.anthropicClient].
    destruct (AIService.anthropicConfigured config);
      repeat split; auto; discriminate.
Qed.

Lemma initialize_keeps_providers_witness :
  AIService.hasAnthropicClient
    (snd (AIService.initialize Sample.serviceReady Sample.azureWithoutKey))
  = true
  /\ AzureAIProvider.getInitializationStatus
       (AIService.azureProvider
          (snd (AIService.initialize Sample.serviceReady
                                     Sample.azureWithoutKey)))
     = true.
Proof.
  split.
  - exact (proj1 (proj2 (proj2 (initialize_keeps_providers
                                  Sample.serviceReady
                                  Sample.azureWithoutKey))) eq_refl).
  - exact (proj2 (proj2 (proj2 (initialize_keeps_providers
                                  Sample.serviceReady
                                  Sample.azureWithoutKey))) eq_refl).
Defined.

(** X10 -- One trailing slash of the configured endpoint is dropped: a
    provider initialized with the endpoint [e/] posts to
    [e/chat/completions], not to [e//chat/completions]. *)
Theorem trailing_slash_is_dropped (this : AzureAIProvider.t)
  (e key : string) (deployment version : option string) :
  isEmpty key = false ->
  exists this',
    AzureAIProvider.initialize this
      (Build_AzureAIConfig (e +++ "/") key deployment version) = Return this'
    /\ forall w,
        AzureAIProvider.getEndpoint this' w
        = (Return (e +++ "/chat/completions"), w).
Proof.
  intros Hkey. unfold AzureAIProvider.initialize.
  cbn [endpoint apiKey deploymentName apiVersion]. rewrite Hkey.
  assert (Hend : isEmpty (e +++ "/") = false) by now destruct e.
  rewrite Hend. cbn [orb]. eexists. split; [reflexivity|].
  intros w. unfold AzureAIProvider.getEndpoint.
  cbn [AzureAIProvider.config endpoint].
  now rewrite removeTrailingSlash_slash.
Qed.

Lemma trailing_slash_is_dropped_witness :
  exists this',
    AzureAIProvider.initialize AzureAIProvider.new Sample.azureGood
    = Return this'
    /\ forall w,
        AzureAIProvider.getEndpoint this' w
        = (Return "https://models.inference.ai.azure.com/chat/completions",
           w).
Proof.
  exact (@trailing_slash_is_dropped AzureAIProvider.new
           "https://models.inference.ai.azure.com" "secret" None None
           eq_refl).
Defined.

End SetupTheorems.

(** ** Runs of stages *)

Section SynthesisRuns.
Import ExplorationEngine.
Local Open Scope Z_scope.

(** One stage through [executeStage]'s context update, in full. *)
Lemma executeStage_run (config : Config.t) (context : ExplorationContext)
  (stage : Stage) (stageNumber : Z) (isSummary : bool) (w : World) :
  executeStage_updateContext config context stage stageNumber isSummary w =
  let context1 := pushStage context stage stageNumber in
  if synthesisDue config isSummary stage context1 then
    let w1 :=
      synthesisCalled
        (logged w
           (EvSynthesis
              {| givenStages :=
                   sliceFrom (- Config.synthesisInterval config)
                             (previousStages context1);
                 givenInsights :=
                   AzureAIProvider.orDefault (richInsights context1) [] |}))
    in
    match synthesisScript w (synthesisCalls w) with
    | Return synthesisReport =>
        (Return (recordSynthesis context1 synthesisReport), w1)
    | Throw _ => (Return context1, w1)
    end
  else (Return context1, w).
Proof.
  unfold executeStage_updateContext. cbv zeta.
  destruct (synthesisDue config isSummary stage
              (pushStage context stage stageNumber)) eqn:Hdue;
    [|reflexivity].
  unfold synthesisDue in Hdue. cbv zeta in Hdue.
  apply andb_true_iff in Hdue. destruct Hdue as [_ Hle].
  apply Z.geb_le in Hle.
  unfold tryCatch, createMiniSynthesis. cbv zeta.
  rewrite (lastStages_enough _ Hle).
  unfold tryCatch, bind, synthesisService_createMiniSynthesis, ret.
  destruct (synthesisScript w (synthesisCalls w)); reflexivity.
Qed.

(** The last [interval] entries of a list that has that many. *)
Lemma length_lastStages {A} (interval : Z) (xs : list A) :
  0 < interval -> interval <= Z.of_nat (List.length xs) ->
  List.length (sliceFrom (- interval) xs) = Z.to_nat interval.
Proof.
  intros Hpos Hle. unfold sliceFrom. rewrite length_skipn.
  destruct (Z.ltb_spec (- interval) 0); lia.
Qed.

(** Going from [k] to [k + 1] passes a multiple of [i] or it does not. *)
Lemma div_succ (k i : Z) :
  0 <= k -> 0 < i ->
  (k + 1) / i = k / i + (if (k + 1) mod i =? 0 then 1 else 0).
Proof.
  intros Hk Hi.
  pose proof (Z.div_mod k i ltac:(lia)) as Hdm.
  pose proof (Z.mod_pos_bound k i Hi) as Hr.
  destruct (Z.eq_dec (k mod i + 1) i) as [Heq | Hne].
  - assert (Hm : (k + 1) mod i = 0).
    { symmetry. apply (Z.mod_unique (k + 1) i (k / i + 1) 0); lia. }
    rewrite Hm. cbn [Z.eqb].
    symmetry. apply (Z.div_unique (k + 1) i (k / i + 1) 0); lia.
  - assert (Hm : (k + 1) mod i = k mod i + 1).
    { symmetry. apply (Z.mod_unique (k + 1) i (k / i) (k mod i + 1)); lia. }
    rewrite Hm.
    destruct (Z.eqb_spec (k mod i + 1) 0) as [H0 | _]; [lia|].
    rewrite Z.add_0_r.
    symmetry. apply (Z.div_unique (k + 1) i (k / i) (k mod i + 1)); lia.
Qed.

End SynthesisRuns.

Section SynthesisRunTheorems.
Import ExplorationEngine.


End SynthesisRunTheorems.

Section SynthesisCountTheorems.
Import ExplorationEngine.
Local Open Scope Z_scope.

(** X12 -- When the trigger fires on a positive interval, the synthesis
    service is asked once, and what that call is handed is exactly
    [interval] stages: the last ones of the context in their order, ending
    with the stage just pushed; with them go the rich insights of the
    context, none when it has none. *)
Theorem synthesis_window (config : Config.t) (context : ExplorationContext)
  (stage : Stage) (stageNumber : Z) (isSummary : bool) (w : World) :
  0 < Config.synthesisInterval config ->
  synthesisDue config isSummary stage (pushStage context stage stageNumber)
  = true ->
  let after :=
    snd (executeStage_updateContext config context stage stageNumber
                                    isSummary w) in
  exists before earlier,
    previousStages context = (before ++ earlier)%list
    /\ Z.of_nat (List.length (earlier ++ [ stage ]))
       = Config.synthesisInterval config
    /\ trace after
       = (trace w
          ++ [ EvSynthesis
                 {| givenStages := earlier ++ [ stage ];
                    givenInsights :=
                      AzureAIProvider.orDefault (richInsights context) []
                 |} ])%list
    /\ synthesisCalls after = S (synthesisCalls w).
Proof.
  intros Hpos Hdue. cbv zeta. rewrite executeStage_run. cbv zeta.
  rewrite Hdue.
  unfold synthesisDue in Hdue. cbv zeta in Hdue.
  apply andb_true_iff in Hdue. destruct Hdue as [_ Hle].
  apply Z.geb_le in Hle.
  cbn [pushStage previousStages richInsights] in *.
  rewrite length_app in Hle. cbn [List.length] in Hle.
  set (k := (List.length (previousStages context) + 1
             - Z.to_nat (Config.synthesisInterval config))%nat).
  assert (Hk : (k <= List.length (previousStages context))%nat) by lia.
  assert (Hslice : sliceFrom (- Config.synthesisInterval config)
                             (previousStages context ++ [ stage ])%list
                   = (skipn k (previousStages context) ++ [ stage ])%list).
  { unfold sliceFrom. rewrite length_app. cbn [List.length].
    destruct (Z.ltb_spec (- Config.synthesisInterval config) 0); [|lia].
    replace (Z.to_nat
               (Z.max (Z.of_nat (List.length (previousStages context) + 1)
                       + - Config.synthesisInterval config) 0))
      with k by lia.
    rewrite skipn_app.
    replace (k - List.length (previousStages context))%nat with 0%nat
      by lia.
    reflexivity. }
  rewrite Hslice.
  exists (firstn k (previousStages context)),
         (skipn k (previousStages context)).
  split; [symmetry; apply firstn_skipn|].
  split.
  - rewrite length_app, length_skipn. cbn [List.length]. lia.
  - destruct (synthesisScript w (synthesisCalls w)); split; reflexivity.
Qed.

Lemma synthesis_window_witness :
  exists before earlier,
    previousStages Sample.twoStagesDone = (before ++ earlier)%list
    /\ Z.of_nat (List.length (earlier ++ [ Sample.doneStage ])) = 3
    /\ trace (snd (executeStage_updateContext Sample.everyThree
                     Sample.twoStagesDone Sample.doneStage 3 false
                     Sample.synthesisWorld))
       = (trace Sample.synthesisWorld
          ++ [ EvSynthesis
                 {| givenStages := earlier ++ [ Sample.doneStage ];
                    givenInsights := [] |} ])%list
    /\ synthesisCalls
         (snd (executeStage_updateContext Sample.everyThree
                 Sample.twoStagesDone Sample.doneStage 3 false
                 Sample.synthesisWorld))
       = 1%nat.
Proof.
  exact (@synthesis_window Sample.everyThree Sample.twoStagesDone
           Sample.doneStage 3 false Sample.synthesisWorld
           eq_refl eq_refl).
Defined.

(** X13 -- How many syntheses a run makes.  With mini-synthesis enabled,
    a positive interval and a synthesis service that delivers, a run of
    completed stages none of which is a summary raises the synthesis
    counter by the number of multiples of the interval that the stage
    count passes: from [k] stages to [k + n] stages that is
    [(k + n) / interval - k / interval]; from an empty context,
    [n / interval]. *)
Theorem synthesis_count (config : Config.t) (context : ExplorationContext)
  (stageNumber : Z) (stages : list (Stage * bool)) (w : World) :
  Config.enableMiniSynthesis config = true ->
  0 < Config.synthesisInterval config ->
  (forall call, exists synthesisReport,
      synthesisScript w call = Return synthesisReport) ->
  Forall (fun entry => status (fst entry) = complete /\ snd entry = false)
         stages ->
  exists context',
    fst (runStages config context stageNumber stages w) = Return context'
    /\ Z.of_nat (AzureAIProvider.orDefault (synthesisCount context') 0%nat)
       = Z.of_nat (AzureAIProvider.orDefault (synthesisCount context) 0%nat)
         + ((Z.of_nat (List.length (previousStages context))
             + Z.of_nat (List.length stages))
            / Config.synthesisInterval config
            - Z.of_nat (List.length (previousStages context))
              / Config.synthesisInterval config).
Proof.
  intros Henabled Hpos. revert context stageNumber w.
  induction stages as [|[stage isSummary] more IH];
    intros context stageNumber w Hservice Hstages.
  - exists context. split; [reflexivity|].
    cbn [List.length]. rewrite Z.add_0_r. lia.
  - inversion Hstages as [|entry rest [Hcomplete Hsummary] Hmore]; subst.
    cbn [fst snd] in Hcomplete, Hsummary. subst isSummary.
    cbn [runStages]. unfold bind. rewrite executeStage_run. cbv zeta.
    assert (Hlen : Z.of_nat (List.length
                     (previousStages (pushStage context stage stageNumber)))
                   = Z.of_nat (List.length (previousStages context)) + 1).
    { cbn [pushStage previousStages]. rewrite length_app.
      cbn [List.length]. lia. }
    assert (Hdue : synthesisDue config false stage
                     (pushStage context stage stageNumber)
                   = ((Z.of_nat (List.length (previousStages context)) + 1)
                      mod Config.synthesisInterval config =? 0)).
    { destruct (synthesisDue config false stage
                  (pushStage context stage stageNumber)) eqn:E.
      - apply synthesisDue_iff in E; [|lia].
        destruct E as (_ & _ & _ & Hmod & _). rewrite Hlen in Hmod.
        now rewrite Hmod.
      - destruct (Z.eqb_spec
                    ((Z.of_nat (List.length (previousStages context)) + 1)
                     mod Config.synthesisInterval config) 0) as [Hmod|];
          [|reflexivity].
        rewrite <- E. apply synthesisDue_iff; [lia|].
        rewrite Hlen. repeat split; auto.
        apply Z.mod_divide in Hmod; [|lia].
        apply Z.divide_pos_le in Hmod; lia. }
    rewrite Hdue.
    pose proof (@div_succ (Z.of_nat (List.length (previousStages context)))
                  (Config.synthesisInterval config)
                  ltac:(lia) Hpos) as Hstep.
    destruct (Z.eqb_spec
                ((Z.of_nat (List.length (previousStages context)) + 1)
                 mod Config.synthesisInterval config) 0) as [Hmod | Hmod].
    + destruct (Hservice (synthesisCalls w)) as (report & ->).
      match goal with
      | |- context [runStages config ?c ?n more ?w1] =>
          destruct (IH c n w1 Hservice Hmore) as (context' & Hrun & Hcount)
      end.
      exists context'. split; [exact Hrun|]. rewrite Hcount.
      cbn [recordSynthesis synthesisCount AzureAIProvider.orDefault
           previousStages pushStage].
      rewrite length_app. cbn [List.length].
      replace (Z.of_nat (List.length (previousStages context) + 1)%nat)
        with (Z.of_nat (List.length (previousStages context)) + 1) by lia.
      replace (Z.of_nat (List.length (previousStages context))
               + Z.of_nat (S (List.length more)))
        with (Z.of_nat (List.length (previousStages context)) + 1
              + Z.of_nat (List.length more)) by lia.
      rewrite Hstep.
      destruct (synthesisCount context); cbn [AzureAIProvider.orDefault];
        lia.
    + match goal with
      | |- context [runStages config ?c ?n more ?w1] =>
          destruct (IH c n w1 Hservice Hmore) as (context' & Hrun & Hcount)
      end.
      exists context'. split; [exact Hrun|]. rewrite Hcount.
      cbn [synthesisCount previousStages pushStage].
      rewrite length_app. cbn [List.length].
      replace (Z.of_nat (List.length (previousStages context) + 1)%nat)
        with (Z.of_nat (List.length (previousStages context)) + 1) by lia.
      replace (Z.of_nat (List.length (previousStages context))
               + Z.of_nat (S (List.length more)))
        with (Z.of_nat (List.length (previousStages context)) + 1
              + Z.of_nat (List.length more)) by lia.
      rewrite Hstep. lia.
Qed.

Lemma synthesis_count_witness :
  exists context',
    fst (runStages Sample.everyThree Sample.emptyContext 1
           (repeat (Sample.doneStage, false) 7) Sample.synthesisWorld)
    = Return context'
    /\ Z.of_nat (AzureAIProvider.orDefault (synthesisCount context') 0%nat)
       = 2.
Proof.
  exact (@synthesis_count Sample.everyThree Sample.emptyContext 1
           (repeat (Sample.doneStage, false) 7) Sample.synthesisWorld
           eq_refl eq_refl
           (fun _ => ex_intro _ Sample.report eq_refl)
           ltac:(repeat constructor)).
Defined.

End SynthesisCountTheorems.

(** ** Tool calls, retryable errors, the SDK call, header values *)

Section ToolCallFacts.

(** The tool uses [parseToolCalls] gathers: for each call whose arguments
    parse, its name and the parsed input. *)
Lemma parseToolCalls_spec (toolCalls : list ToolCall.t)
  (toolUses : list ToolUse.t) (w : World) :
  AzureAIProvider.parseToolCalls toolCalls toolUses w =
  (Return
     (toolUses
      ++ flat_map
           (fun tool =>
              match parseJson w (ToolCall.arguments tool) with
              | Some input =>
                  [ {| ToolUse.type := ToolCall.name tool;
                       ToolUse.input := input |} ]
              | None => []
              end) toolCalls),
   w).
Proof.
  revert toolUses. induction toolCalls as [|tool more IH]; intros toolUses.
  - cbn [AzureAIProvider.parseToolCalls flat_map]. now rewrite app_nil_r.
  - cbn [AzureAIProvider.parseToolCalls flat_map].
    unfold bind, tryCatch, JSON_parse, ret.
    destruct (parseJson w (ToolCall.arguments tool)) as [input|].
    + rewrite IH. now rewrite <- app_assoc.
    + now rewrite IH.
Qed.

End ToolCallFacts.

Section ToolCallTheorems.

(** X14 -- The tool uses of a parsed Azure response are the tool calls of
    the first choice's message, in their order, each with its name and its
    arguments parsed; a call whose arguments are no JSON is left out and
    raises nothing; with no tool use left the field is absent. *)
Theorem tool_calls_are_parsed (response : Completion.t) (model : AIModel)
  (w : World) :
  exists r w',
    AzureAIProvider.parseResponse (Body.shaped response) model w
    = (Return r, w')
    /\ AIResponse.toolUses r
       = AIService.someIfAny
           (flat_map
              (fun tool =>
                 match parseJson w (ToolCall.arguments tool) with
                 | Some input =>
                     [ {| ToolUse.type := ToolCall.name tool;
                          ToolUse.input := input |} ]
                 | None => []
                 end)
              match AzureAIProvider.firstMessage response with
              | Some msg =>
                  match Message.tool_calls msg with
                  | Some calls => calls
                  | None => []
                  end
              | None => []
              end).
Proof.
  unfold AzureAIProvider.parseResponse. cbv zeta. unfold bind at 1.
  rewrite parseToolCalls_spec. unfold bind.
  rewrite extractArtifacts_spec. unfold ret.
  eexists. eexists. split; [reflexivity|].
  cbn [AIResponse.toolUses app]. unfold AIService.someIfAny.
  reflexivity.
Qed.

End ToolCallTheorems.

Section RetryableFacts.

Lemma includes_split (s sub : string) :
  includes s sub = true -> exists a b, s = a +++ sub +++ b.
Proof.
  induction s as [|c s IH]; cbn [includes]; intros H.
  - rewrite orb_false_r in H. unfold startsWith in H.
    destruct (stripPrefix sub "") as [r|] eqn:Hstrip; [|discriminate H].
    apply stripPrefix_spec in Hstrip. now exists "", r.
  - apply orb_true_iff in H. destruct H as [H | H].
    + unfold startsWith in H.
      destruct (stripPrefix sub (String c s)) as [r|] eqn:Hstrip;
        [|discriminate H].
      apply stripPrefix_spec in Hstrip. now exists "", r.
    + destruct (IH H) as (a & b & ->). now exists (String c a), b.
Qed.

(** A text that includes [sub] still does inside a longer text. *)
Lemma includes_wrapped (pre s post sub : string) :
  includes s sub = true -> includes (pre +++ s +++ post) sub = true.
Proof.
  intros H. destruct (includes_split _ _ H) as (a & b & ->).
  replace (pre +++ (a +++ sub +++ b) +++ post)
    with ((pre +++ a) +++ sub +++ (b +++ post))
    by now rewrite !append_assoc.
  apply includes_append.
Qed.

End RetryableFacts.

Section RetryableTheorems.

(** X15 -- What the retry wrapper calls retryable depends on the message
    of the error alone: a thrown value that is no [Error] is never
    retried; the name of the error does not matter and neither does the
    case of the message; a retryable message stays retryable inside a
    longer one; and so an HTTP failure is retried whenever the text of
    its body mentions one of the keywords, whatever its status. *)
Theorem retryable_is_about_the_message :
  (forall v, AzureAIProvider.isRetryableError (NonError v) = false)
  /\ (forall name name' message,
        AzureAIProvider.isRetryableError (JsError name message)
        = AzureAIProvider.isRetryableError
            (JsError name' (toLowerCase message)))
  /\ (forall name message pre post,
        AzureAIProvider.isRetryableError (JsError name message) = true ->
        AzureAIProvider.isRetryableError
          (JsError name (pre +++ message +++ post)) = true)
  /\ (forall response keyword,
        In keyword AzureAIProvider.retryableKeywords ->
        includes (toLowerCase (Response.text response)) keyword = true ->
        AzureAIProvider.isRetryableError
          (AzureAIProvider.httpError response) = true).
Proof.
  split; [reflexivity|]. split; [|split].
  - intros name name' message. cbn [AzureAIProvider.isRetryableError].
    cbv zeta. now rewrite toLowerCase_idempotent.
  - intros name message pre post H.
    cbn [AzureAIProvider.isRetryableError] in *. cbv zeta in *.
    apply existsb_exists in H. destruct H as (keyword & Hin & Hkw).
    apply existsb_exists. exists keyword. split; [exact Hin|].
    rewrite !toLowerCase_append. now apply includes_wrapped.
  - intros response keyword Hin Hkw.
    unfold AzureAIProvider.httpError, newError.
    cbn [AzureAIProvider.isRetryableError]. cbv zeta.
    apply existsb_exists. exists keyword. split; [exact Hin|].
    rewrite !toLowerCase_append.
    rewrite <- (append_empty_r (toLowerCase (Response.text response))).
    rewrite <- !append_assoc.
    rewrite append_assoc.
    now apply includes_wrapped.
Qed.

End RetryableTheorems.

Section SdkCallFacts.

Lemma wire_after_create {A} (params : Anthropic.Params)
  (k : Anthropic.Message -> M A) (w : World) :
  (forall response, Keeps (fun w0 => wire (trace w0)) (k response)) ->
  wire (trace (snd ((response <- messages_create params ;; k response) w)))
  = wire (trace w) ++ [ EvMessagesCreate params ].
Proof.
  intros Hk. unfold bind, messages_create.
  destruct (createScript w (sdkCalls w)) as [response | e].
  - rewrite (Hk response). change (trace (sdkCalled ?x)) with (trace x).
    now apply wire_plain.
  - cbn [snd]. change (trace (sdkCalled ?x)) with (trace x).
    now apply wire_plain.
Qed.

Lemma wire_after_stream {A} (params : Anthropic.Params)
  (k : Anthropic.MessageStream -> M A) (w : World) :
  (forall stream, Keeps (fun w0 => wire (trace w0)) (k stream)) ->
  wire (trace (snd ((stream <- messages_stream params ;; k stream) w)))
  = wire (trace w) ++ [ EvMessagesStream params ].
Proof.
  intros Hk. unfold bind, messages_stream.
  destruct (streamScript w (sdkCalls w)) as [stream | e].
  - rewrite (Hk stream). change (trace (sdkCalled ?x)) with (trace x).
    now apply wire_plain.
  - cbn [snd]. change (trace (sdkCalled ?x)) with (trace x).
    now apply wire_plain.
Qed.

Lemma executeAnthropicNonStreaming_wire (this : AIService.t)
  (client : Anthropic.Client) (params : Anthropic.Params) (model : AIModel)
  (w : World) :
  AIService.anthropicClient this = Some client ->
  wire (trace (snd (AIService.executeAnthropicNonStreaming this params
                      model w)))
  = wire (trace w) ++ [ EvMessagesCreate params ].
Proof.
  intros Hclient. unfold AIService.executeAnthropicNonStreaming.
  rewrite Hclient.
  change (wire (trace w)) with (wire (trace (clockRead w))).
  apply (wire_after_create _ _ (clockRead w)).
  intros response. apply keeps_bind.
  - apply keeps_Date_now. reflexivity.
  - intros _. apply keeps_parseAnthropicResponse. reflexivity.
Qed.

Lemma executeAnthropicStreaming_wire (this : AIService.t)
  (client : Anthropic.Client) (params : Anthropic.Params) (model : AIModel)
  (onChunk onThinking : bool) (w : World) :
  AIService.anthropicClient this = Some client ->
  wire (trace (snd (AIService.executeAnthropicStreaming this params model
                      onChunk onThinking w)))
  = wire (trace w) ++ [ EvMessagesStream params ].
Proof.
  intros Hclient. unfold AIService.executeAnthropicStreaming.
  rewrite Hclient. apply wire_after_stream. intros stream.
  apply keeps_bind.
  - apply keeps_consumeEvents. intros w0 e. apply wire_observer.
  - intros texts. apply keeps_bind; [apply keeps_lift|].
    intros finalMessage. apply keeps_bind.
    + apply keeps_when, keeps_emit. intros w0. now apply wire_observer.
    + intros _. apply keeps_bind; [|intros artifacts; apply keeps_ret].
      apply keeps_AIService_extractArtifacts. reflexivity.
Qed.

End SdkCallFacts.

Section SdkCallTheorems.

(** X16 -- What one call of the Anthropic provider through the service
    does to the outside, when the client exists: it calls the SDK exactly
    once -- [messages.stream] with [stream], [messages.create] without --
    with the model id as it stands, the token limit (8000 by default), the
    prompt as the one user message, the system prompt when it is not
    empty, the tools, and a thinking budget (5000 by default) only when
    extended thinking is asked for.  The service itself never repeats the
    call. *)
Theorem anthropic_call_wire (this : AIService.t) (client : Anthropic.Client)
  (options : AIExecuteOptions.t) (w : World) :
  AIService.anthropicClient this = Some client ->
  let params :=
    {| Anthropic.model :=
         modelId (AzureAIProvider.orDefault (AIExecuteOptions.model options)
                                            claude_sonnet_4_5_20250929);
       Anthropic.max_tokens :=
         AzureAIProvider.orDefault (AIExecuteOptions.maxTokens options)
                                   8000%Z;
       Anthropic.messages := [ ("user", AIExecuteOptions.prompt options) ];
       Anthropic.system := truthy (AIExecuteOptions.systemPrompt options);
       Anthropic.tools := AIExecuteOptions.tools options;
       Anthropic.thinking_budget :=
         if AzureAIProvider.orDefault
              (AIExecuteOptions.extendedThinking options) false
         then Some (AzureAIProvider.orDefault
                      (AIExecuteOptions.thinkingBudget options) 5000%Z)
         else None;
       Anthropic.stream :=
         AzureAIProvider.orDefault (AIExecuteOptions.stream options)
                                   false |} in
  wire (trace (snd (AIService.executeWithAnthropic this options w)))
  = wire (trace w)
    ++ [ EvProviderCall anthropic (AIExecuteOptions.model options);
         if AzureAIProvider.orDefault (AIExecuteOptions.stream options) false
         then EvMessagesStream params
         else EvMessagesCreate params ].
Proof.
  intros Hclient params.
  unfold AIService.executeWithAnthropic, bind, emit.
  unfold AIService.executeWithAnthropic_body. rewrite Hclient. cbv zeta.
  unfold AIService.mapModelToAnthropicFormat. fold params.
  destruct (AzureAIProvider.orDefault (AIExecuteOptions.stream options)
                                      false) eqn:Hstream.
  - rewrite (executeAnthropicStreaming_wire _ _ _ _ _ _ Hclient).
    rewrite wire_plain by reflexivity. now rewrite <- app_assoc.
  - rewrite (executeAnthropicNonStreaming_wire _ _ _ _ Hclient).
    rewrite wire_plain by reflexivity. now rewrite <- app_assoc.
Qed.

Lemma anthropic_call_wire_witness :
  wire (trace (snd (AIService.executeWithAnthropic Sample.serviceReady
                      Sample.ask Sample.azureDownWorld)))
  = [ EvProviderCall anthropic None;
      EvMessagesCreate
        {| Anthropic.model := "claude-sonnet-4-5-20250929";
           Anthropic.max_tokens := 50;
           Anthropic.messages :=
             [ ("user", "Reply with exactly CONNECTION_OK") ];
           Anthropic.system := None;
           Anthropic.tools := None;
           Anthropic.thinking_budget := None;
           Anthropic.stream := false |} ].
Proof.
  exact (@anthropic_call_wire Sample.serviceReady
           {| Anthropic.apiKey := "sk-ant-1";
              Anthropic.timeout := 1200000;
              Anthropic.maxRetries := 2 |}
           Sample.ask Sample.azureDownWorld eq_refl).
Defined.

End SdkCallTheorems.

Section HeaderTheorems.
Import Headers.

(** X17 -- [sanitizeHeaderValue] keeps the length of a header value,
    leaves every code unit up to [0xFF] where it is and puts a question
    mark for every other one; so the result is always ISO-8859-1, a value
    that already is comes back unchanged, and sanitizing twice is
    sanitizing once. *)
Theorem sanitizeHeaderValue_latin1 (value : list N) :
  List.length (sanitizeHeaderValue value) = List.length value
  /\ (forall i unit,
        nth_error value i = Some unit ->
        nth_error (sanitizeHeaderValue value) i
        = Some (if (unit <=? 255)%N then unit else questionMark))
  /\ isLatin1 (sanitizeHeaderValue value) = true
  /\ (isLatin1 value = true -> sanitizeHeaderValue value = value)
  /\ sanitizeHeaderValue (sanitizeHeaderValue value)
     = sanitizeHeaderValue value.
Proof.
  assert (Hfix : forall v, isLatin1 v = true -> sanitizeHeaderValue v = v).
  { induction v as [|unit v IH]; [reflexivity|].
    cbn [isLatin1 forallb sanitizeHeaderValue map]. intros H.
    apply andb_true_iff in H. destruct H as [Hunit Hv].
    rewrite Hunit. f_equal. now apply IH. }
  assert (Hlatin : forall v, isLatin1 (sanitizeHeaderValue v) = true).
  { induction v as [|unit v IH]; [reflexivity|].
    cbn [isLatin1 forallb sanitizeHeaderValue map].
    apply andb_true_iff. split; [|exact IH].
    destruct (unit <=? 255)%N eqn:Hunit; [exact Hunit | reflexivity]. }
  split; [apply length_map|]. split; [|split; [|split]].
  - intros i unit H. unfold sanitizeHeaderValue.
    rewrite nth_error_map, H. reflexivity.
  - apply Hlatin.
  - apply Hfix.
  - apply Hfix, Hlatin.
Qed.

End HeaderTheorems.

(** ** The trace only grows *)

Section GrowsFacts.

Lemma grows_ret {A} (a : A) : Grows (ret a).
Proof. intros w. exists []. now rewrite app_nil_r. Qed.

Lemma grows_throw {A} (e : Thrown) : Grows (@throw A e).
Proof. intros w. exists []. now rewrite app_nil_r. Qed.

Lemma grows_lift {A} (x : Outcome A) : Grows (fun w => (x, w)).
Proof. intros w. exists []. now rewrite app_nil_r. Qed.

Lemma grows_keeps {A} (m : M A) : Keeps trace m -> Grows m.
Proof. intros H w. exists []. now rewrite H, app_nil_r. Qed.

Lemma grows_bind {A B} (m : M A) (k : A -> M B) :
  Grows m -> (forall a, Grows (k a)) -> Grows (bind m k).
Proof.
  intros Hm Hk w. unfold bind. destruct (Hm w) as (more & Hmore).
  destruct (m w) as [[a | e] w1]; cbn [snd] in *; [|now exists more].
  destruct (Hk a w1) as (more' & Hmore'). exists (more ++ more').
  now rewrite Hmore', Hmore, app_assoc.
Qed.

Lemma grows_tryCatch {A} (m : M A) (h : Thrown -> M A) :
  Grows m -> (forall e, Grows (h e)) -> Grows (tryCatch m h).
Proof.
  intros Hm Hh w. unfold tryCatch. destruct (Hm w) as (more & Hmore).
  destruct (m w) as [[a | e] w1]; cbn [snd] in *; [now exists more|].
  destruct (Hh e w1) as (more' & Hmore'). exists (more ++ more').
  now rewrite Hmore', Hmore, app_assoc.
Qed.

Lemma grows_emit (e : Event) : Grows (emit e).
Proof. intros w. now exists [e]. Qed.

Lemma grows_when (c : bool) (m : M unit) : Grows m -> Grows (when c m).
Proof. intros H. destruct c; [exact H | apply grows_ret]. Qed.

Lemma grows_Date_now : Grows Date_now.
Proof. intros w. exists []. cbn. now rewrite app_nil_r. Qed.

Lemma grows_fetch (url authorization : string) (body : RequestBody.t) :
  Grows (fetch url authorization body).
Proof.
  intros w. exists [EvFetch url authorization body]. unfold fetch.
  now destruct (fetchScript w (fetchCalls w)).
Qed.

Lemma grows_messages_create (params : Anthropic.Params) :
  Grows (messages_create params).
Proof. intros w. now exists [EvMessagesCreate params]. Qed.

Lemma grows_messages_stream (params : Anthropic.Params) :
  Grows (messages_stream params).
Proof. intros w. now exists [EvMessagesStream params]. Qed.

End GrowsFacts.

Create HintDb grows.
#[local] Hint Resolve grows_ret grows_throw grows_lift grows_emit
  grows_Date_now grows_fetch grows_messages_create grows_messages_stream
  : grows.

Ltac grows :=
  repeat match goal with
         | |- Grows (bind _ _) => apply grows_bind; [|intros]
         | |- Grows (tryCatch _ _) => apply grows_tryCatch; [|intros]
         | |- Grows (when _ _) => apply grows_when
         | |- Grows (match ?x with _ => _ end) => destruct x
         | |- Grows _ => solve [auto with grows]
         end.

Section GrowsProviders.

Lemma grows_JSON_parse_frame (text : string) : Grows (JSON_parse_frame text).
Proof. apply grows_keeps, keeps_JSON_parse_frame. Qed.

Lemma grows_extractArtifacts (content : string) :
  Grows (AzureAIProvider.extractArtifacts content).
Proof. apply grows_keeps, keeps_extractArtifacts. reflexivity. Qed.

Lemma grows_AIService_extractArtifacts (content : string) :
  Grows (AIService.extractArtifacts content).
Proof. apply grows_keeps, keeps_AIService_extractArtifacts. reflexivity. Qed.

Lemma grows_parseResponse (response : Body.t) (model : AIModel) :
  Grows (AzureAIProvider.parseResponse response model).
Proof. apply grows_keeps, keeps_parseResponse. reflexivity. Qed.

Lemma grows_parseAnthropicResponse (response : Anthropic.Message)
  (model : AIModel) :
  Grows (AIService.parseAnthropicResponse response model).
Proof. apply grows_keeps, keeps_parseAnthropicResponse. reflexivity. Qed.
#[local] Hint Resolve grows_JSON_parse_frame grows_extractArtifacts
  grows_AIService_extractArtifacts grows_parseResponse
  grows_parseAnthropicResponse : grows.

Lemma grows_handleFrame (onChunk onThinking : bool) (parsed : Frame.t)
  (st : AzureAIProvider.StreamState) :
  Grows (AzureAIProvider.handleFrame onChunk onThinking parsed st).
Proof. unfold AzureAIProvider.handleFrame. grows. Qed.
#[local] Hint Resolve grows_handleFrame : grows.

Lemma grows_handleLines (onChunk onThinking : bool) (lines : list string)
  (st : AzureAIProvider.StreamState) :
  Grows (AzureAIProvider.handleLines onChunk onThinking lines st).
Proof.
  revert st. induction lines as [|line more IH]; intros st;
    cbn [AzureAIProvider.handleLines]; cbv zeta; grows.
Qed.
#[local] Hint Resolve grows_handleLines : grows.

Lemma grows_readLoop (onChunk onThinking : bool) (reads : list ReadResult)
  (st : AzureAIProvider.StreamState) :
  Grows (AzureAIProvider.readLoop onChunk onThinking reads st).
Proof.
  revert st. induction reads as [|read more IH]; intros st;
    cbn [AzureAIProvider.readLoop]; [grows|].
  destruct read; cbv zeta; grows.
Qed.
#[local] Hint Resolve grows_readLoop : grows.

Lemma grows_executeStreaming (this : AzureAIProvider.t)
  (body : RequestBody.t) (model : AIModel) (onChunk onThinking : bool) :
  Grows (AzureAIProvider.executeStreaming this body model
           onChunk onThinking).
Proof.
  unfold AzureAIProvider.executeStreaming, AzureAIProvider.getEndpoint,
    AzureAIProvider.getHeaders.
  grows.
Qed.

End GrowsProviders.

Section RetriedStreamTheorems.

(** X18 -- A streamed [execute] of the Azure provider with an [onChunk]
    observer, when it returns a response: the response is that of one
    attempt, the last; and the content the observer has put together is
    what the attempts before it told, followed by the response's
    [content].  The chunks of an attempt that failed half-way are not
    taken back. *)
Theorem retried_stream_is_heard (this : AzureAIProvider.t)
  (options : AIExecuteOptions.t) (w w' : World) (r : AIResponse.t) :
  AzureAIProvider.orDefault (AIExecuteOptions.stream options) false = true ->
  AIExecuteOptions.onChunk options = true ->
  AzureAIProvider.execute this options w = (Return r, w') ->
  exists body model earlier w0,
    trace w0 = trace w ++ earlier
    /\ AzureAIProvider.executeStreaming this body model true
         (AIExecuteOptions.onThinking options) w0 = (Return r, w')
    /\ heard StreamChunk.kind.content (trace w')
       = heard StreamChunk.kind.content (trace w)
         +++ heard StreamChunk.kind.content earlier
         +++ AIResponse.content r.
Proof.
  intros Hstream Hobserver Hrun. unfold AzureAIProvider.execute in Hrun.
  destruct (AzureAIProvider.config this); [|discriminate Hrun].
  cbv zeta in Hrun. rewrite Hstream, Hobserver in Hrun.
  rewrite executeWithRetry_three_attempts in Hrun.
  match type of Hrun with
  | context [AzureAIProvider.executeStreaming this ?b ?m true ?ot w] =>
      set (body := b) in *; set (model := m) in *;
      exists body, model;
      pose proof (fun w0 => grows_executeStreaming this body model true ot w0)
        as Hgrows
  end.
  assert (Hdone : forall earlier w0,
             trace w0 = trace w ++ earlier ->
             AzureAIProvider.executeStreaming this body model true
               (AIExecuteOptions.onThinking options) w0 = (Return r, w') ->
             heard StreamChunk.kind.content (trace w')
             = heard StreamChunk.kind.content (trace w)
               +++ heard StreamChunk.kind.content earlier
               +++ AIResponse.content r).
  { intros earlier w0 Hw0 Hlast.
    rewrite (proj1 (@azure_attempt_hears _ _ _ _ _ _ _ Hlast)), Hw0,
      heard_app.
    now rewrite append_assoc. }
  destruct (Hgrows w) as (more1 & H1).
  destruct (AzureAIProvider.executeStreaming this body model true
              (AIExecuteOptions.onThinking options) w)
    as [[r1 | e1] w1] eqn:Hfirst.
  { exists [], w. rewrite app_nil_r. injection Hrun as <- <-.
    repeat split; [exact Hfirst|]. apply (Hdone [] w); [|exact Hfirst].
    now rewrite app_nil_r. }
  destruct (AzureAIProvider.isRetryableError e1); [|discriminate Hrun].
  cbn [snd] in H1.
  destruct (Hgrows (logged w1 (EvSleep 2000))) as (more2 & H2).
  destruct (AzureAIProvider.executeStreaming this body model true
              (AIExecuteOptions.onThinking options)
              (logged w1 (EvSleep 2000)))
    as [[r2 | e2] w2] eqn:Hsecond.
  { exists (more1 ++ [EvSleep 2000]), (logged w1 (EvSleep 2000)).
    injection Hrun as <- <-.
    assert (Hw0 : trace (logged w1 (EvSleep 2000))
                  = trace w ++ more1 ++ [EvSleep 2000]).
    { cbn [logged trace]. now rewrite H1, app_assoc. }
    repeat split; [exact Hw0 | exact Hsecond |].
    exact (Hdone _ _ Hw0 Hsecond). }
  destruct (AzureAIProvider.isRetryableError e2); [|discriminate Hrun].
  cbn [snd] in H2.
  exists (more1 ++ [EvSleep 2000] ++ more2 ++ [EvSleep 4000]),
         (logged w2 (EvSleep 4000)).
  assert (Hw0 : trace (logged w2 (EvSleep 4000))
                = trace w ++ more1 ++ [EvSleep 2000] ++ more2
                  ++ [EvSleep 4000]).
  { cbn [logged trace] in *. rewrite H2, H1. now rewrite <- !app_assoc. }
  repeat split; [exact Hw0 | exact Hrun |].
  exact (Hdone _ _ Hw0 Hrun).
Qed.

Lemma retried_stream_is_heard_witness :
  heard StreamChunk.kind.content
    (trace (snd (AzureAIProvider.execute Sample.azureReady
                   Sample.askObserved Sample.brokenThenHi)))
  = "HiHi"
  /\ exists body model earlier w0,
      trace w0 = trace Sample.brokenThenHi ++ earlier
      /\ AzureAIProvider.executeStreaming Sample.azureReady body model true
           true w0
         = (Return Sample.hiResponse,
            snd (AzureAIProvider.execute Sample.azureReady
                   Sample.askObserved Sample.brokenThenHi))
      /\ heard StreamChunk.kind.content
           (trace (snd (AzureAIProvider.execute Sample.azureReady
                          Sample.askObserved Sample.brokenThenHi)))
         = heard StreamChunk.kind.content (trace Sample.brokenThenHi)
           +++ heard StreamChunk.kind.content earlier
           +++ "Hi".
Proof.
  split; [vm_compute; reflexivity|].
  assert (Hfst : fst (AzureAIProvider.execute Sample.azureReady
                        Sample.askObserved Sample.brokenThenHi)
                 = Return Sample.hiResponse) by (vm_compute; reflexivity).
  assert (Hrun : AzureAIProvider.execute Sample.azureReady
                   Sample.askObserved Sample.brokenThenHi
                 = (Return Sample.hiResponse,
                    snd (AzureAIProvider.execute Sample.azureReady
                           Sample.askObserved Sample.brokenThenHi)))
    by (rewrite <- Hfst; apply surjective_pairing).
  exact (@retried_stream_is_heard Sample.azureReady Sample.askObserved
           Sample.brokenThenHi _ Sample.hiResponse eq_refl eq_refl Hrun).
Defined.

End RetriedStreamTheorems.

(** ** After a switch of provider *)

Section SwitchFacts.

Lemma grows_executeNonStreaming (this : AzureAIProvider.t)
  (body : RequestBody.t) (model : AIModel) :
  Grows (AzureAIProvider.executeNonStreaming this body model).
Proof.
  unfold AzureAIProvider.executeNonStreaming, AzureAIProvider.getEndpoint,
    AzureAIProvider.getHeaders.
  grows; apply grows_parseResponse.
Qed.

Lemma grows_executeWithRetry (operation : M AIResponse.t) :
  Grows operation -> Grows (AzureAIProvider.executeWithRetry operation 1).
Proof.
  intros Hop w. rewrite executeWithRetry_three_attempts.
  destruct (Hop w) as (more1 & H1).
  destruct (operation w) as [[r1 | e1] w1]; cbn [snd] in *;
    [now exists more1|].
  destruct (AzureAIProvider.isRetryableError e1); [|now exists more1].
  destruct (Hop (logged w1 (EvSleep 2000))) as (more2 & H2).
  cbn [logged trace] in H2. rewrite H1, <- !app_assoc in H2.
  destruct (operation (logged w1 (EvSleep 2000))) as [[r2 | e2] w2];
    cbn [snd] in *; [eexists; exact H2|].
  destruct (AzureAIProvider.isRetryableError e2); [|eexists; exact H2].
  destruct (Hop (logged w2 (EvSleep 4000))) as (more3 & H3).
  cbn [logged trace] in H3. rewrite H2, <- !app_assoc in H3.
  eexists. exact H3.
Qed.

Lemma grows_azure_execute (this : AzureAIProvider.t)
  (options : AIExecuteOptions.t) :
  Grows (AzureAIProvider.execute this options).
Proof.
  unfold AzureAIProvider.execute.
  destruct (AzureAIProvider.config this); [|apply grows_throw].
  cbv zeta.
  destruct (AzureAIProvider.orDefault (AIExecuteOptions.stream options) false).
  - apply grows_executeWithRetry, grows_executeStreaming.
  - apply grows_executeNonStreaming.
Qed.

Lemma grows_consumeEvents (onChunk onThinking : bool)
  (events : list Anthropic.StreamStep) (fullContent fullThinking : string) :
  Grows (AIService.consumeEvents onChunk onThinking events
                                 fullContent fullThinking).
Proof.
  revert fullContent fullThinking.
  induction events as [|step more IH]; intros fullContent fullThinking;
    cbn [AIService.consumeEvents]; [grows|].
  destruct step as [event | e]; [|grows].
  destruct event; grows.
Qed.

Lemma grows_executeWithAnthropic (this : AIService.t)
  (options : AIExecuteOptions.t) :
  Grows (AIService.executeWithAnthropic this options).
Proof.
  unfold AIService.executeWithAnthropic, AIService.executeWithAnthropic_body.
  apply grows_bind; [apply grows_emit|]. intros _.
  destruct (AIService.anthropicClient this) eqn:Hclient;
    [|apply grows_throw].
  cbv zeta.
  destruct (AzureAIProvider.orDefault (AIExecuteOptions.stream options) false).
  - unfold AIService.executeAnthropicStreaming. rewrite Hclient.
    grows; first [apply grows_consumeEvents
                 | apply grows_AIService_extractArtifacts].
  - unfold AIService.executeAnthropicNonStreaming. rewrite Hclient.
    grows; apply grows_parseAnthropicResponse.
Qed.

Lemma grows_executeWithAzure (this : AIService.t)
  (options : AIExecuteOptions.t) :
  Grows (AIService.executeWithAzure this options).
Proof.
  unfold AIService.executeWithAzure.
  apply grows_bind; [apply grows_emit|]. intros _. apply grows_azure_execute.
Qed.

Lemma grows_tryFallback (this : AIService.t) (options : AIExecuteOptions.t)
  (model : AIModel) :
  Grows (AIService.tryFallback this options model).
Proof.
  unfold AIService.tryFallback.
  apply grows_tryCatch; [|intros; apply grows_ret].
  destruct (_ && _).
  - apply grows_bind; [apply grows_executeWithAnthropic|].
    intros; apply grows_ret.
  - destruct (_ && _); [|apply grows_ret].
    apply grows_bind; [apply grows_executeWithAzure|].
    intros; apply grows_ret.
Qed.

Lemma wire_grows {A} (m : M A) (w : World) :
  Grows m -> exists more, wire (trace (snd (m w))) = wire (trace w) ++ more.
Proof.
  intros H. destruct (H w) as (more & ->). exists (wire more).
  apply wire_app.
Qed.

(** The first thing a call of the Azure provider through the service puts
    on the wire, when the provider has a configuration, is an HTTP
    request. *)
Lemma executeWithAzure_first (this : AIService.t) (cfg : AzureAIConfig)
  (options : AIExecuteOptions.t) (w : World) :
  AzureAIProvider.config (AIService.azureProvider this) = Some cfg ->
  exists request rest,
    wire (trace (snd (AIService.executeWithAzure this options w)))
    = wire (trace w)
      ++ EvProviderCall azure (AIExecuteOptions.model options)
      :: request :: rest
    /\ isRequestTo azure request = true.
Proof.
  intros Hcfg. unfold AIService.executeWithAzure, bind, emit.
  set (w0 := logged w (EvProviderCall azure (AIExecuteOptions.model options))).
  assert (Hw0 : wire (trace w0)
                = wire (trace w)
                  ++ [EvProviderCall azure (AIExecuteOptions.model options)])
    by now apply wire_plain.
  unfold AzureAIProvider.execute. rewrite Hcfg. cbv zeta.
  destruct (AzureAIProvider.orDefault (AIExecuteOptions.stream options) false).
  - match goal with
    | |- context [AzureAIProvider.executeWithRetry ?op 1 w0] =>
        destruct (@executeWithRetry_wire op
                    (EvFetch (endpoint cfg +++ "/chat/completions")
                             ("Bearer " +++ apiKey cfg)
                             (RequestBody.withStream
                                (AzureAIProvider.buildRequestBody
                                   (AIExecuteOptions.prompt options)
                                   (AzureAIProvider.orDefault
                                      (AIExecuteOptions.model options)
                                      claude_3_5_sonnet_20241022)
                                   (AzureAIProvider.orDefault
                                      (AIExecuteOptions.maxTokens options)
                                      8000%Z)
                                   (AzureAIProvider.orDefault
                                      (AIExecuteOptions.extendedThinking
                                         options) false)
                                   (AzureAIProvider.orDefault
                                      (AIExecuteOptions.thinkingBudget
                                         options) 5000%Z)
                                   (AIExecuteOptions.tools options)
                                   (AIExecuteOptions.systemPrompt options))))
                    w0)
          as [H | [H | H]];
          [intros w1; now apply executeStreaming_wire | | | ];
          rewrite H, Hw0, <- app_assoc; cbn [app];
          do 2 eexists; (split; [reflexivity|reflexivity])
    end.
  - rewrite (@executeNonStreaming_wire _ _ _ _ w0 Hcfg), Hw0, <- app_assoc.
    cbn [app]. do 2 eexists. split; reflexivity.
Qed.

(** And the first thing a call of the Anthropic provider puts on the wire,
    when the client exists, is a call of the SDK. *)
Lemma executeWithAnthropic_first (this : AIService.t)
  (client : Anthropic.Client) (options : AIExecuteOptions.t) (w : World) :
  AIService.anthropicClient this = Some client ->
  exists request rest,
    wire (trace (snd (AIService.executeWithAnthropic this options w)))
    = wire (trace w)
      ++ EvProviderCall anthropic (AIExecuteOptions.model options)
      :: request :: rest
    /\ isRequestTo anthropic request = true.
Proof.
  intros Hclient.
  unfold AIService.executeWithAnthropic, bind, emit,
    AIService.executeWithAnthropic_body.
  rewrite Hclient. cbv zeta.
  destruct (AzureAIProvider.orDefault (AIExecuteOptions.stream options) false).
  - rewrite (@executeAnthropicStreaming_wire _ _ _ _ _ _ _ Hclient).
    rewrite wire_plain by reflexivity. rewrite <- app_assoc.
    do 2 eexists. split; reflexivity.
  - rewrite (@executeAnthropicNonStreaming_wire _ _ _ _ _ Hclient).
    rewrite wire_plain by reflexivity. rewrite <- app_assoc.
    do 2 eexists. split; reflexivity.
Qed.

End SwitchFacts.

Section SwitchTheorems.

(** X19 -- [setActiveProvider] only switches to a provider that is set
    up, and the switch takes: on an initialized service, the next
    [execute] after a successful switch asks that provider first, and the
    request really goes out -- an HTTP request for Azure, a call of the
    SDK for Anthropic -- before anything else happens on the wire. *)
Theorem switched_provider_is_asked (this this' : AIService.t)
  (p : AIProvider) (options : AIExecuteOptions.t) (w : World) :
  AIService.isInitialized this = true ->
  AIService.setActiveProvider this p = Return this' ->
  exists request rest,
    wire (trace (snd (AIService.execute this' options w)))
    = wire (trace w)
      ++ EvProviderCall p
           (Some (AzureAIProvider.orDefault (AIExecuteOptions.model options)
                                            claude_3_5_sonnet_20241022))
      :: request :: rest
    /\ isRequestTo p request = true.
Proof.
  intros Hinit Hswitch.
  set (model := AzureAIProvider.orDefault (AIExecuteOptions.model options)
                                          claude_3_5_sonnet_20241022).
  assert (Hfirst :
            exists request rest,
              wire (trace (snd
                (match p with
                 | azure =>
                     AIService.executeWithAzure this'
                       (AIExecuteOptions.withModel options model)
                 | anthropic =>
                     AIService.executeWithAnthropic this'
                       (AIExecuteOptions.withModel options model)
                 end w)))
              = wire (trace w) ++ EvProviderCall p (Some model)
                :: request :: rest
              /\ isRequestTo p request = true
              /\ AIService.isInitialized this' = true
              /\ AIService.activeProvider this' = p).
  { unfold AIService.setActiveProvider in Hswitch. destruct p.
    - destruct (AzureAIProvider.getInitializationStatus
                  (AIService.azureProvider this)) eqn:Hready;
        [|discriminate Hswitch].
      injection Hswitch as <-. cbn [negb AIService.isInitialized
                                   AIService.activeProvider].
      unfold AzureAIProvider.getInitializationStatus in Hready.
      apply andb_true_iff in Hready. destruct Hready as [_ Hcfg].
      destruct (AzureAIProvider.config (AIService.azureProvider this))
        as [cfg|] eqn:Hconfig; [|discriminate Hcfg].
      match goal with
      | |- context [AIService.executeWithAzure ?t ?o w] =>
          destruct (@executeWithAzure_first t cfg o w Hconfig)
            as (request & rest & Hwire & Hreq)
      end.
      exists request, rest. now repeat split.
    - destruct (AIService.hasAnthropicClient this) eqn:Hready;
        [|discriminate Hswitch].
      injection Hswitch as <-. cbn [negb AIService.isInitialized
                                   AIService.activeProvider].
      unfold AIService.hasAnthropicClient in Hready.
      destruct (AIService.anthropicClient this) as [client|] eqn:Hclient;
        [|discriminate Hready].
      match goal with
      | |- context [AIService.executeWithAnthropic ?t ?o w] =>
          destruct (@executeWithAnthropic_first t client o w eq_refl)
            as (request & rest & Hwire & Hreq)
      end.
      exists request, rest. now repeat split. }
  destruct Hfirst as (request & rest & Hwire & Hreq & Hinit' & Hactive).
  unfold AIService.execute. rewrite Hinit'. cbn [negb]. cbv zeta.
  unfold AIService.mapModel. fold model. rewrite Hactive.
  unfold tryCatch.
  destruct (match p with
            | azure =>
                AIService.executeWithAzure this'
                  (AIExecuteOptions.withModel options model)
            | anthropic =>
                AIService.executeWithAnthropic this'
                  (AIExecuteOptions.withModel options model)
            end w) as [[r | error] w1]; cbn [snd] in Hwire.
  { exists request, rest. now split. }
  assert (Hhandler : Grows (fallback <- AIService.tryFallback this' options
                                          model ;;
                            match fallback with
                            | Some response => ret response
                            | None => throw error
                            end)).
  { apply grows_bind; [apply grows_tryFallback|].
    intros [response|]; [apply grows_ret | apply grows_throw]. }
  destruct (wire_grows w1 Hhandler) as (more & Hmore).
  exists request, (rest ++ more). split; [|exact Hreq].
  rewrite Hmore, Hwire, <- app_assoc. reflexivity.
Qed.

Lemma switched_provider_is_asked_witness :
  exists request rest,
    wire (trace (snd (AIService.execute
                        {| AIService.config :=
                             AIService.config Sample.serviceReady;
                           AIService.anthropicClient :=
                             AIService.anthropicClient Sample.serviceReady;
                           AIService.azureProvider :=
                             AIService.azureProvider Sample.serviceReady;
                           AIService.isInitialized :=
                             AIService.isInitialized Sample.serviceReady;
                           AIService.activeProvider := anthropic |}
                        Sample.ask Sample.azureDownWorld)))
    = wire (trace Sample.azureDownWorld)
      ++ EvProviderCall anthropic (Some claude_3_5_sonnet_20241022)
      :: request :: rest
    /\ isRequestTo anthropic request = true.
Proof.
  exact (@switched_provider_is_asked Sample.serviceReady _ anthropic
           Sample.ask Sample.azureDownWorld eq_refl eq_refl).
Defined.

End SwitchTheorems.

(** ** Offered models, and the connection test of the service *)

Section OfferTheorems.

(** X20 -- The models the service offers and the failover.  Every model
    offered while Anthropic is active has an Azure counterpart that is
    offered while Azure is active, and comes back from it unchanged.  Of
    the models offered while Azure is active, the Claude ones have a
    counterpart that Anthropic offers; the two GPT models have none: a
    failover hands their id to Anthropic as it is. *)
Theorem offered_models_and_failover (a b : AIService.t) :
  AIService.activeProvider a = azure ->
  AIService.activeProvider b = anthropic ->
  (forall m,
      In m (AIService.getAvailableModels b) ->
      In (AIService.mapModelToAzure m) (AIService.getAvailableModels a)
      /\ AIService.mapModelToAnthropic (AIService.mapModelToAzure m) = m)
  /\ (forall m,
        In m (AIService.getAvailableModels a) ->
        (In (AIService.mapModelToAnthropic m) (AIService.getAvailableModels b)
         <-> m <> gpt_4o /\ m <> gpt_4o_mini)
        /\ (m = gpt_4o \/ m = gpt_4o_mini ->
            AIService.mapModelToAnthropic m = m)).
Proof.
  intros Ha Hb. unfold AIService.getAvailableModels. rewrite Ha, Hb.
  split.
  - intros m Hm. cbn [In] in Hm.
    destruct Hm as [<- | [<- | [<- | []]]]; cbn; tauto.
  - intros m Hm. cbn [In] in Hm.
    destruct Hm as [<- | [<- | [<- | [<- | [<- | []]]]]]; cbn;
      (split; [split|]);
      try (intros _; split; discriminate);
      try (intros; tauto);
      try (intros [H | [H | [H | []]]]; discriminate H);
      try (intros [H _]; now contradiction H);
      try (intros [_ H]; now contradiction H);
      try (intros [H | H]; discriminate H);
      try reflexivity.
Qed.

Lemma offered_models_and_failover_witness :
  In (AIService.mapModelToAzure claude_haiku_4_5)
     (AIService.getAvailableModels Sample.serviceReady)
  /\ AIService.mapModelToAnthropic
       (AIService.mapModelToAzure claude_haiku_4_5) = claude_haiku_4_5.
Proof.
  refine (proj1 (@offered_models_and_failover Sample.serviceReady
                   {| AIService.config := None;
                      AIService.anthropicClient := None;
                      AIService.azureProvider := AzureAIProvider.new;
                      AIService.isInitialized := false;
                      AIService.activeProvider := anthropic |}
                   eq_refl eq_refl) claude_haiku_4_5 _).
  cbn. tauto.
Defined.

End OfferTheorems.

Section ServiceConnectionTheorems.

(** X21 -- The connection test of the service never throws, and on a
    service that is not initialized it answers [false] and touches
    nothing.  It tests the service, not the active provider: when Azure
    is active and its call fails while an Anthropic client exists, the
    answer is whether Anthropic's reply to the failover mentions
    CONNECTION_OK. *)
Theorem service_testConnection (this : AIService.t) (w : World) :
  (exists isOk, fst (AIService.testConnection this w) = Return isOk)
  /\ (AIService.isInitialized this = false ->
      AIService.testConnection this w = (Return false, w))
  /\ (AIService.isInitialized this = true ->
      AIService.activeProvider this = azure ->
      AIService.hasAnthropicClient this = true ->
      forall options error w1,
        options = {| AIExecuteOptions.prompt :=
                       AzureAIProvider.connectionPrompt;
                     AIExecuteOptions.model := None;
                     AIExecuteOptions.maxTokens := Some 50%Z;
                     AIExecuteOptions.extendedThinking := None;
                     AIExecuteOptions.thinkingBudget := None;
                     AIExecuteOptions.stream := None;
                     AIExecuteOptions.onChunk := false;
                     AIExecuteOptions.onThinking := false;
                     AIExecuteOptions.tools := None;
                     AIExecuteOptions.systemPrompt := None |} ->
        AIService.executeWithAzure this
          (AIExecuteOptions.withModel options claude_3_5_sonnet_20241022) w
        = (Throw error, w1) ->
        fst (AIService.testConnection this w)
        = match fst (AIService.executeWithAnthropic this
                       (AIExecuteOptions.withModel options
                          claude_sonnet_4_5_20250929) w1) with
          | Return r =>
              Return (includes (AIResponse.content r) "CONNECTION_OK")
          | Throw _ => Return false
          end).
Proof.
  split; [|split].
  - unfold AIService.testConnection.
    destruct (negb (AIService.isInitialized this)); [now eexists|].
    unfold tryCatch, bind.
    destruct (AIService.execute this _ w) as [[r | e] w1]; now eexists.
  - intros Hinit. unfold AIService.testConnection. now rewrite Hinit.
  - intros Hinit Hactive Hclient options error w1 -> Hprimary.
    unfold AIService.testConnection. rewrite Hinit. cbn [negb].
    unfold tryCatch at 1, bind at 1.
    unfold AIService.execute. rewrite Hinit. cbn [negb]. cbv zeta.
    unfold AIService.mapModel.
    cbn [AIExecuteOptions.model AzureAIProvider.orDefault].
    rewrite Hactive. unfold tryCatch at 1. rewrite Hprimary.
    unfold bind at 1, AIService.tryFallback, tryCatch.
    rewrite Hactive, Hclient. cbn [andb]. unfold bind at 1.
    cbn [AIService.mapModelToAnthropic].
    destruct (AIService.executeWithAnthropic this _ w1) as [[r | e] w2];
      reflexivity.
Qed.

Lemma service_testConnection_witness :
  fst (AIService.testConnection Sample.serviceReady Sample.fallbackOkWorld)
  = Return true.
Proof.
  assert (Hprimary :
            AIService.executeWithAzure Sample.serviceReady
              (AIExecuteOptions.withModel
                 {| AIExecuteOptions.prompt :=
                      AzureAIProvider.connectionPrompt;
                    AIExecuteOptions.model := None;
                    AIExecuteOptions.maxTokens := Some 50%Z;
                    AIExecuteOptions.extendedThinking := None;
                    AIExecuteOptions.thinkingBudget := None;
                    AIExecuteOptions.stream := None;
                    AIExecuteOptions.onChunk := false;
                    AIExecuteOptions.onThinking := false;
                    AIExecuteOptions.tools := None;
                    AIExecuteOptions.systemPrompt := None |}
                 claude_3_5_sonnet_20241022) Sample.fallbackOkWorld
            = (Throw (newError "Azure AI error: 503 - Service Unavailable"),
               snd (AIService.executeWithAzure Sample.serviceReady
                      (AIExecuteOptions.withModel
                         {| AIExecuteOptions.prompt :=
                              AzureAIProvider.connectionPrompt;
                            AIExecuteOptions.model := None;
                            AIExecuteOptions.maxTokens := Some 50%Z;
                            AIExecuteOptions.extendedThinking := None;
                            AIExecuteOptions.thinkingBudget := None;
                            AIExecuteOptions.stream := None;
                            AIExecuteOptions.onChunk := false;
                            AIExecuteOptions.onThinking := false;
                            AIExecuteOptions.tools := None;
                            AIExecuteOptions.systemPrompt := None |}
                         claude_3_5_sonnet_20241022)
                      Sample.fallbackOkWorld))).
  { rewrite (surjective_pairing (AIService.executeWithAzure _ _ _)) at 1.
    f_equal; vm_compute; reflexivity. }
  rewrite (proj2 (proj2 (service_testConnection Sample.serviceReady
                           Sample.fallbackOkWorld))
             eq_refl eq_refl eq_refl _ _ _ eq_refl Hprimary).
  vm_compute. reflexivity.
Defined.

End ServiceConnectionTheorems.

(* ===================================================================== *)
(** * Failover *)
(* ===================================================================== *)

Section FailoverFacts.

(** The two translations of the service are the translation by the
    table. *)
Lemma mapModelToAnthropic_translated (model : AIModel) :
  AIService.mapModelToAnthropic model = translated anthropic model.
Proof. destruct model; reflexivity. Qed.

Lemma mapModelToAzure_translated (model : AIModel) :
  AIService.mapModelToAzure model = translated azure model.
Proof. destruct model; reflexivity. Qed.

(** One provider call through the service: its entry, then its
    attempts. *)
Lemma executeWith_wire (p : AIProvider) (this : AIService.t)
  (options : AIExecuteOptions.t) (w : World) :
  exists sent,
    Attempts p this options sent
    /\ wire (trace (snd (executeWith p this options w)))
       = wire (trace w)
         ++ EvProviderCall p (AIExecuteOptions.model options) :: sent.
Proof.
  destruct p; cbn [executeWith]; unfold Attempts.
  - unfold AIService.executeWithAzure, bind, emit.
    set (w0 := logged w (EvProviderCall azure (AIExecuteOptions.model options))).
    assert (Hw0 : wire (trace w0)
                  = wire (trace w)
                    ++ [EvProviderCall azure (AIExecuteOptions.model options)])
      by now apply wire_plain.
    unfold AzureAIProvider.execute.
    destruct (AzureAIProvider.config (AIService.azureProvider this))
      as [cfg|] eqn:Hcfg.
    + cbv zeta. unfold azureRequest. cbv zeta.
      destruct (AzureAIProvider.orDefault (AIExecuteOptions.stream options)
                                          false).
      * match goal with
        | |- context [AzureAIProvider.executeWithRetry ?op 1 w0] =>
            destruct (@executeWithRetry_wire op
                        (EvFetch (endpoint cfg +++ "/chat/completions")
                           ("Bearer " +++ apiKey cfg)
                           (RequestBody.withStream
                              (AzureAIProvider.buildRequestBody
                                 (AIExecuteOptions.prompt options)
                                 (AzureAIProvider.orDefault
                                    (AIExecuteOptions.model options)
                                    claude_3_5_sonnet_20241022)
                                 (AzureAIProvider.orDefault
                                    (AIExecuteOptions.maxTokens options)
                                    8000%Z)
                                 (AzureAIProvider.orDefault
                                    (AIExecuteOptions.extendedThinking
                                       options) false)
                                 (AzureAIProvider.orDefault
                                    (AIExecuteOptions.thinkingBudget
                                       options) 5000%Z)
                                 (AIExecuteOptions.tools options)
                                 (AIExecuteOptions.systemPrompt options))))
                        w0)
              as [H | [H | H]];
              [intros w1; now apply executeStreaming_wire | | | ];
              rewrite H, Hw0, <- app_assoc; cbn [app];
              eexists; (split; [|reflexivity]); tauto
        end.
      * rewrite (@executeNonStreaming_wire _ _ _ _ w0 Hcfg), Hw0,
          <- app_assoc.
        cbn [app]. eexists. split; reflexivity.
    + exists []. split; [reflexivity|]. exact Hw0.
  - unfold AIService.executeWithAnthropic, bind, emit,
      AIService.executeWithAnthropic_body.
    destruct (AIService.anthropicClient this) as [client|] eqn:Hclient.
    + cbv zeta. unfold sdkCall, AIService.mapModelToAnthropicFormat.
      cbv zeta.
      destruct (AzureAIProvider.orDefault (AIExecuteOptions.stream options)
                                          false).
      * rewrite (@executeAnthropicStreaming_wire _ _ _ _ _ _ _ Hclient).
        rewrite wire_plain by reflexivity. rewrite <- app_assoc.
        eexists. split; reflexivity.
      * rewrite (@executeAnthropicNonStreaming_wire _ _ _ _ _ Hclient).
        rewrite wire_plain by reflexivity. rewrite <- app_assoc.
        eexists. split; reflexivity.
    + exists []. split; [reflexivity|]. now apply wire_plain.
Qed.

(** [execute] on an initialized service: the primary's call, and after
    its failure the secondary's call when the secondary is set up. *)
Lemma execute_failover (this : AIService.t) (options : AIExecuteOptions.t)
  (w : World) :
  AIService.isInitialized this = true ->
  let model :=
    AzureAIProvider.orDefault (AIExecuteOptions.model options)
                              claude_3_5_sonnet_20241022 in
  let secondary := otherProvider (AIService.activeProvider this) in
  AIService.execute this options w
  = match executeWith (AIService.activeProvider this) this
            (AIExecuteOptions.withModel options model) w with
    | (Return response, w1) => (Return response, w1)
    | (Throw error, w1) =>
        if isSetUp this secondary then
          match executeWith secondary this
                  (AIExecuteOptions.withModel options
                     (translated secondary model)) w1 with
          | (Return response, w2) => (Return response, w2)
          | (Throw _, w2) => (Throw error, w2)
          end
        else (Throw error, w1)
    end.
Proof.
  intros Hinit model secondary. subst secondary.
  unfold AIService.execute. rewrite Hinit. cbn [negb].
  unfold AIService.mapModel. fold model. unfold tryCatch at 1.
  unfold AIService.tryFallback, tryCatch, bind.
  rewrite mapModelToAnthropic_translated, mapModelToAzure_translated.
  destruct (AIService.activeProvider this);
    cbn [executeWith otherProvider isSetUp andb].
  - destruct (AIService.executeWithAzure this _ w) as [[r | error] w1];
      [reflexivity|].
    destruct (AIService.hasAnthropicClient this); [|reflexivity].
    destruct (AIService.executeWithAnthropic this _ w1) as [[r | e] w2];
      reflexivity.
  - destruct (AIService.executeWithAnthropic this _ w) as [[r | error] w1];
      [reflexivity|].
    destruct (AzureAIProvider.getInitializationStatus
                (AIService.azureProvider this)); [|reflexivity].
    destruct (AIService.executeWithAzure this _ w1) as [[r | e] w2];
      reflexivity.
Qed.

End FailoverFacts.

Section FailoverTheorems.

(** C2, as stated, fails: the one call of the secondary provider is not
    one attempt against it, and retries do follow a failover.  With
    Anthropic as the primary provider, Azure set up and [stream] asked for,
    the SDK call fails and the failover goes to Azure, which answers 503
    every time: three HTTP requests go to the secondary, 2000 ms and
    4000 ms apart, before the primary's error is raised; and when the third
    request gets through, the result is the secondary's response after two
    failed attempts against it. *)
Lemma failover_is_followed_by_retries :
  let request :=
    EvFetch "https://models.inference.ai.azure.com/chat/completions"
            "Bearer secret"
            (RequestBody.withStream
               (AzureAIProvider.buildRequestBody
                  "hi" claude_3_5_sonnet_20241022 50 false 5000 None None)) in
  let sdk :=
    EvMessagesStream
      {| Anthropic.model := "claude-sonnet-4-5-20250929";
         Anthropic.max_tokens := 50;
         Anthropic.messages := [ ("user", "hi") ];
         Anthropic.system := None;
         Anthropic.tools := None;
         Anthropic.thinking_budget := None;
         Anthropic.stream := true |} in
  let down := FetchResolves Sample.serviceUnavailable in
  let failing :=
    AIService.execute Sample.anthropicFirst Sample.askSonnetStreaming
      (Sample.withFetches [ down; down; down ]) in
  let recovering :=
    AIService.execute Sample.anthropicFirst Sample.askSonnetStreaming
      (Sample.withFetches
         [ down; down; FetchResolves Sample.garbledStream ]) in
  fst failing = Throw (newError "Connection error.")
  /\ trace (snd failing)
     = [ EvProviderCall anthropic (Some claude_sonnet_4_5_20250929); sdk;
         EvProviderCall azure (Some claude_3_5_sonnet_20241022);
         request; EvSleep 2000; request; EvSleep 4000; request ]
  /\ (exists response,
         fst recovering = Return response
         /\ AIResponse.provider response = azure)
  /\ trace (snd recovering)
     = [ EvProviderCall anthropic (Some claude_sonnet_4_5_20250929); sdk;
         EvProviderCall azure (Some claude_3_5_sonnet_20241022);
         request; EvSleep 2000; request; EvSleep 4000; request ].
Proof.
  cbv zeta. split; [vm_compute; reflexivity|].
  split; [vm_compute; reflexivity|].
  split; [|vm_compute; reflexivity].
  eexists. split; [vm_compute; reflexivity | reflexivity].
Qed.

(** C2 (amended) -- On an initialized service one request asks at most two
    providers, each entered once: the active (primary) one for the model
    asked, and, only when its call fails and the other provider is set up,
    that secondary one for the model id translated by the table
    [MODEL_MAPPING].  The result is the primary's response, else the
    secondary's, else the primary's error; with no secondary set up the
    primary's error is raised at once.  A call is not an attempt: all that
    goes over the wire is each call's entry followed by its attempts, which
    are one call of the SDK for Anthropic, one HTTP request for Azure
    without [stream], and with [stream] one to three HTTP requests with
    waits of 2000 ms and 4000 ms between them, for the secondary as for
    the primary. *)
Theorem failover_asks_each_provider_once (this : AIService.t)
  (options : AIExecuteOptions.t) (w : World) :
  AIService.isInitialized this = true ->
  let model :=
    AzureAIProvider.orDefault (AIExecuteOptions.model options)
                              claude_3_5_sonnet_20241022 in
  let primary := AIService.activeProvider this in
  let secondary := otherProvider primary in
  let asked := AIExecuteOptions.withModel options model in
  let passedOn :=
    AIExecuteOptions.withModel options (translated secondary model) in
  let run := AIService.execute this options w in
  exists sent1,
    Attempts primary this asked sent1
    /\ match executeWith primary this asked w with
       | (Return response, w1) =>
           run = (Return response, w1)
           /\ wire (trace (snd run))
              = wire (trace w) ++ EvProviderCall primary (Some model) :: sent1
       | (Throw error, w1) =>
           if isSetUp this secondary then
             exists sent2,
               Attempts secondary this passedOn sent2
               /\ run = match executeWith secondary this passedOn w1 with
                        | (Return response, w2) => (Return response, w2)
                        | (Throw _, w2) => (Throw error, w2)
                        end
               /\ wire (trace (snd run))
                  = wire (trace w)
                    ++ EvProviderCall primary (Some model) :: sent1
                    ++ EvProviderCall secondary
                         (Some (translated secondary model)) :: sent2
           else
             run = (Throw error, w1)
             /\ wire (trace (snd run))
                = wire (trace w)
                  ++ EvProviderCall primary (Some model) :: sent1
       end.
Proof.
  intros Hinit model primary secondary asked passedOn run.
  destruct (executeWith_wire primary this asked w) as (sent1 & Hs1 & Hw1).
  exists sent1. split; [exact Hs1|].
  assert (Hrun := execute_failover this options w Hinit).
  cbv zeta in Hrun. fold model primary secondary asked passedOn run in Hrun.
  destruct (executeWith primary this asked w) as [[response | error] w1];
    cbn [snd] in Hw1.
  - split; [exact Hrun|]. rewrite Hrun. exact Hw1.
  - destruct (isSetUp this secondary).
    + destruct (executeWith_wire secondary this passedOn w1)
        as (sent2 & Hs2 & Hw2).
      exists sent2. split; [exact Hs2|]. split; [exact Hrun|].
      rewrite Hrun.
      replace (snd (let (o, w2) := executeWith secondary this passedOn w1 in
                    match o with
                    | Return response => (Return response, w2)
                    | Throw _ => (Throw error, w2)
                    end))
        with (snd (executeWith secondary this passedOn w1))
        by (destruct (executeWith secondary this passedOn w1) as [[r | e] w2];
            reflexivity).
      rewrite Hw2, Hw1, <- app_assoc. reflexivity.
    + split; [exact Hrun|]. rewrite Hrun. exact Hw1.
Qed.

Lemma failover_asks_each_provider_once_witness :
  wire (trace (snd (AIService.execute Sample.anthropicFirst Sample.askSonnet
                      (Sample.withFetches [ FetchResolves Sample.hello ]))))
  = [ EvProviderCall anthropic (Some claude_sonnet_4_5_20250929);
      EvMessagesCreate
        {| Anthropic.model := "claude-sonnet-4-5-20250929";
           Anthropic.max_tokens := 50;
           Anthropic.messages := [ ("user", "hi") ];
           Anthropic.system := None;
           Anthropic.tools := None;
           Anthropic.thinking_budget := None;
           Anthropic.stream := false |};
      EvProviderCall azure (Some claude_3_5_sonnet_20241022);
      EvFetch "https://models.inference.ai.azure.com/chat/completions"
              "Bearer secret"
              (AzureAIProvider.buildRequestBody
                 "hi" claude_3_5_sonnet_20241022 50 false 5000 None None) ].
Proof.
  pose proof (@failover_asks_each_provider_once Sample.anthropicFirst
                Sample.askSonnet
                (Sample.withFetches [ FetchResolves Sample.hello ]) eq_refl)
    as H.
  cbv zeta in H. destruct H as (sent1 & Hs1 & H).
  assert (Hfirst :
            fst (executeWith (AIService.activeProvider Sample.anthropicFirst)
                   Sample.anthropicFirst
                   (AIExecuteOptions.withModel Sample.askSonnet
                      (AzureAIProvider.orDefault
                         (AIExecuteOptions.model Sample.askSonnet)
                         claude_3_5_sonnet_20241022))
                   (Sample.withFetches [ FetchResolves Sample.hello ]))
            = Throw (newError "Connection error."))
    by (vm_compute; reflexivity).
  destruct (executeWith (AIService.activeProvider Sample.anthropicFirst)
              Sample.anthropicFirst
              (AIExecuteOptions.withModel Sample.askSonnet
                 (AzureAIProvider.orDefault
                    (AIExecuteOptions.model Sample.askSonnet)
                    claude_3_5_sonnet_20241022))
              (Sample.withFetches [ FetchResolves Sample.hello ]))
    as [[response | error] w1]; [discriminate Hfirst|].
  change (isSetUp Sample.anthropicFirst
            (otherProvider (AIService.activeProvider Sample.anthropicFirst)))
    with true in H.
  destruct H as (sent2 & Hs2 & _ & Hwire).
  rewrite Hwire.
  vm_compute in Hs1. vm_compute in Hs2. rewrite Hs1, Hs2.
  vm_compute. reflexivity.
Defined.

End FailoverTheorems.
